(** * Geospatial smoothing and freshness cache of the air-quality backend

    A shallow embedding of [backend/fetch_aqi.py] and [backend/fetch_aod.py]:
    the haversine distance, the greedy station clustering, the
    nearest-neighbour grid interpolation and the file cache in front of them.

    Python floats are idealised as real numbers: sums, quotients, [math.sin],
    [math.cos], [math.sqrt] and [math.atan2] are the exact operations of
    [R].  Rounding error is therefore outside the model; everything else
    (loop order, the [used] set, slicing, the explicit [round] calls, the
    random jitter, the order of file operations) is kept as the code has
    it. *)

From Stdlib Require Import String Reals Zfloor Lra Lia ZArith Bool Arith.
From Stdlib Require Import List Permutation Sorted.
Import ListNotations.

Open Scope R_scope.

(* ================================================================== *)
(** * Python built-ins used by the two modules *)
(* ================================================================== *)

Module Py.

(** Boolean views of the comparisons on floats. *)
Definition ltb (x y : R) : bool := if Rlt_dec x y then true else false.
Definition eqb (x y : R) : bool := if Req_dec_T x y then true else false.

(** [round(x)] with one argument: the nearest integer, ties going to the
    even neighbour; the result is a Python [int]. *)
Definition round (x : R) : Z :=
  let f := Zfloor x in
  let r := x - IZR f in
  if ltb r (1 / 2) then f
  else if ltb (1 / 2) r then (f + 1)%Z
  else if Z.even f then f else (f + 1)%Z.

(** [round(x, 3)]: the nearest multiple of [0.001], ties to even; the
    result is a float. *)
Definition round3 (x : R) : R := IZR (round (x * 1000)) / 1000.

(** [sum(xs)]: left-to-right accumulation from [0]. *)
Definition sum (xs : list R) : R := fold_left Rplus xs 0.

(** [math.radians]. *)
Definition radians (deg : R) : R := deg * (PI / 180).

(** [math.atan2(y, x)]. *)
Definition atan2 (y x : R) : R :=
  if ltb 0 x then atan (y / x)
  else if ltb x 0 then
    (if ltb y 0 then atan (y / x) - PI else atan (y / x) + PI)
  else if ltb 0 y then PI / 2
  else if ltb y 0 then - (PI / 2)
  else 0.

(** [enumerate(xs)]. *)
Fixpoint enumerate_from {A : Type} (n : nat) (xs : list A) : list (nat * A) :=
  match xs with
  | [] => []
  | x :: xs' => (n, x) :: enumerate_from (S n) xs'
  end.

Definition enumerate {A : Type} (xs : list A) : list (nat * A) :=
  enumerate_from 0 xs.

(** [sorted(xs, key=...)]: Python's sort is stable, so the result is the
    one ascending arrangement that keeps equal keys in input order.
    Inserting the elements one by one, each behind the elements whose key
    is not larger, builds exactly that arrangement. *)
Fixpoint insert_by {A : Type} (key : A -> R) (x : A) (l : list A) : list A :=
  match l with
  | [] => [x]
  | y :: l' => if ltb (key x) (key y) then x :: y :: l'
               else y :: insert_by key x l'
  end.

Definition sorted {A : Type} (key : A -> R) (xs : list A) : list A :=
  fold_left (fun acc x => insert_by key x acc) xs [].

(** [range(start, stop, step)] and [numpy.arange(start, stop, step)] on
    integers: [ceil((stop - start) / step)] values [start + k * step]
    (none when that count is not positive); a zero step raises. *)
Definition arange (start stop step : Z) : option (list Z) :=
  if (step =? 0)%Z then None
  else
    let n := Z.to_nat (- ((- (stop - start)) / step))%Z in
    Some (map (fun k => (start + Z.of_nat k * step)%Z) (seq 0 n)).

(** The same sequence where the step is known not to be zero: the built-in
    [range(start, stop, step)] with a literal step. *)
Definition range (start stop step : Z) : list Z :=
  match arange start stop step with
  | Some l => l
  | None => []
  end.

(** [random.uniform(a, b)] is [a + (b - a) * random()], where [u] is the
    value [random()] returned. *)
Definition uniform (a b u : R) : R := a + (b - a) * u.

(** [int(x)] of a float: truncation towards zero. *)
Definition int (x : R) : Z := if ltb x 0 then Zceil x else Zfloor x.

End Py.

(* ================================================================== *)
(** * Great-circle distance *)
(* ================================================================== *)

(** [haversine(lat1, lon1, lat2, lon2)], the same text in both modules.
    [hav_a] is the local variable [a].  [math.sqrt] raises on a negative
    argument; for latitudes in [[-90, 90]] both [a] and [1 - a] are
    non-negative (lemma [hav_a_range] below), so on geographic coordinates
    the total [sqrt] of [R] agrees with it. *)
Definition hav_a (lat1 lon1 lat2 lon2 : R) : R :=
  let dlat := Py.radians (lat2 - lat1) in
  let dlon := Py.radians (lon2 - lon1) in
  (sin (dlat / 2)) ^ 2
  + cos (Py.radians lat1) * cos (Py.radians lat2) * (sin (dlon / 2)) ^ 2.

Definition haversine (lat1 lon1 lat2 lon2 : R) : R :=
  let R_earth := 6371 in
  let a := hav_a lat1 lon1 lat2 lon2 in
  R_earth * 2 * Py.atan2 (sqrt a) (sqrt (1 - a)).

(* ================================================================== *)
(** * Outcomes of fallible steps *)
(* ================================================================== *)

Inductive exn : Type :=
| JSONDecodeError          (* [json.load] on bytes that are not JSON *)
| ZeroStep                 (* [numpy.arange] with a zero step *)
| OtherError (msg : string).

Inductive outcome (A : Type) : Type :=
| Ok (a : A)
| Raise (e : exn).

Arguments Ok {A} a.
Arguments Raise {A} e.

(* ================================================================== *)
(** * The cached fetch shared by [fetch_aqi_data] and [fetch_aod_data] *)
(* ================================================================== *)

Module Cache.

(** The cache file as the code sees it: its modification time, in seconds,
    and its bytes, which either decode to a payload or are not JSON
    ([None]). *)
Record file (P : Type) : Type := mkFile {
  st_mtime : R;
  content : option P
}.

Arguments mkFile {P} _ _.
Arguments st_mtime {P} _.
Arguments content {P} _.

(** What a call can see and change: the clock, the file (absent or
    present) and the services behind the compute step. *)
Record world (P E : Type) : Type := mkWorld {
  now : R;
  cache_file : option (file P);
  outside : E
}.

Arguments mkWorld {P E} _ _ _.
Arguments now {P E} _.
Arguments cache_file {P E} _.
Arguments outside {P E} _.

Section Fetch.

Context {P E : Type}.

(** [CACHE_FILE.exists()] and [age < 2], with [age] in hours. *)
Definition fresh (w : world P E) : option (file P) :=
  match cache_file w with
  | Some f =>
      let mtime := st_mtime f in
      let age := (now w - mtime) / 3600 in
      if Py.ltb age 2 then Some f else None
  | None => None
  end.

(** [json.load(open(CACHE_FILE))]. *)
Definition json_load (f : file P) : outcome P :=
  match content f with
  | Some payload => Ok payload
  | None => Raise JSONDecodeError
  end.

(** [with open(CACHE_FILE, "w") as f: json.dump(data, f, indent=2)]:
    the file is replaced as a whole and stamped with the clock. *)
Definition json_dump (data : P) (w : world P E) : world P E :=
  {| now := now w;
     cache_file := Some {| st_mtime := now w; content := Some data |};
     outside := outside w |}.

(** The body both fetchers share; [compute] stands for the lines
    between the freshness test and the write.  The third component
    counts the runs of [compute] the call made. *)
Definition cached_fetch (compute : world P E -> outcome P * world P E)
    (w : world P E) : outcome P * world P E * nat :=
  match fresh w with
  | Some f => (json_load f, w, 0%nat)
  | None =>
      let '(r, w1) := compute w in
      match r with
      | Ok data => (Ok data, json_dump data w1, 1%nat)
      | Raise e => (Raise e, w1, 1%nat)
      end
  end.

End Fetch.

End Cache.

(* ================================================================== *)
(** * fetch_aqi.py: stations, clustering, grid fill *)
(* ================================================================== *)

Module Aqi.

(** One element of the JSON array AirNow answers with, reduced to the keys
    [fetch_station] reads.  A key that may be absent (or null) is an
    [option]; coordinates are always present. *)
Record observation : Type := mkObservation {
  ReportingArea : option string;
  Latitude : R;
  Longitude : R;
  AQI : option R;
  CategoryName : option string;
  DateObserved : option string
}.

(** The dict [fetch_station] builds for a station. *)
Record station : Type := mkStation {
  city : string;
  lat : R;
  lon : R;
  aqi : R;
  category : string;
  observed : string           (* key ["time"] *)
}.

(** The dict [smooth_aqi_points] emits, for a cluster and for a grid
    cell alike; [round] makes its ["aqi"] an integer. *)
Record smoothed : Type := mkSmoothed {
  s_lat : R;
  s_lon : R;
  s_aqi : Z;
  s_category : string
}.

(** What one GET can come back with: an exception inside the [try] (no
    connection, timeout, a body that is not JSON), or a status with its
    decoded body. *)
Inductive response : Type :=
| Failed
| Http (status : Z) (body : list observation).

Definition COORDS : list (R * R) :=
  [ (47.61, -122.33); (34.05, -118.24); (36.16, -115.15);
    (40.76, -111.89); (39.74, -104.99); (41.88, -87.63);
    (29.76, -95.37); (32.78, -96.80); (38.63, -90.20);
    (40.71, -74.00); (42.36, -71.06); (33.75, -84.39);
    (25.76, -80.19); (44.95, -93.09); (39.95, -75.16);
    (45.52, -122.68); (35.22, -80.84); (33.45, -112.07);
    (37.77, -122.42); (30.26, -97.74); (46.87, -96.78);
    (43.04, -87.91); (35.15, -90.05); (36.17, -86.78);
    (27.95, -82.46); (41.26, -95.93) ]%R.

(** [d.get(key, default)]. *)
Definition get_or (default : string) (v : option string) : string :=
  match v with Some s => s | None => default end.

(** [not d.get("AQI")]: absent, null or zero. *)
Definition falsy (v : option R) : bool :=
  match v with
  | None => true
  | Some a => Py.eqb a 0
  end.

Definition station_of (d : observation) : list station :=
  match AQI d with
  | Some a =>
      if falsy (AQI d) then []
      else [ {| city := get_or "Unknown"%string (ReportingArea d);
                lat := Latitude d;
                lon := Longitude d;
                aqi := a;
                category := get_or "Unknown"%string (CategoryName d);
                observed := get_or EmptyString (DateObserved d) |} ]
  | None => []
  end.

(** [fetch_station]: every exception is caught and answered with [[]],
    and so is every status other than 200. *)
Definition fetch_station (r : response) : list station :=
  match r with
  | Failed => []
  | Http status data =>
      if (status =? 200)%Z then flat_map station_of data else []
  end.

(** The deduplication loop of [fetch_all_aqi]: [seen] holds the rounded
    coordinate pairs met so far. *)
Definition key_of (s : station) : R * R :=
  (Py.round3 (lat s), Py.round3 (lon s)).

Definition key_eqb (k1 k2 : R * R) : bool :=
  Py.eqb (fst k1) (fst k2) && Py.eqb (snd k1) (snd k2).

Fixpoint dedupe (all_data : list station) (seen : list (R * R))
    (unique : list station) : list station :=
  match all_data with
  | [] => unique
  | s :: rest =>
      if existsb (key_eqb (key_of s)) seen
      then dedupe rest seen unique
      else dedupe rest (key_of s :: seen) (unique ++ [s])
  end.

(** [fetch_all_aqi]: one GET per entry of [COORDS], gathered in order;
    [airnow] is the service, giving the response to the request made for
    a coordinate pair. *)
Definition fetch_all_aqi (airnow : R -> R -> response) : list station :=
  let results := map (fun c => fetch_station (airnow (fst c) (snd c))) COORDS in
  let all_data := concat results in
  dedupe all_data [] [].

(** ** Step 1: group nearby stations *)

Definition near (radius_km : R) (p q : station) : bool :=
  Py.ltb (haversine (lat p) (lon p) (lat q) (lon q)) radius_km.

(** A cluster holds references to the dicts of [points]; a reference is
    kept here as the index of the dict in [points] together with it. *)
Definition member : Type := (nat * station)%type.

(** The inner loop: [for j, q in enumerate(points)] with [cluster] and
    [used] as they are updated. *)
Fixpoint inner_loop (radius_km : R) (i : nat) (p : station)
    (jqs : list member) (cluster : list member) (used : list nat)
    : list member * list nat :=
  match jqs with
  | [] => (cluster, used)
  | (j, q) :: rest =>
      if negb (j =? i)%nat && near radius_km p q
      then inner_loop radius_km i p rest (cluster ++ [(j, q)]) (j :: used)
      else inner_loop radius_km i p rest cluster used
  end.

(** [i in used]. *)
Definition in_used (i : nat) (used : list nat) : bool :=
  existsb (Nat.eqb i) used.

(** The outer loop, collecting the successive values of [cluster]. *)
Fixpoint outer_loop (radius_km : R) (points : list station)
    (ips : list member) (used : list nat) (clusters : list (list member))
    : list (list member) :=
  match ips with
  | [] => clusters
  | (i, p) :: rest =>
      if in_used i used then outer_loop radius_km points rest used clusters
      else
        let '(cluster, used') :=
          inner_loop radius_km i p (Py.enumerate points) [(i, p)] used in
        outer_loop radius_km points rest used' (clusters ++ [cluster])
  end.

Definition clusters (points : list station) (radius_km : R)
    : list (list member) :=
  outer_loop radius_km points (Py.enumerate points) [] [].

(** The dict appended to [smoothed] for one cluster.  A cluster starts as
    [[p]], so [len(cluster)] is never zero and [cluster[0]] exists. *)
Definition representative (cluster : list member) : smoothed :=
  let cs := map snd cluster in
  let avg_aqi := Py.sum (map aqi cs) / INR (length cs) in
  {| s_lat := Py.sum (map lat cs) / INR (length cs);
     s_lon := Py.sum (map lon cs) / INR (length cs);
     s_aqi := Py.round avg_aqi;
     s_category := if (1 <? length cs)%nat then "Interpolated"%string
                   else match cs with
                        | c :: _ => category c
                        | [] => EmptyString
                        end |}.

(** ** Step 2: fill the grid *)

Definition lat_range : list Z := Py.range 25 50 2.
Definition lon_range : list Z := Py.range (-125) (-65) 2.

Definition dist_to (la lo : Z) (p : station) : R :=
  haversine (IZR la) (IZR lo) (lat p) (lon p).

Definition nearest (la lo : Z) (points : list station) : list station :=
  firstn 5 (Py.sorted (dist_to la lo) points).

Definition weights (la lo : Z) (ns : list station) : list R :=
  map (fun n => 1 / (dist_to la lo n + 1)) ns.

Definition weighted_avg (la lo : Z) (ns : list station) : R :=
  Py.sum (map (fun nw => aqi (fst nw) * snd nw) (combine ns (weights la lo ns)))
  / Py.sum (weights la lo ns).

(** The dict appended to [filled] for one grid coordinate. *)
Definition cell_at (la lo : Z) (ns : list station) : smoothed :=
  {| s_lat := IZR la + 0.5;
     s_lon := IZR lo + 0.5;
     s_aqi := Py.round (weighted_avg la lo ns);
     s_category := "Interpolated"%string |}.

(** The body of the two grid loops: nothing is appended when [nearest]
    is empty. *)
Definition fill_cell (points : list station) (la lo : Z) : list smoothed :=
  match nearest la lo points with
  | [] => []
  | ns => [cell_at la lo ns]
  end.

Definition fill_grid (points : list station) : list smoothed :=
  flat_map (fun la => flat_map (fun lo => fill_cell points la lo) lon_range)
           lat_range.

Definition smooth_aqi_points (points : list station) (radius_km : R)
    : list smoothed :=
  match points with
  | [] => []
  | _ => map representative (clusters points radius_km) ++ fill_grid points
  end.

(** ** The cached fetcher *)

(** The AirNow service as one call meets it: the response to each
    request, and the time the round of requests takes. *)
Record airnow : Type := mkAirnow {
  respond : R -> R -> response;
  elapsed : R
}.

Definition world : Type := Cache.world (list smoothed) airnow.

(** [asyncio.run(fetch_all_aqi())] followed by [smooth_aqi_points(data)]
    with the default radius. *)
Definition compute (w : world) : outcome (list smoothed) * world :=
  let svc := Cache.outside w in
  let data := fetch_all_aqi (respond svc) in
  let data := smooth_aqi_points data 150 in
  (Ok data,
   {| Cache.now := Cache.now w + elapsed svc;
      Cache.cache_file := Cache.cache_file w;
      Cache.outside := svc |}).

Definition fetch_aqi_data (w : world)
    : outcome (list smoothed) * world * nat :=
  Cache.cached_fetch compute w.

End Aqi.

(* ================================================================== *)
(** * fetch_aod.py: simulated granules, jittered grid *)
(* ================================================================== *)

Module Aod.

(** The dict [{"lat", "lon", "aod"}], read and emitted alike. *)
Record point : Type := mkPoint {
  lat : R;
  lon : R;
  aod : R
}.

(** The two random sources the module draws from: [random.random()] of
    the standard library and [numpy.random.normal(0.15, 0.07)].  Each
    is the sequence of values it is going to return, with the position
    of the next one. *)
Record generators : Type := mkGenerators {
  random : nat -> R;
  random_pos : nat;
  normal : nat -> R;
  normal_pos : nat
}.

Definition next_random (g : generators) : R * generators :=
  (random g (random_pos g),
   {| random := random g; random_pos := S (random_pos g);
      normal := normal g; normal_pos := normal_pos g |}).

Definition next_normal (g : generators) : R * generators :=
  (normal g (normal_pos g),
   {| random := random g; random_pos := random_pos g;
      normal := normal g; normal_pos := S (normal_pos g) |}).

(** What one [earthaccess.login(strategy=...)] call does. *)
Inductive login_result : Type :=
| LoginRaises
| LoginNothing            (* a falsy result *)
| LoginAuth.

(** Earthdata as one call meets it; [search] is [false] when
    [search_data] raises. *)
Record earthdata : Type := mkEarthdata {
  netrc : login_result;
  environment : login_result;
  search : bool;
  elapsed : R
}.

(** [login()]: [true] for an auth object, [false] for [None] or a falsy
    result. *)
Definition login (svc : earthdata) : bool :=
  match netrc svc with
  | LoginRaises => false
  | LoginAuth => true
  | LoginNothing =>
      match environment svc with
      | LoginAuth => true
      | _ => false
      end
  end.

(** The loop [for _ in range(250)] of [fetch_aod_granules]. *)
Fixpoint simulate (n : nat) (g : generators) (data : list point)
    : list point * generators :=
  match n with
  | O => (data, g)
  | S n' =>
      let '(u1, g1) := next_random g in
      let '(u2, g2) := next_random g1 in
      let '(z, g3) := next_normal g2 in
      let aod0 := Rabs z in
      let aod1 := Rmin (Rmax (Py.round3 aod0) 0.01) 1.5 in
      simulate n' g3
        (data ++ [ {| lat := Py.uniform 25 49 u1;
                      lon := Py.uniform (-125) (-66) u2;
                      aod := aod1 |} ])
  end.

Definition fetch_aod_granules (svc : earthdata) (g : generators)
    : list point * generators :=
  if negb (login svc) then ([], g)
  else if search svc then simulate 250 g []
  else ([], g).

(** ** Interpolation *)

Definition dist_to (la lo : Z) (p : point) : R :=
  haversine (IZR la) (IZR lo) (lat p) (lon p).

Definition nearby (la lo : Z) (points : list point) : list point :=
  firstn 5 (Py.sorted (dist_to la lo) points).

Definition weights (la lo : Z) (ns : list point) : list R :=
  map (fun n => 1 / (dist_to la lo n + 1)) ns.

Definition weighted_avg (la lo : Z) (ns : list point) : R :=
  Py.sum (map (fun nw => aod (fst nw) * snd nw) (combine ns (weights la lo ns)))
  / Py.sum (weights la lo ns).

(** The dict appended to [smoothed] for one grid coordinate, given the
    two values [random()] returned. *)
Definition cell_at (la lo : Z) (ns : list point) (u1 u2 : R) : point :=
  {| lat := IZR la + Py.uniform (-0.3) 0.3 u1;
     lon := IZR lo + Py.uniform (-0.3) 0.3 u2;
     aod := Py.round3 (weighted_avg la lo ns) |}.

(** The body of the two grid loops, on the pair of [smoothed] and the
    generators: [continue] when [nearby] is empty, otherwise two draws
    (latitude first) and an append. *)
Definition cell_step (points : list point) (la lo : Z)
    (st : list point * generators) : list point * generators :=
  match nearby la lo points with
  | [] => st
  | ns =>
      let '(u1, g1) := next_random (snd st) in
      let '(u2, g2) := next_random g1 in
      (fst st ++ [cell_at la lo ns u1 u2], g2)
  end.

Definition lon_loop (points : list point) (lon_range : list Z) (la : Z)
    (st : list point * generators) : list point * generators :=
  fold_left (fun st lo => cell_step points la lo st) lon_range st.

Definition lat_loop (points : list point) (lat_range lon_range : list Z)
    (st : list point * generators) : list point * generators :=
  fold_left (fun st la => lon_loop points lon_range la st) lat_range st.

Definition smooth_aod_points (g : generators) (points : list point)
    (spacing : Z) : outcome (list point) * generators :=
  match points with
  | [] => (Ok [], g)
  | _ =>
      match Py.arange 25 49 spacing, Py.arange (-125) (-66) spacing with
      | Some lat_range, Some lon_range =>
          let '(smoothed, g') := lat_loop points lat_range lon_range ([], g) in
          (Ok smoothed, g')
      | _, _ => (Raise ZeroStep, g)
      end
  end.

(** ** The cached fetcher *)

Definition world : Type := Cache.world (list point) (earthdata * generators).

(** [fetch_aod_granules()] followed by [smooth_aod_points(raw)] with the
    default spacing. *)
Definition compute (w : world) : outcome (list point) * world :=
  let '(svc, g) := Cache.outside w in
  let '(raw, g1) := fetch_aod_granules svc g in
  let '(smoothed, g2) := smooth_aod_points g1 raw 2 in
  (smoothed,
   {| Cache.now := Cache.now w + elapsed svc;
      Cache.cache_file := Cache.cache_file w;
      Cache.outside := (svc, g2) |}).

Definition fetch_aod_data (w : world)
    : outcome (list point) * world * nat :=
  Cache.cached_fetch compute w.

End Aod.

(* ================================================================== *)
(** * predict_aqi.py: capping and labelling the predictions *)
(* ================================================================== *)

Module Predict.

(** The dict [predict_aqi] emits. *)
Record prediction : Type := mkPrediction {
  lat : R;
  lon : R;
  predicted_aqi : Z;
  category : string
}.

(** [int(min(max(pred, 0), 200))]. *)
Definition cap (pred : R) : Z := Py.int (Rmin (Rmax pred 0) 200).

(** The chain of comparisons that labels a capped prediction. *)
Definition label (pred : Z) : string :=
  if (pred <=? 50)%Z then "Good"%string
  else if (pred <=? 100)%Z then "Moderate"%string
  else if (pred <=? 150)%Z then "Unhealthy for Sensitive Groups"%string
  else "Unhealthy"%string.

(** The loop [for _ in range(30)] of [predict_aqi].  [model lat lon] is
    what [float(model.predict(df)[0])] gives for the one-row frame built
    from [lat] and [lon] (its other columns are the constants 12 and 0 and
    the current month); [rnd] is the sequence of values [random()] returns
    and [pos] the position of the next one. *)
Fixpoint predict_loop (model : R -> R -> R) (rnd : nat -> R) (n pos : nat)
    (predictions : list prediction) : list prediction * nat :=
  match n with
  | O => (predictions, pos)
  | S n' =>
      let lat := Py.uniform 25 49 (rnd pos) in
      let lon := Py.uniform (-125) (-66) (rnd (S pos)) in
      let pred := cap (model lat lon) in
      predict_loop model rnd n' (S (S pos))
        (predictions ++ [ {| lat := lat; lon := lon;
                             predicted_aqi := pred;
                             category := label pred |} ])
  end.

Definition predict_aqi (model : R -> R -> R) (rnd : nat -> R) (pos : nat)
    : list prediction * nat :=
  predict_loop model rnd 30 pos [].

End Predict.

(* ================================================================== *)
(** * main.py: the mock AOD route *)
(* ================================================================== *)

Module Main.

(** The loop [for _ in range(100)] of [get_aod_mock]: three calls of
    [random()] per point, in the order of the keys. *)
Fixpoint mock_loop (rnd : nat -> R) (n pos : nat) (aod_data : list Aod.point)
    : list Aod.point * nat :=
  match n with
  | O => (aod_data, pos)
  | S n' =>
      mock_loop rnd n' (S (S (S pos)))
        (aod_data
         ++ [ {| Aod.lat := Py.uniform 25 49 (rnd pos);
                 Aod.lon := Py.uniform (-125) (-66) (rnd (S pos));
                 Aod.aod :=
                   Py.round3 (Py.uniform 0.05 0.35 (rnd (S (S pos)))) |} ])
  end.

Definition get_aod_mock (rnd : nat -> R) (pos : nat)
    : list Aod.point * nat :=
  mock_loop rnd 100 pos [].

End Main.

(* ================================================================== *)
(** * Notions the statements below use *)
(* ================================================================== *)

(** The number of members over all clusters. *)
Definition member_count (cs : list (list Aqi.member)) : nat :=
  list_sum (map (@length Aqi.member) cs).

(** The clusters that hold the observation at index [i] of the input. *)
Definition holders (i : nat) (cs : list (list Aqi.member))
    : list (list Aqi.member) :=
  filter (fun c => existsb (fun m => (fst m =? i)%nat) c) cs.

(** A station at the given coordinates reporting the given index. *)
Definition station_at (la lo v : R) (cat : string) : Aqi.station :=
  {| Aqi.city := "Unknown"; Aqi.lat := la; Aqi.lon := lo; Aqi.aqi := v;
     Aqi.category := cat; Aqi.observed := EmptyString |}.

(** Three stations one degree of latitude apart on the meridian 100 W. *)
Definition meridian_stations : list Aqi.station :=
  [ station_at 40 (-100) 50 "Good";
    station_at (40 + 1) (-100) 60 "Moderate";
    station_at (40 + 1 + 1) (-100) 70 "Moderate" ].

(** [min(xs)] and [max(xs)] of a non-empty sequence. *)
Definition minimum (xs : list R) : R :=
  match xs with
  | [] => 0
  | x :: xs' => fold_left Rmin xs' x
  end.

Definition maximum (xs : list R) : R :=
  match xs with
  | [] => 0
  | x :: xs' => fold_left Rmax xs' x
  end.

(** The arithmetic mean. *)
Definition mean (xs : list R) : R :=
  fold_right Rplus 0 xs / INR (length xs).

(** The weighted mean of values [vs] under weights [ws]. *)
Definition weighted_mean (vs ws : list R) : R :=
  fold_right Rplus 0 (map (fun vw => fst vw * snd vw) (combine vs ws))
  / fold_right Rplus 0 ws.

(** The grid coordinates in the order the two loops visit them. *)
Definition lattice (lat_range lon_range : list Z) : list (Z * Z) :=
  list_prod lat_range lon_range.

(** The AOD cells for a list of coordinates when the draws are taken from
    [rnd] starting at position [pos]: two draws per cell. *)
Fixpoint aod_cells (points : list Aod.point) (rnd : nat -> R) (pos : nat)
    (cs : list (Z * Z)) : list Aod.point :=
  match cs with
  | [] => []
  | c :: cs' =>
      Aod.cell_at (fst c) (snd c) (Aod.nearby (fst c) (snd c) points)
                  (rnd pos) (rnd (S pos))
      :: aod_cells points rnd (S (S pos)) cs'
  end.

(** The generators after [n] more calls of [random()]. *)
Definition advance (g : Aod.generators) (n : nat) : Aod.generators :=
  {| Aod.random := Aod.random g;
     Aod.random_pos := (n + Aod.random_pos g)%nat;
     Aod.normal := Aod.normal g;
     Aod.normal_pos := Aod.normal_pos g |}.

(** The coordinates [smooth_aod_points] visits for a non-zero spacing. *)
Definition aod_lattice (spacing : Z) : list (Z * Z) :=
  lattice (Py.range 25 49 spacing) (Py.range (-125) (-66) spacing).

(** A single observation with the fractional index 0.25. *)
Definition quarter_station : list Aqi.station :=
  [ station_at 40 (-100) (1 / 4) "Good" ].

(** Two reports from the same place, with indices 50 and 53. *)
Definition twin_stations : list Aqi.station :=
  [ station_at 40 (-100) 50 "Good"; station_at 40 (-100) 53 "Moderate" ].

(** The two observations of the end-to-end clustering scenario. *)
Definition scenario_west : Aqi.station := station_at 40 (-100) 50 "Good".
Definition scenario_east : Aqi.station :=
  station_at 40.001 (-100.001) 54 "Moderate".

(** Where an emitted record sits. *)
Definition aqi_loc (c : Aqi.smoothed) : R * R := (Aqi.s_lat c, Aqi.s_lon c).
Definition aod_loc (c : Aod.point) : R * R := (Aod.lat c, Aod.lon c).

(** The locations of the AOD cells for a list of coordinates when the
    draws are taken from [rnd] starting at position [pos]. *)
Fixpoint aod_locations (rnd : nat -> R) (pos : nat) (cs : list (Z * Z))
    : list (R * R) :=
  match cs with
  | [] => []
  | c :: cs' =>
      (IZR (fst c) + Py.uniform (-0.3) 0.3 (rnd pos),
       IZR (snd c) + Py.uniform (-0.3) 0.3 (rnd (S pos)))
      :: aod_locations rnd (S (S pos)) cs'
  end.

(** Generators whose [random()] always returns [u]. *)
Definition steady (u : R) : Aod.generators :=
  {| Aod.random := fun _ => u; Aod.random_pos := 0;
     Aod.normal := fun _ => 0.15; Aod.normal_pos := 0 |}.

(** One AOD sample in the middle of the map. *)
Definition one_sample : list Aod.point :=
  [ {| Aod.lat := 40; Aod.lon := -100; Aod.aod := 0.15 |} ].

(** The age of the cache file in hours, and the two sides of the
    freshness test (time-to-live: two hours). *)
Definition age_hours {P E : Type} (w : Cache.world P E) (f : Cache.file P) : R :=
  (Cache.now w - Cache.st_mtime f) / 3600.

Definition is_fresh {P E : Type} (w : Cache.world P E) (f : Cache.file P) : Prop :=
  Cache.cache_file w = Some f /\ age_hours w f < 2.

Definition is_stale {P E : Type} (w : Cache.world P E) (f : Cache.file P) : Prop :=
  Cache.cache_file w = Some f /\ 2 <= age_hours w f.

Definition stale_or_absent {P E : Type} (w : Cache.world P E) : Prop :=
  Cache.cache_file w = None \/ exists f, is_stale w f.

(** The same world without the cache file. *)
Definition without_file {P E : Type} (w : Cache.world P E) : Cache.world P E :=
  {| Cache.now := Cache.now w;
     Cache.cache_file := None;
     Cache.outside := Cache.outside w |}.

(** AirNow out of reach: every request ends in an exception. *)
Definition airnow_down : Aqi.airnow :=
  {| Aqi.respond := fun _ _ => Aqi.Failed; Aqi.elapsed := 15 |}.

(** A payload of one grid cell. *)
Definition old_payload : list Aqi.smoothed :=
  [ {| Aqi.s_lat := 25.5; Aqi.s_lon := -124.5; Aqi.s_aqi := 42;
       Aqi.s_category := "Interpolated" |} ].

(** A world whose cache file was written at time 0 and holds
    [old_payload]; the clock reads [t] seconds. *)
Definition world_at (t : R) (svc : Aqi.airnow) : Aqi.world :=
  {| Cache.now := t;
     Cache.cache_file :=
       Some {| Cache.st_mtime := 0; Cache.content := Some old_payload |};
     Cache.outside := svc |}.

(** A world whose cache file was written at time 0 and is not JSON. *)
Definition corrupt_world_at (t : R) (svc : Aqi.airnow) : Aqi.world :=
  {| Cache.now := t;
     Cache.cache_file :=
       Some {| Cache.st_mtime := 0; Cache.content := None |};
     Cache.outside := svc |}.

(** Earthdata refusing the login. *)
Definition earthdata_denied : Aod.earthdata :=
  {| Aod.netrc := Aod.LoginRaises; Aod.environment := Aod.LoginAuth;
     Aod.search := true; Aod.elapsed := 3 |}.

(** An AOD world whose cache file was written at time 0, with the given
    content; the clock reads [t] seconds. *)
Definition aod_world_at (t : R) (c : option (list Aod.point))
    (svc : Aod.earthdata) : Aod.world :=
  {| Cache.now := t;
     Cache.cache_file := Some {| Cache.st_mtime := 0; Cache.content := c |};
     Cache.outside := (svc, steady (1 / 2)) |}.

(** A compute step that raises and leaves the world as it is. *)
Definition failing_compute (w : Aqi.world)
    : outcome (list Aqi.smoothed) * Aqi.world :=
  (Raise (OtherError "connection reset"), w).

(** [sub] is [l] with some elements left out, the others in their order. *)
Inductive subseq {A : Type} : list A -> list A -> Prop :=
| subseq_nil : subseq [] []
| subseq_skip (x : A) (sub l : list A) : subseq sub l -> subseq sub (x :: l)
| subseq_keep (x : A) (sub l : list A) :
    subseq sub l -> subseq (x :: sub) (x :: l).

(** What [fetch_all_aqi] has gathered before it removes duplicates. *)
Definition gathered (respond : R -> R -> Aqi.response) : list Aqi.station :=
  concat (map (fun c => Aqi.fetch_station (respond (fst c) (snd c)))
              Aqi.COORDS).

(** Whether a station has the rounded coordinate pair [k]. *)
Definition has_key (k : R * R) (s : Aqi.station) : bool :=
  Aqi.key_eqb (Aqi.key_of s) k.

(** An AirNow record with every key present. *)
Definition reading (la lo v : R) : Aqi.observation :=
  {| Aqi.ReportingArea := Some "Denver"%string;
     Aqi.Latitude := la; Aqi.Longitude := lo; Aqi.AQI := Some v;
     Aqi.CategoryName := Some "Good"%string;
     Aqi.DateObserved := Some "2025-10-04"%string |}.

(** The test of the inner loop of the clustering, for the seed [p] at
    index [i]. *)
Definition in_reach (radius_km : R) (i : nat) (p : Aqi.station)
    (m : Aqi.member) : bool :=
  negb (fst m =? i)%nat && Aqi.near radius_km p (snd m).

(** A station as it is emitted when it forms a cluster of its own. *)
Definition alone (p : Aqi.station) : Aqi.smoothed :=
  {| Aqi.s_lat := Aqi.lat p; Aqi.s_lon := Aqi.lon p;
     Aqi.s_aqi := Py.round (Aqi.aqi p);
     Aqi.s_category := Aqi.category p |}.

(** The world [dt] seconds after [w], with the same cache file and the
    services in the state [svc]. *)
Definition later {P E : Type} (w : Cache.world P E) (dt : R) (svc : E)
    : Cache.world P E :=
  {| Cache.now := Cache.now w + dt;
     Cache.cache_file := Cache.cache_file w;
     Cache.outside := svc |}.

(** Three stations on the meridian 101 W, the farthest from the grid
    coordinate (25, -101) first, and the same three nearest first. *)
Definition far_first : list Aqi.station :=
  [ station_at 42 (IZR (-101)) 70 "Moderate";
    station_at 41 (IZR (-101)) 60 "Moderate";
    station_at 40 (IZR (-101)) 50 "Good" ].

Definition near_first : list Aqi.station :=
  [ station_at 40 (IZR (-101)) 50 "Good";
    station_at 41 (IZR (-101)) 60 "Moderate";
    station_at 42 (IZR (-101)) 70 "Moderate" ].

(** Two AOD samples. *)
Definition two_samples : list Aod.point :=
  [ {| Aod.lat := 42; Aod.lon := -100; Aod.aod := 0.21 |};
    {| Aod.lat := 40; Aod.lon := -100; Aod.aod := 0.15 |} ].

(* ================================================================== *)
(** * Facts about the built-ins *)
(* ================================================================== *)

Section Comparisons.

Variables x y : R.

Lemma ltb_true : x < y -> Py.ltb x y = true.
Proof. intros H. unfold Py.ltb. destruct (Rlt_dec x y); [reflexivity | contradiction]. Qed.

Lemma ltb_false : y <= x -> Py.ltb x y = false.
Proof. intros H. unfold Py.ltb. destruct (Rlt_dec x y); [lra | reflexivity]. Qed.

Lemma ltb_true_iff : Py.ltb x y = true <-> x < y.
Proof.
  unfold Py.ltb. destruct (Rlt_dec x y); split; intros; auto; discriminate.
Qed.

Lemma ltb_false_iff : Py.ltb x y = false <-> y <= x.
Proof.
  unfold Py.ltb. destruct (Rlt_dec x y); split; intros; try discriminate; lra.
Qed.

Lemma eqb_true_iff : Py.eqb x y = true <-> x = y.
Proof.
  unfold Py.eqb. destruct (Req_dec_T x y); split; intros; auto; discriminate.
Qed.

End Comparisons.

Lemma Rabs_le_between (a b : R) : Rabs a <= b -> - b <= a <= b.
Proof. unfold Rabs. destruct (Rcase_abs a); lra. Qed.

(** ** [sum] *)

Lemma fold_left_Rplus_acc (xs : list R) (a : R) :
  fold_left Rplus xs a = a + fold_left Rplus xs 0.
Proof.
  revert a. induction xs as [| x xs IH]; intros a; simpl.
  - lra.
  - rewrite (IH (a + x)), (IH (0 + x)). lra.
Qed.

Lemma sum_nil : Py.sum [] = 0.
Proof. reflexivity. Qed.

Lemma sum_cons (x : R) (xs : list R) : Py.sum (x :: xs) = x + Py.sum xs.
Proof.
  unfold Py.sum. simpl. rewrite fold_left_Rplus_acc. lra.
Qed.

(** ** [round] *)

Lemma round_IZR (z : Z) : Py.round (IZR z) = z.
Proof.
  unfold Py.round. rewrite ZfloorZ.
  rewrite ltb_true by lra. reflexivity.
Qed.

(** [round] returns a nearest integer. *)
Lemma round_nearest (x : R) : Rabs (IZR (Py.round x) - x) <= 1 / 2.
Proof.
  unfold Py.round.
  pose proof (Zfloor_bound x) as [Hlo Hhi].
  destruct (Rlt_dec (x - IZR (Zfloor x)) (1 / 2)) as [Hlt | Hge].
  - rewrite ltb_true by exact Hlt.
    apply Rabs_le. lra.
  - rewrite ltb_false by lra.
    destruct (Rlt_dec (1 / 2) (x - IZR (Zfloor x))) as [Hgt | Hle].
    + rewrite ltb_true by exact Hgt.
      rewrite plus_IZR. apply Rabs_le. lra.
    + rewrite ltb_false by lra.
      destruct (Z.even (Zfloor x)).
      * apply Rabs_le. lra.
      * rewrite plus_IZR. apply Rabs_le. lra.
Qed.

Lemma round3_nearest (x : R) : Rabs (Py.round3 x - x) <= 1 / 2000.
Proof.
  unfold Py.round3.
  pose proof (round_nearest (x * 1000)) as H.
  apply Rabs_le_between in H. apply Rabs_le. lra.
Qed.

Lemma round3_of_milli (z : Z) : Py.round3 (IZR z / 1000) = IZR z / 1000.
Proof.
  unfold Py.round3.
  replace (IZR z / 1000 * 1000) with (IZR z) by lra.
  rewrite round_IZR. reflexivity.
Qed.

(** ** [sorted] *)

Section Sorted.

Context {A : Type} (key : A -> R).

Lemma insert_by_perm (x : A) (l : list A) :
  Permutation (x :: l) (Py.insert_by key x l).
Proof.
  induction l as [| y l IH]; simpl.
  - apply Permutation_refl.
  - destruct (Py.ltb (key x) (key y)).
    + apply Permutation_refl.
    + eapply perm_trans; [apply perm_swap |].
      apply perm_skip. exact IH.
Qed.

Lemma sorted_acc_perm (xs acc : list A) :
  Permutation (rev xs ++ acc)
    (fold_left (fun acc x => Py.insert_by key x acc) xs acc).
Proof.
  revert acc. induction xs as [| x xs IH]; intros acc; simpl.
  - apply Permutation_refl.
  - eapply perm_trans; [| apply IH].
    rewrite <- app_assoc. simpl.
    apply Permutation_app_head. apply insert_by_perm.
Qed.

Lemma sorted_perm (xs : list A) : Permutation xs (Py.sorted key xs).
Proof.
  unfold Py.sorted.
  eapply perm_trans; [| apply sorted_acc_perm].
  rewrite app_nil_r. apply Permutation_rev.
Qed.

Lemma sorted_length (xs : list A) : length (Py.sorted key xs) = length xs.
Proof. symmetry. apply Permutation_length, sorted_perm. Qed.

Lemma sorted_In (xs : list A) (x : A) : In x (Py.sorted key xs) -> In x xs.
Proof.
  intros H. eapply Permutation_in; [apply Permutation_sym, sorted_perm | exact H].
Qed.

Lemma sorted_one (x : A) : Py.sorted key [x] = [x].
Proof. reflexivity. Qed.

(** The result is in ascending order of the key. *)
Lemma insert_by_ascending (x : A) (l : list A) :
  StronglySorted (fun a b => key a <= key b) l ->
  StronglySorted (fun a b => key a <= key b) (Py.insert_by key x l).
Proof.
  induction 1 as [| y l Hl IH Hy]; simpl.
  - constructor; constructor.
  - destruct (Rlt_dec (key x) (key y)) as [Hlt | Hge].
    + rewrite ltb_true by exact Hlt.
      constructor; [constructor; assumption |].
      constructor; [lra |].
      eapply Forall_impl; [| exact Hy]. simpl. intros b Hb. lra.
    + rewrite ltb_false by lra.
      constructor; [exact IH |].
      apply Forall_forall. intros b Hb.
      apply (Permutation_in _ (Permutation_sym (insert_by_perm x l))) in Hb.
      destruct Hb as [<- | Hb]; [lra |].
      rewrite Forall_forall in Hy. apply Hy, Hb.
Qed.

Lemma sorted_acc_ascending (xs acc : list A) :
  StronglySorted (fun a b => key a <= key b) acc ->
  StronglySorted (fun a b => key a <= key b)
    (fold_left (fun acc x => Py.insert_by key x acc) xs acc).
Proof.
  revert acc. induction xs as [| x xs IH]; intros acc Hacc; simpl.
  - exact Hacc.
  - apply IH, insert_by_ascending, Hacc.
Qed.

Lemma sorted_ascending (xs : list A) :
  StronglySorted (fun a b => key a <= key b) (Py.sorted key xs).
Proof. apply sorted_acc_ascending. constructor. Qed.

(** Elements with equal keys keep the order they had in the input. *)
Lemma insert_by_stable (v : R) (x : A) (l : list A) :
  StronglySorted (fun a b => key a <= key b) l ->
  filter (fun a => Py.eqb (key a) v) (Py.insert_by key x l)
  = filter (fun a => Py.eqb (key a) v) l
    ++ filter (fun a => Py.eqb (key a) v) [x].
Proof.
  induction 1 as [| y l Hl IH Hy]; simpl.
  - reflexivity.
  - destruct (Rlt_dec (key x) (key y)) as [Hlt | Hge].
    + rewrite ltb_true by exact Hlt. simpl.
      destruct (Py.eqb (key x) v) eqn:Ex; [| rewrite app_nil_r; reflexivity].
      apply eqb_true_iff in Ex.
      assert (Hnone : forall b, In b (y :: l) -> Py.eqb (key b) v = false).
      { intros b Hb. unfold Py.eqb.
        destruct (Req_dec_T (key b) v) as [Eb | Eb]; [| reflexivity].
        rewrite Forall_forall in Hy.
        destruct Hb as [<- | Hb]; [lra |].
        specialize (Hy b Hb). simpl in Hy. lra. }
      rewrite (Hnone y (or_introl eq_refl)).
      assert (Hl0 : filter (fun a => Py.eqb (key a) v) l = []).
      { clear - Hnone. induction l as [| b l IHl]; simpl; [reflexivity |].
        rewrite (Hnone b (or_intror (or_introl eq_refl))).
        apply IHl. intros c [<- | Hc]; apply Hnone; simpl; auto. }
      rewrite Hl0. reflexivity.
    + rewrite ltb_false by lra. simpl in *.
      rewrite IH. destruct (Py.eqb (key y) v); reflexivity.
Qed.

Lemma sorted_acc_stable (v : R) (xs acc : list A) :
  StronglySorted (fun a b => key a <= key b) acc ->
  filter (fun a => Py.eqb (key a) v)
         (fold_left (fun acc x => Py.insert_by key x acc) xs acc)
  = filter (fun a => Py.eqb (key a) v) acc
    ++ filter (fun a => Py.eqb (key a) v) xs.
Proof.
  revert acc. induction xs as [| x xs IH]; intros acc Hacc; simpl fold_left.
  - simpl. rewrite app_nil_r. reflexivity.
  - rewrite IH by (apply insert_by_ascending, Hacc).
    rewrite insert_by_stable by exact Hacc.
    rewrite <- app_assoc. f_equal.
    simpl. destruct (Py.eqb (key x) v); reflexivity.
Qed.

Lemma sorted_stable (v : R) (xs : list A) :
  filter (fun a => Py.eqb (key a) v) (Py.sorted key xs)
  = filter (fun a => Py.eqb (key a) v) xs.
Proof. unfold Py.sorted. rewrite sorted_acc_stable by constructor. reflexivity. Qed.

(** In an ascending list nothing behind a cut has a smaller key than
    anything before it. *)
Lemma ascending_cut (k : nat) (l : list A) :
  StronglySorted (fun a b => key a <= key b) l ->
  forall n m, In n (firstn k l) -> In m (skipn k l) -> key n <= key m.
Proof.
  intros Hl. revert k. induction Hl as [| y l Hl IH Hy]; intros k n m Hn Hm.
  - destruct k; contradiction.
  - destruct k as [| k]; [contradiction |].
    simpl in Hn, Hm. destruct Hn as [<- | Hn].
    + rewrite Forall_forall in Hy. apply Hy.
      rewrite <- (firstn_skipn k l). apply in_or_app. right. exact Hm.
    + eapply IH; eassumption.
Qed.

End Sorted.

(* ================================================================== *)
(** * Facts about the distance *)
(* ================================================================== *)

Lemma PI_gt_3 : 3 < PI.
Proof. pose proof PI2_3_2. lra. Qed.

Lemma atan_nonneg (x : R) : 0 <= x -> 0 <= atan x.
Proof.
  intros [Hx | Hx].
  - left. rewrite <- atan_0. apply atan_increasing. exact Hx.
  - subst x. rewrite atan_0. lra.
Qed.

Lemma atan2_nonneg (y x : R) : 0 <= y -> 0 <= x -> 0 <= Py.atan2 y x.
Proof.
  intros Hy Hx. unfold Py.atan2.
  destruct (Rlt_dec 0 x) as [Hpos | Hnpos].
  - rewrite ltb_true by exact Hpos.
    apply atan_nonneg. apply Rmult_le_pos; [exact Hy |].
    left. apply Rinv_0_lt_compat. exact Hpos.
  - rewrite ltb_false by lra.
    rewrite (ltb_false x 0) by lra.
    destruct (Rlt_dec 0 y) as [Hy' | Hy'].
    + rewrite ltb_true by exact Hy'. pose proof PI_RGT_0. lra.
    + rewrite ltb_false by lra. rewrite ltb_false by lra. lra.
Qed.

(** The distance is never negative, so every weight [1 / (d + 1)] is
    positive. *)
Lemma haversine_nonneg (lat1 lon1 lat2 lon2 : R) :
  0 <= haversine lat1 lon1 lat2 lon2.
Proof.
  unfold haversine.
  pose proof (atan2_nonneg (sqrt (hav_a lat1 lon1 lat2 lon2))
                (sqrt (1 - hav_a lat1 lon1 lat2 lon2))
                (sqrt_pos _) (sqrt_pos _)) as H.
  nra.
Qed.

(** Along a meridian the formula gives the arc length exactly. *)
Lemma haversine_meridian (lat1 lat2 lon0 : R) :
  Rabs (lat2 - lat1) < 180 ->
  haversine lat1 lon0 lat2 lon0 = 6371 * Rabs (Py.radians (lat2 - lat1)).
Proof.
  intros Hd.
  set (x := Py.radians (lat2 - lat1) / 2).
  assert (Hx : Rabs x < PI / 2).
  { unfold x, Py.radians.
    pose proof PI_RGT_0 as Hpi.
    apply Rabs_def1.
    - apply Rabs_def2 in Hd. destruct Hd as [Hd1 Hd2]. nra.
    - apply Rabs_def2 in Hd. destruct Hd as [Hd1 Hd2]. nra. }
  assert (Ha : hav_a lat1 lon0 lat2 lon0 = (sin x) ^ 2).
  { unfold hav_a. fold x.
    replace (Py.radians (lon0 - lon0) / 2) with 0
      by (unfold Py.radians; lra).
    rewrite sin_0. ring. }
  assert (Hc : 0 < cos x).
  { apply Rabs_def2 in Hx. apply cos_gt_0; lra. }
  unfold haversine. rewrite Ha.
  replace (1 - sin x ^ 2) with ((cos x) ^ 2)
    by (pose proof (sin2_cos2 x) as H; unfold Rsqr in H; nra).
  rewrite <- (pow2_abs (sin x)).
  rewrite (sqrt_pow2 (Rabs (sin x))) by apply Rabs_pos.
  rewrite (sqrt_pow2 (cos x)) by lra.
  unfold Py.atan2. rewrite ltb_true by exact Hc.
  assert (Ht : Rabs (sin x) / cos x = tan (Rabs x)).
  { apply Rabs_def2 in Hx. unfold tan.
    destruct (Rcase_abs x) as [Hneg | Hpos].
    - rewrite (Rabs_left x) by exact Hneg.
      rewrite sin_neg, cos_neg.
      rewrite Rabs_left; [reflexivity |].
      assert (H : 0 < sin (- x)) by (apply sin_gt_0; lra).
      rewrite sin_neg in H. lra.
    - rewrite (Rabs_right x) by exact Hpos.
      rewrite Rabs_right; [reflexivity |].
      apply Rle_ge, sin_ge_0; lra. }
  rewrite Ht, atan_tan.
  - unfold x. unfold Rdiv. rewrite Rabs_mult.
    rewrite (Rabs_right (/ 2)) by lra. lra.
  - pose proof (Rabs_pos x). apply Rabs_def2 in Hx. split; [lra |].
    unfold Rabs. destruct (Rcase_abs x); lra.
Qed.

(** One degree of latitude is less than 150 km, two are more. *)
Lemma haversine_one_degree (la lo : R) :
  haversine la lo (la + 1) lo < 150 /\ haversine (la + 1) lo la lo < 150.
Proof.
  pose proof PI_4 as Hpi. pose proof PI_RGT_0 as Hpi0.
  split; rewrite haversine_meridian.
  - replace (la + 1 - la) with 1 by lra. unfold Py.radians.
    rewrite Rabs_right by lra. lra.
  - replace (la + 1 - la) with 1 by lra. rewrite Rabs_right; lra.
  - replace (la - (la + 1)) with (- (1)) by lra. unfold Py.radians.
    rewrite Rabs_left by lra. lra.
  - replace (la - (la + 1)) with (- (1)) by lra. rewrite Rabs_left; lra.
Qed.

Lemma haversine_two_degrees (la lo : R) :
  150 <= haversine la lo (la + 2) lo /\ 150 <= haversine (la + 2) lo la lo.
Proof.
  pose proof PI_gt_3 as Hpi.
  split; rewrite haversine_meridian.
  - replace (la + 2 - la) with 2 by lra. unfold Py.radians.
    rewrite Rabs_right by lra. lra.
  - replace (la + 2 - la) with 2 by lra. rewrite Rabs_right; lra.
  - replace (la - (la + 2)) with (- (2)) by lra. unfold Py.radians.
    rewrite Rabs_left by lra. lra.
  - replace (la - (la + 2)) with (- (2)) by lra. rewrite Rabs_left; lra.
Qed.

(** A point is at distance zero from itself. *)
Lemma haversine_same (la lo : R) : haversine la lo la lo = 0.
Proof.
  rewrite haversine_meridian.
  - replace (la - la) with 0 by lra. unfold Py.radians.
    rewrite Rmult_0_l, Rabs_R0. lra.
  - replace (la - la) with 0 by lra. rewrite Rabs_R0. lra.
Qed.

(** ** The arguments of the square roots *)

(** For latitudes between -90 and 90 degrees, [a] lies in [[0, 1]]:
    neither [math.sqrt(a)] nor [math.sqrt(1 - a)] can raise. *)
Lemma hav_a_range (lat1 lon1 lat2 lon2 : R) :
  -90 <= lat1 <= 90 -> -90 <= lat2 <= 90 ->
  0 <= hav_a lat1 lon1 lat2 lon2 <= 1.
Proof.
  intros H1 H2. unfold hav_a.
  set (p1 := Py.radians lat1). set (p2 := Py.radians lat2).
  set (v := Py.radians (lon2 - lon1) / 2).
  replace (Py.radians (lat2 - lat1) / 2) with ((p2 - p1) / 2)
    by (unfold p1, p2, Py.radians; lra).
  set (u := (p2 - p1) / 2).
  pose proof PI_RGT_0 as Hpi.
  assert (Hc1 : 0 <= cos p1).
  { apply cos_ge_0; unfold p1, Py.radians; nra. }
  assert (Hc2 : 0 <= cos p2).
  { apply cos_ge_0; unfold p2, Py.radians; nra. }
  assert (Hsu : 0 <= sin u ^ 2) by apply pow2_ge_0.
  assert (Hsv : 0 <= sin v ^ 2 <= 1).
  { split; [apply pow2_ge_0 |]. pose proof (SIN_bound v). nra. }
  assert (Hhalf : sin u ^ 2 = (1 - cos (p2 - p1)) / 2).
  { replace (p2 - p1) with (2 * u) by (unfold u; lra).
    rewrite cos_2a_sin. lra. }
  assert (Hsum : cos p1 * cos p2 - sin p1 * sin p2 <= 1).
  { rewrite <- cos_plus. apply COS_bound. }
  rewrite cos_minus in Hhalf.
  assert (Hcc : 0 <= cos p1 * cos p2) by (apply Rmult_le_pos; assumption).
  assert (Hlo : 0 <= cos p1 * cos p2 * sin v ^ 2)
    by (apply Rmult_le_pos; [exact Hcc | apply Hsv]).
  assert (Hhi : cos p1 * cos p2 * sin v ^ 2 <= cos p1 * cos p2).
  { rewrite <- (Rmult_1_r (cos p1 * cos p2)) at 2.
    apply Rmult_le_compat_l; [exact Hcc | apply Hsv]. }
  split; lra.
Qed.

(** ** Short distances *)

Lemma atan_le_id (x : R) : 0 <= x -> atan x <= x.
Proof.
  intros Hx.
  pose proof (IAF atan 0 x 1 derivable_pt_atan Hx) as H.
  rewrite atan_0 in H.
  assert (Hd : forall c, 0 <= c <= x ->
                 derive_pt atan c (derivable_pt_atan c) <= 1).
  { intros c _. rewrite derive_pt_atan.
    assert (Hc : 1 <= 1 + c²) by (unfold Rsqr; nra).
    apply Rmult_le_reg_r with (1 + c²); [lra |].
    unfold Rdiv. rewrite Rmult_assoc, Rinv_l by lra. lra. }
  specialize (H Hd). lra.
Qed.

Lemma sin_sq_le (x : R) : sin x ^ 2 <= x ^ 2.
Proof.
  assert (Hpos : forall y, 0 < y -> - y <= sin y <= y).
  { intros y Hy. split; [| left; apply sin_lt_x, Hy].
    destruct (Rle_dec 1 y) as [H1 | H1].
    - pose proof (SIN_bound y). lra.
    - pose proof PI_gt_3.
      assert (0 < sin y) by (apply sin_gt_0; lra). lra. }
  destruct (Rtotal_order x 0) as [Hneg | [-> | Hp]].
  - destruct (Hpos (- x)) as [H1 H2]; [lra |].
    rewrite sin_neg in H1, H2. nra.
  - rewrite sin_0. lra.
  - destruct (Hpos x Hp) as [H1 H2]. nra.
Qed.

(** The variable [a] is at most the sum of the squared half-differences,
    in radians. *)
Lemma hav_a_le (lat1 lon1 lat2 lon2 : R) :
  hav_a lat1 lon1 lat2 lon2
  <= (Py.radians (lat2 - lat1) / 2) ^ 2 + (Py.radians (lon2 - lon1) / 2) ^ 2.
Proof.
  unfold hav_a.
  pose proof (sin_sq_le (Py.radians (lat2 - lat1) / 2)) as Hu.
  pose proof (sin_sq_le (Py.radians (lon2 - lon1) / 2)) as Hv.
  pose proof (COS_bound (Py.radians lat1)) as [H1 H2].
  pose proof (COS_bound (Py.radians lat2)) as [H3 H4].
  assert (Hs : 0 <= sin (Py.radians (lon2 - lon1) / 2) ^ 2)
    by (apply pow2_ge_0).
  assert (Hc : cos (Py.radians lat1) * cos (Py.radians lat2) <= 1) by nra.
  nra.
Qed.

(** When [a] is at most [s * s], with [s] up to 1/2, the distance is at
    most [25484 * s] km. *)
Lemma haversine_small (lat1 lon1 lat2 lon2 s : R) :
  0 <= s <= 1 / 2 ->
  hav_a lat1 lon1 lat2 lon2 <= s * s ->
  haversine lat1 lon1 lat2 lon2 <= 25484 * s.
Proof.
  intros [Hs0 Hs1] Ha. unfold haversine.
  set (a := hav_a lat1 lon1 lat2 lon2) in *.
  assert (Hsa : sqrt a <= s).
  { rewrite <- (sqrt_square s) by exact Hs0. apply sqrt_le_1_alt, Ha. }
  assert (Hsb : 1 / 2 <= sqrt (1 - a)).
  { replace (1 / 2) with (sqrt ((1 / 2) * (1 / 2))) by (apply sqrt_square; lra).
    apply sqrt_le_1_alt. nra. }
  pose proof (sqrt_pos a) as Hpa.
  unfold Py.atan2. rewrite ltb_true by lra.
  assert (Hq : 0 <= sqrt a / sqrt (1 - a) <= 2 * s).
  { split.
    - apply Rmult_le_pos; [exact Hpa |].
      left. apply Rinv_0_lt_compat. lra.
    - apply Rmult_le_reg_r with (sqrt (1 - a)); [lra |].
      unfold Rdiv. rewrite Rmult_assoc, Rinv_l by lra. nra. }
  pose proof (atan_le_id _ (proj1 Hq)) as Hat.
  lra.
Qed.

(** The two scenario observations are about 140 m apart. *)
Lemma scenario_distance : haversine 40 (-100) 40.001 (-100.001) < 1.
Proof.
  apply Rle_lt_trans with (25484 * (1 / 50000)); [| lra].
  apply haversine_small; [lra |].
  eapply Rle_trans; [apply hav_a_le |].
  unfold Py.radians.
  pose proof PI_4 as Hpi. pose proof PI_RGT_0 as Hpi0.
  replace (40.001 - 40) with (1 / 1000) by lra.
  replace (-100.001 - -100) with (- (1 / 1000)) by lra.
  nra.
Qed.

(* ================================================================== *)
(** * Clustering *)
(* ================================================================== *)

Lemma near_iff (r : R) (p q : Aqi.station) :
  Aqi.near r p q = true
  <-> haversine (Aqi.lat p) (Aqi.lon p) (Aqi.lat q) (Aqi.lon q) < r.
Proof. unfold Aqi.near. apply ltb_true_iff. Qed.

Lemma near_one_degree (la lo v1 v2 : R) (c1 c2 : string) :
  Aqi.near 150 (station_at la lo v1 c1) (station_at (la + 1) lo v2 c2) = true
  /\ Aqi.near 150 (station_at (la + 1) lo v2 c2) (station_at la lo v1 c1) = true.
Proof.
  unfold Aqi.near; simpl.
  destruct (haversine_one_degree la lo) as [H1 H2].
  split; apply ltb_true; assumption.
Qed.

Lemma near_two_degrees (la lo v1 v2 : R) (c1 c2 : string) :
  Aqi.near 150 (station_at la lo v1 c1) (station_at (la + 1 + 1) lo v2 c2) = false
  /\ Aqi.near 150 (station_at (la + 1 + 1) lo v2 c2) (station_at la lo v1 c1) = false.
Proof.
  unfold Aqi.near; simpl.
  destruct (haversine_two_degrees la lo) as [H1 H2].
  replace (la + 1 + 1) with (la + 2) by lra.
  split; apply ltb_false; assumption.
Qed.

Lemma near_self (r : R) (p : Aqi.station) : 0 < r -> Aqi.near r p p = true.
Proof.
  intros Hr. unfold Aqi.near. rewrite haversine_same. apply ltb_true, Hr.
Qed.

(** The clusters the code forms from the three meridian stations with
    the default radius. *)
Lemma clusters_meridian :
  Aqi.clusters meridian_stations 150
  = [ [ (0%nat, station_at 40 (-100) 50 "Good");
        (1%nat, station_at (40 + 1) (-100) 60 "Moderate") ];
      [ (2%nat, station_at (40 + 1 + 1) (-100) 70 "Moderate");
        (1%nat, station_at (40 + 1) (-100) 60 "Moderate") ] ].
Proof.
  destruct (near_one_degree 40 (-100) 50 60 "Good" "Moderate") as [Hab Hba].
  destruct (near_one_degree (40 + 1) (-100) 60 70 "Moderate" "Moderate")
    as [Hbc Hcb].
  destruct (near_two_degrees 40 (-100) 50 70 "Good" "Moderate") as [Hac Hca].
  unfold Aqi.clusters, meridian_stations.
  cbn [Py.enumerate Py.enumerate_from Aqi.outer_loop Aqi.inner_loop
       Aqi.in_used existsb Nat.eqb orb negb andb app].
  rewrite Hab, Hac.
  cbn [Aqi.outer_loop Aqi.inner_loop Aqi.in_used existsb Nat.eqb orb negb
       andb app].
  rewrite Hca, Hcb.
  cbn [Aqi.outer_loop Aqi.inner_loop Aqi.in_used existsb Nat.eqb orb negb
       andb app].
  reflexivity.
Qed.

(** C1, evaluated on the code: with the default radius of 150 km the three
    meridian stations, each one degree of latitude from the next, are put
    into two clusters with four members in all, and the middle station
    (index 1) is a member of both: the inner loop appends every station in
    reach without consulting [used]. *)
Theorem clusters_overlap :
  length meridian_stations = 3%nat
  /\ member_count (Aqi.clusters meridian_stations 150) = 4%nat
  /\ length (holders 1 (Aqi.clusters meridian_stations 150)) = 2%nat.
Proof.
  rewrite clusters_meridian. repeat split.
Qed.

(* ================================================================== *)
(** * Nearest neighbours and the weighted mean *)
(* ================================================================== *)

Lemma sum_fold_right (xs : list R) : Py.sum xs = fold_right Rplus 0 xs.
Proof.
  induction xs as [| x xs IH]; [reflexivity |].
  rewrite sum_cons, IH. reflexivity.
Qed.

Lemma minimum_le (xs : list R) (x : R) : In x xs -> minimum xs <= x.
Proof.
  destruct xs as [| y ys]; [contradiction |]. simpl.
  assert (Hacc : forall l a, fold_left Rmin l a <= a).
  { induction l as [| z l IH]; intros a; simpl; [lra |].
    eapply Rle_trans; [apply IH | apply Rmin_l]. }
  assert (Hin : forall l a z, In z l -> fold_left Rmin l a <= z).
  { induction l as [| w l IH]; intros a z Hz; [contradiction |].
    simpl. destruct Hz as [-> | Hz].
    - eapply Rle_trans; [apply Hacc | apply Rmin_r].
    - apply IH, Hz. }
  intros [-> | Hx]; [apply Hacc | apply Hin, Hx].
Qed.

Lemma maximum_ge (xs : list R) (x : R) : In x xs -> x <= maximum xs.
Proof.
  destruct xs as [| y ys]; [contradiction |]. simpl.
  assert (Hacc : forall l a, a <= fold_left Rmax l a).
  { induction l as [| z l IH]; intros a; simpl; [lra |].
    eapply Rle_trans; [apply Rmax_l | apply IH]. }
  assert (Hin : forall l a z, In z l -> z <= fold_left Rmax l a).
  { induction l as [| w l IH]; intros a z Hz; [contradiction |].
    simpl. destruct Hz as [-> | Hz].
    - eapply Rle_trans; [apply Rmax_r | apply Hacc].
    - apply IH, Hz. }
  intros [-> | Hx]; [apply Hacc | apply Hin, Hx].
Qed.

Section WeightedMean.

Context {A : Type} (val wt : A -> R).

Lemma combine_weights (ns : list A) :
  map (fun nw => val (fst nw) * snd nw) (combine ns (map wt ns))
  = map (fun vw => fst vw * snd vw) (combine (map val ns) (map wt ns)).
Proof.
  induction ns as [| n ns IH]; simpl; [reflexivity |].
  rewrite IH. reflexivity.
Qed.

Lemma weighted_sum_bounds (ns : list A) (lo hi : R) :
  (forall n, In n ns -> 0 < wt n) ->
  (forall n, In n ns -> lo <= val n <= hi) ->
  lo * fold_right Rplus 0 (map wt ns)
  <= fold_right Rplus 0
       (map (fun vw => fst vw * snd vw) (combine (map val ns) (map wt ns)))
  <= hi * fold_right Rplus 0 (map wt ns).
Proof.
  induction ns as [| n ns IH]; intros Hw Hv; simpl.
  - lra.
  - destruct IH as [Hl Hh].
    + intros m Hm. apply Hw. right. exact Hm.
    + intros m Hm. apply Hv. right. exact Hm.
    + pose proof (Hw n (or_introl eq_refl)) as Hwn.
      pose proof (Hv n (or_introl eq_refl)) as [Hvl Hvh].
      split; nra.
Qed.

Lemma weights_sum_nonneg (ns : list A) :
  (forall n, In n ns -> 0 < wt n) -> 0 <= fold_right Rplus 0 (map wt ns).
Proof.
  induction ns as [| n ns IH]; intros Hw; simpl; [lra |].
  pose proof (Hw n (or_introl eq_refl)) as Hwn.
  assert (0 <= fold_right Rplus 0 (map wt ns)).
  { apply IH. intros m Hm. apply Hw. right. exact Hm. }
  lra.
Qed.

Lemma weights_sum_pos (ns : list A) :
  ns <> [] -> (forall n, In n ns -> 0 < wt n) ->
  0 < fold_right Rplus 0 (map wt ns).
Proof.
  destruct ns as [| n ns]; [congruence |]. intros _ Hw. simpl.
  pose proof (Hw n (or_introl eq_refl)) as Hwn.
  assert (0 <= fold_right Rplus 0 (map wt ns)).
  { apply weights_sum_nonneg. intros m Hm. apply Hw. right. exact Hm. }
  lra.
Qed.

(** Convexity: a mean under positive weights lies between any two bounds
    of the values. *)
Lemma weighted_mean_bounds (ns : list A) (lo hi : R) :
  ns <> [] ->
  (forall n, In n ns -> 0 < wt n) ->
  (forall n, In n ns -> lo <= val n <= hi) ->
  lo <= weighted_mean (map val ns) (map wt ns) <= hi.
Proof.
  intros Hne Hw Hv. unfold weighted_mean.
  pose proof (weights_sum_pos ns Hne Hw) as Hpos.
  destruct (weighted_sum_bounds ns lo hi Hw Hv) as [Hl Hh].
  remember (fold_right Rplus 0 (map wt ns)) as den.
  remember (fold_right Rplus 0
              (map (fun vw => fst vw * snd vw)
                   (combine (map val ns) (map wt ns)))) as num.
  split.
  - apply Rmult_le_reg_r with den; [exact Hpos |].
    unfold Rdiv. rewrite Rmult_assoc, Rinv_l by lra. lra.
  - apply Rmult_le_reg_r with den; [exact Hpos |].
    unfold Rdiv. rewrite Rmult_assoc, Rinv_l by lra. lra.
Qed.

End WeightedMean.

Section FirstFive.

Context {A : Type} (key : A -> R).

(** The slice [[:5]] of the sorted points has [min(5, len(points))]
    elements. *)
Lemma first_five_length (xs : list A) :
  length (firstn 5 (Py.sorted key xs)) = Nat.min 5 (length xs).
Proof. rewrite length_firstn, sorted_length. reflexivity. Qed.

Lemma first_five_nonempty (xs : list A) :
  xs <> [] -> firstn 5 (Py.sorted key xs) <> [].
Proof.
  intros Hne Hnil.
  pose proof (first_five_length xs) as Hlen. rewrite Hnil in Hlen.
  destruct xs as [| x xs]; [congruence |]. simpl in Hlen. lia.
Qed.

Lemma first_five_In (xs : list A) (x : A) :
  In x (firstn 5 (Py.sorted key xs)) -> In x xs.
Proof.
  intros H. apply (sorted_In key).
  rewrite <- (firstn_skipn 5 (Py.sorted key xs)).
  apply in_or_app. left. exact H.
Qed.

Lemma first_five_one (x : A) : firstn 5 (Py.sorted key [x]) = [x].
Proof. reflexivity. Qed.

(** The slice holds points of the input, and no point left out has a
    smaller key than a point in it. *)
Lemma first_five_nearest (xs : list A) :
  exists rest,
    Permutation xs (firstn 5 (Py.sorted key xs) ++ rest)
    /\ forall n m, In n (firstn 5 (Py.sorted key xs)) -> In m rest ->
                   key n <= key m.
Proof.
  exists (skipn 5 (Py.sorted key xs)). split.
  - rewrite firstn_skipn. apply sorted_perm.
  - apply ascending_cut, sorted_ascending.
Qed.

End FirstFive.

(** Two nested loops that append one element per coordinate pair build
    the image of the lattice. *)
Lemma nested_loops_lattice {B : Type} (f : Z -> Z -> B) (lats lons : list Z) :
  flat_map (fun la => flat_map (fun lo => [f la lo]) lons) lats
  = map (fun c => f (fst c) (snd c)) (lattice lats lons).
Proof.
  unfold lattice.
  induction lats as [| la lats IH]; simpl; [reflexivity |].
  rewrite map_app, IH. f_equal.
  rewrite map_map. simpl.
  clear IH. induction lons as [| lo lons IHl]; simpl; [reflexivity |].
  rewrite IHl. reflexivity.
Qed.

Lemma lattice_length (lats lons : list Z) :
  length (lattice lats lons) = (length lats * length lons)%nat.
Proof. apply length_prod. Qed.

(** ** The AQI grid *)

Lemma aqi_lat_range :
  Aqi.lat_range = [25; 27; 29; 31; 33; 35; 37; 39; 41; 43; 45; 47; 49]%Z.
Proof. reflexivity. Qed.

Lemma aqi_lon_range :
  Aqi.lon_range
  = [-125; -123; -121; -119; -117; -115; -113; -111; -109; -107;
     -105; -103; -101; -99; -97; -95; -93; -91; -89; -87;
     -85; -83; -81; -79; -77; -75; -73; -71; -69; -67]%Z.
Proof. reflexivity. Qed.

Lemma aqi_lattice_length :
  length (lattice Aqi.lat_range Aqi.lon_range) = 390%nat.
Proof. rewrite lattice_length. reflexivity. Qed.

Lemma aqi_weight_pos (la lo : Z) (n : Aqi.station) :
  0 < 1 / (Aqi.dist_to la lo n + 1).
Proof.
  unfold Aqi.dist_to.
  pose proof (haversine_nonneg (IZR la) (IZR lo) (Aqi.lat n) (Aqi.lon n)).
  apply Rdiv_lt_0_compat; lra.
Qed.

Lemma aqi_weighted_avg_mean (la lo : Z) (ns : list Aqi.station) :
  Aqi.weighted_avg la lo ns
  = weighted_mean (map Aqi.aqi ns) (Aqi.weights la lo ns).
Proof.
  unfold Aqi.weighted_avg, weighted_mean, Aqi.weights.
  rewrite !sum_fold_right, combine_weights. reflexivity.
Qed.

Lemma aqi_fill_cell (points : list Aqi.station) (la lo : Z) :
  points <> [] ->
  Aqi.fill_cell points la lo
  = [Aqi.cell_at la lo (Aqi.nearest la lo points)].
Proof.
  intros Hne. unfold Aqi.fill_cell.
  pose proof (first_five_nonempty (Aqi.dist_to la lo) points Hne) as Hn.
  fold (Aqi.nearest la lo points) in Hn.
  destruct (Aqi.nearest la lo points); [congruence | reflexivity].
Qed.

Lemma aqi_fill_grid (points : list Aqi.station) :
  points <> [] ->
  Aqi.fill_grid points
  = map (fun c => Aqi.cell_at (fst c) (snd c)
                    (Aqi.nearest (fst c) (snd c) points))
        (lattice Aqi.lat_range Aqi.lon_range).
Proof.
  intros Hne. unfold Aqi.fill_grid.
  rewrite <- (nested_loops_lattice
                (fun la lo => Aqi.cell_at la lo (Aqi.nearest la lo points))).
  apply flat_map_ext. intros la.
  apply flat_map_ext. intros lo.
  apply aqi_fill_cell, Hne.
Qed.

Lemma flat_map_nothing {B C : Type} (f : B -> list C) (l : list B) :
  (forall x, f x = []) -> flat_map f l = [].
Proof.
  intros Hf. induction l as [| x l IH]; simpl; [reflexivity |].
  rewrite Hf, IH. reflexivity.
Qed.

Lemma aqi_fill_grid_nil : Aqi.fill_grid [] = [].
Proof.
  unfold Aqi.fill_grid.
  apply flat_map_nothing. intros la.
  apply flat_map_nothing. intros lo. reflexivity.
Qed.

(** ** The AOD grid *)

Lemma advance_0 (g : Aod.generators) : advance g 0 = g.
Proof. destruct g. reflexivity. Qed.

Lemma advance_advance (g : Aod.generators) (a b : nat) :
  advance (advance g a) b = advance g (a + b).
Proof. unfold advance. simpl. f_equal. lia. Qed.

Lemma aod_cells_app (points : list Aod.point) (rnd : nat -> R) (pos : nat)
    (cs1 cs2 : list (Z * Z)) :
  aod_cells points rnd pos (cs1 ++ cs2)
  = aod_cells points rnd pos cs1
    ++ aod_cells points rnd (2 * length cs1 + pos) cs2.
Proof.
  revert pos. induction cs1 as [| c cs1 IH]; intros pos; simpl.
  - reflexivity.
  - rewrite IH. do 3 f_equal. lia.
Qed.

Lemma aod_cells_length (points : list Aod.point) (rnd : nat -> R) (pos : nat)
    (cs : list (Z * Z)) :
  length (aod_cells points rnd pos cs) = length cs.
Proof.
  revert pos. induction cs as [| c cs IH]; intros pos; simpl;
    [reflexivity | rewrite IH; reflexivity].
Qed.

Lemma aod_weight_pos (la lo : Z) (n : Aod.point) :
  0 < 1 / (Aod.dist_to la lo n + 1).
Proof.
  unfold Aod.dist_to.
  pose proof (haversine_nonneg (IZR la) (IZR lo) (Aod.lat n) (Aod.lon n)).
  apply Rdiv_lt_0_compat; lra.
Qed.

Lemma aod_weighted_avg_mean (la lo : Z) (ns : list Aod.point) :
  Aod.weighted_avg la lo ns
  = weighted_mean (map Aod.aod ns) (Aod.weights la lo ns).
Proof.
  unfold Aod.weighted_avg, weighted_mean, Aod.weights.
  rewrite !sum_fold_right, combine_weights. reflexivity.
Qed.

Lemma aod_cell_step (points : list Aod.point) (la lo : Z)
    (acc : list Aod.point) (g : Aod.generators) :
  points <> [] ->
  Aod.cell_step points la lo (acc, g)
  = (acc ++ aod_cells points (Aod.random g) (Aod.random_pos g) [(la, lo)],
     advance g 2).
Proof.
  intros Hne. unfold Aod.cell_step.
  pose proof (first_five_nonempty (Aod.dist_to la lo) points Hne) as Hn.
  fold (Aod.nearby la lo points) in Hn.
  cbn [aod_cells fst snd].
  destruct (Aod.nearby la lo points) eqn:E; [congruence |].
  reflexivity.
Qed.

Lemma aod_cell_step_nil (la lo : Z) (st : list Aod.point * Aod.generators) :
  Aod.cell_step [] la lo st = st.
Proof. reflexivity. Qed.

Lemma aod_lon_loop (points : list Aod.point) (lons : list Z) (la : Z)
    (acc : list Aod.point) (g : Aod.generators) :
  points <> [] ->
  Aod.lon_loop points lons la (acc, g)
  = (acc ++ aod_cells points (Aod.random g) (Aod.random_pos g)
              (map (pair la) lons),
     advance g (2 * length lons)).
Proof.
  intros Hne. unfold Aod.lon_loop.
  revert acc g. induction lons as [| lo lons IH]; intros acc g.
  - simpl. rewrite app_nil_r, advance_0. reflexivity.
  - cbn [fold_left]. rewrite aod_cell_step by exact Hne.
    rewrite IH. rewrite advance_advance, <- app_assoc.
    f_equal. cbn [length]. f_equal. lia.
Qed.

Lemma aod_lat_loop (points : list Aod.point) (lats lons : list Z)
    (acc : list Aod.point) (g : Aod.generators) :
  points <> [] ->
  Aod.lat_loop points lats lons (acc, g)
  = (acc ++ aod_cells points (Aod.random g) (Aod.random_pos g)
              (lattice lats lons),
     advance g (2 * length (lattice lats lons))).
Proof.
  intros Hne. unfold Aod.lat_loop, lattice.
  revert acc g. induction lats as [| la lats IH]; intros acc g.
  - simpl. rewrite app_nil_r, advance_0. reflexivity.
  - cbn [fold_left list_prod]. rewrite aod_lon_loop by exact Hne.
    rewrite IH. rewrite advance_advance, <- app_assoc.
    rewrite aod_cells_app, length_app, length_map.
    cbn [advance Aod.random Aod.random_pos].
    f_equal. f_equal. lia.
Qed.

Lemma aod_lat_loop_nil (lats lons : list Z)
    (st : list Aod.point * Aod.generators) :
  Aod.lat_loop [] lats lons st = st.
Proof.
  unfold Aod.lat_loop, Aod.lon_loop.
  induction lats as [| la lats IH]; simpl; [reflexivity |].
  assert (H : fold_left (fun st0 lo => Aod.cell_step [] la lo st0) lons st = st).
  { clear IH. induction lons as [| lo lons IHl]; simpl; [reflexivity |].
    exact IHl. }
  rewrite H. exact IH.
Qed.

Lemma arange_nonzero (start stop step : Z) :
  step <> 0%Z -> Py.arange start stop step = Some (Py.range start stop step).
Proof.
  intros H. unfold Py.range, Py.arange.
  destruct (Z.eqb_spec step 0); [contradiction | reflexivity].
Qed.

Lemma smooth_aod_cells (g : Aod.generators) (points : list Aod.point)
    (spacing : Z) :
  points <> [] -> spacing <> 0%Z ->
  Aod.smooth_aod_points g points spacing
  = (Ok (aod_cells points (Aod.random g) (Aod.random_pos g)
           (aod_lattice spacing)),
     advance g (2 * length (aod_lattice spacing))).
Proof.
  intros Hne Hs. unfold Aod.smooth_aod_points.
  destruct points as [| p ps]; [congruence |].
  rewrite !arange_nonzero by exact Hs.
  rewrite aod_lat_loop by exact Hne. reflexivity.
Qed.

Lemma smooth_aod_zero_step (g : Aod.generators) (points : list Aod.point) :
  points <> [] -> Aod.smooth_aod_points g points 0 = (Raise ZeroStep, g).
Proof.
  intros Hne. destruct points as [| p ps]; [congruence | reflexivity].
Qed.

Lemma weighted_mean_one (v w : R) : w <> 0 -> weighted_mean [v] [w] = v.
Proof. intros Hw. unfold weighted_mean. simpl. field. lra. Qed.

Lemma round_30 : Py.round 30 = 30%Z.
Proof. apply (round_IZR 30). Qed.

Lemma round3_30 : Py.round3 30 = 30.
Proof.
  unfold Py.round3. replace (30 * 1000) with (IZR 30000) by lra.
  rewrite round_IZR. lra.
Qed.

(* ================================================================== *)
(** * Empty input (C8) *)
(* ================================================================== *)

(** C8: on the empty sequence of observations both smoothing passes return
    the empty sequence without raising; taken apart, the clustering forms
    no cluster and neither grid loop emits a cell for any coordinate, the
    AOD pass whatever the spacing and without drawing a random number. *)
Theorem empty_input_is_clean (radius_km : R) (g : Aod.generators)
    (spacing : Z) :
  Aqi.clusters [] radius_km = []
  /\ (forall la lo, Aqi.fill_cell [] la lo = [])
  /\ Aqi.fill_grid [] = []
  /\ Aqi.smooth_aqi_points [] radius_km = []
  /\ (forall la lo st, Aod.cell_step [] la lo st = st)
  /\ (forall lats lons st, Aod.lat_loop [] lats lons st = st)
  /\ Aod.smooth_aod_points g [] spacing = (Ok [], g).
Proof.
  split; [reflexivity |].
  split; [intros; reflexivity |].
  split; [apply aqi_fill_grid_nil |].
  split; [reflexivity |].
  split; [intros; reflexivity |].
  split; [intros; apply aod_lat_loop_nil | reflexivity].
Qed.

(* ================================================================== *)
(** * Layout of the AQI output (C10) *)
(* ================================================================== *)

Lemma aqi_cell_rounded (la lo : Z) (ns : list Aqi.station) :
  Rabs (IZR (Aqi.s_aqi (Aqi.cell_at la lo ns))
        - weighted_mean (map Aqi.aqi ns) (Aqi.weights la lo ns)) <= 1 / 2.
Proof.
  simpl. rewrite aqi_weighted_avg_mean. apply round_nearest.
Qed.

(** C10: for a non-empty input [smooth_aqi_points] returns the cluster
    representatives followed by one cell for each of the 390 lattice
    coordinates (latitudes 25, 27, ..., 49 by longitudes -125, -123, ...,
    -67, latitude-major); a cell sits half a degree north and east of its
    coordinate, is labelled "Interpolated", and carries the integer nearest
    to the weighted mean of its neighbours, however many they are. *)
Theorem smooth_aqi_layout (points : list Aqi.station) (radius_km : R) :
  points <> [] ->
  Aqi.smooth_aqi_points points radius_km
  = map Aqi.representative (Aqi.clusters points radius_km)
    ++ map (fun c => Aqi.cell_at (fst c) (snd c)
                       (Aqi.nearest (fst c) (snd c) points))
           (lattice Aqi.lat_range Aqi.lon_range)
  /\ Aqi.lat_range = [25; 27; 29; 31; 33; 35; 37; 39; 41; 43; 45; 47; 49]%Z
  /\ Aqi.lon_range
     = [-125; -123; -121; -119; -117; -115; -113; -111; -109; -107;
        -105; -103; -101; -99; -97; -95; -93; -91; -89; -87;
        -85; -83; -81; -79; -77; -75; -73; -71; -69; -67]%Z
  /\ length (lattice Aqi.lat_range Aqi.lon_range) = 390%nat
  /\ forall la lo ns,
       Aqi.s_lat (Aqi.cell_at la lo ns) = IZR la + 0.5
       /\ Aqi.s_lon (Aqi.cell_at la lo ns) = IZR lo + 0.5
       /\ Aqi.s_category (Aqi.cell_at la lo ns) = "Interpolated"%string
       /\ Rabs (IZR (Aqi.s_aqi (Aqi.cell_at la lo ns))
                - weighted_mean (map Aqi.aqi ns) (Aqi.weights la lo ns))
          <= 1 / 2.
Proof.
  intros Hne.
  split.
  { unfold Aqi.smooth_aqi_points.
    destruct points as [| p ps]; [congruence |].
    rewrite aqi_fill_grid by exact Hne. reflexivity. }
  split; [exact aqi_lat_range |].
  split; [exact aqi_lon_range |].
  split; [exact aqi_lattice_length |].
  intros la lo ns.
  split; [reflexivity |]. split; [reflexivity |]. split; [reflexivity |].
  apply aqi_cell_rounded.
Qed.

Lemma smooth_aqi_layout_witness :
  meridian_stations <> []
  /\ Aqi.smooth_aqi_points meridian_stations 150
     = map Aqi.representative (Aqi.clusters meridian_stations 150)
       ++ map (fun c => Aqi.cell_at (fst c) (snd c)
                          (Aqi.nearest (fst c) (snd c) meridian_stations))
              (lattice Aqi.lat_range Aqi.lon_range).
Proof.
  assert (Hne : meridian_stations <> []) by (unfold meridian_stations; discriminate).
  split; [exact Hne |].
  exact (proj1 (smooth_aqi_layout meridian_stations 150 Hne)).
Defined.

(* ================================================================== *)
(** * A single observation (C9) *)
(* ================================================================== *)

Lemma aqi_single_cell (p : Aqi.station) (la lo : Z) :
  Aqi.aqi p = 30 ->
  Aqi.s_aqi (Aqi.cell_at la lo [p]) = 30%Z.
Proof.
  intros Hv. simpl. rewrite aqi_weighted_avg_mean. simpl.
  rewrite weighted_mean_one.
  - rewrite Hv. exact round_30.
  - pose proof (aqi_weight_pos la lo p). lra.
Qed.

Lemma aod_single_cell (p : Aod.point) (la lo : Z) (u1 u2 : R) :
  Aod.aod p = 30 ->
  Aod.aod (Aod.cell_at la lo [p] u1 u2) = 30.
Proof.
  intros Hv. simpl. rewrite aod_weighted_avg_mean. simpl.
  rewrite weighted_mean_one.
  - rewrite Hv. exact round3_30.
  - pose proof (aod_weight_pos la lo p). lra.
Qed.

Lemma aod_cells_single (p : Aod.point) (rnd : nat -> R) (pos : nat)
    (cs : list (Z * Z)) :
  Aod.aod p = 30 ->
  Forall (fun c => Aod.aod c = 30) (aod_cells [p] rnd pos cs).
Proof.
  intros Hv. revert pos. induction cs as [| c cs IH]; intros pos; simpl.
  - constructor.
  - constructor; [| apply IH].
    unfold Aod.nearby. rewrite first_five_one.
    apply aod_single_cell, Hv.
Qed.

(** C9: the neighbours of a coordinate are the first five of the sorted
    points, hence [min(5, len(points))] of them; and when the input is one
    observation of value 30, every cell either interpolator emits, at
    whatever coordinate, has value exactly 30: the AQI pass emits its 390
    cells, the AOD pass one cell per coordinate of the lattice its spacing
    gives, for any non-zero spacing and any random draws. *)
Theorem single_point_grid (p : Aqi.station) (d : Aod.point)
    (g : Aod.generators) (spacing : Z) :
  Aqi.aqi p = 30 -> Aod.aod d = 30 -> spacing <> 0%Z ->
  (forall points la lo,
     length (Aqi.nearest la lo points) = Nat.min 5 (length points))
  /\ (forall points la lo,
        length (Aod.nearby la lo points) = Nat.min 5 (length points))
  /\ (forall la lo,
        exists c, Aqi.fill_cell [p] la lo = [c] /\ Aqi.s_aqi c = 30%Z)
  /\ length (Aqi.fill_grid [p]) = 390%nat
  /\ Forall (fun c => Aqi.s_aqi c = 30%Z) (Aqi.fill_grid [p])
  /\ exists cells g',
       Aod.smooth_aod_points g [d] spacing = (Ok cells, g')
       /\ length cells = length (aod_lattice spacing)
       /\ Forall (fun c => Aod.aod c = 30) cells.
Proof.
  intros Hp Hd Hs.
  assert (Hne : [p] <> []) by discriminate.
  split; [intros; apply first_five_length |].
  split; [intros; apply first_five_length |].
  split.
  { intros la lo. exists (Aqi.cell_at la lo [p]).
    split; [reflexivity | apply aqi_single_cell, Hp]. }
  rewrite aqi_fill_grid by exact Hne.
  split; [rewrite length_map; exact aqi_lattice_length |].
  split.
  { apply Forall_map, Forall_forall. intros c _.
    unfold Aqi.nearest. rewrite first_five_one.
    apply aqi_single_cell, Hp. }
  eexists. eexists.
  split; [apply smooth_aod_cells; [discriminate | exact Hs] |].
  split; [apply aod_cells_length | apply aod_cells_single, Hd].
Qed.

Lemma single_point_grid_witness :
  let p := station_at 40 (-100) 30 "Good" in
  let d := {| Aod.lat := 40; Aod.lon := -100; Aod.aod := 30 |} in
  let g := {| Aod.random := fun _ => 1 / 2; Aod.random_pos := 0;
              Aod.normal := fun _ => 0.15; Aod.normal_pos := 0 |} in
  Aqi.aqi p = 30 /\ Aod.aod d = 30 /\ 2%Z <> 0%Z
  /\ Forall (fun c => Aqi.s_aqi c = 30%Z) (Aqi.fill_grid [p])
  /\ exists cells g',
       Aod.smooth_aod_points g [d] 2 = (Ok cells, g')
       /\ length cells = length (aod_lattice 2)
       /\ Forall (fun c => Aod.aod c = 30) cells.
Proof.
  intros p d g.
  assert (Hp : Aqi.aqi p = 30) by reflexivity.
  assert (Hd : Aod.aod d = 30) by reflexivity.
  assert (Hs : 2%Z <> 0%Z) by discriminate.
  split; [exact Hp |]. split; [exact Hd |]. split; [exact Hs |].
  destruct (single_point_grid p d g 2 Hp Hd Hs)
    as [_ [_ [_ [_ [Hq Ha]]]]].
  split; [exact Hq | exact Ha].
Defined.

(* ================================================================== *)
(** * The cell value (C7) *)
(* ================================================================== *)

Lemma round_quarter : Py.round (1 / 4) = 0%Z.
Proof.
  unfold Py.round.
  assert (Hf : Zfloor (1 / 4) = 0%Z) by (apply Zfloor_eq; simpl; lra).
  rewrite Hf. simpl. rewrite ltb_true by lra. reflexivity.
Qed.

(** C7 as stated fails on the code: from the single observation of value
    0.25 the AQI pass emits, at the first lattice coordinate, a cell of
    value 0, which is neither the weighted mean (0.25) nor within the
    range of the neighbour values. *)
Lemma cell_value_not_weighted_mean :
  let ns := Aqi.nearest 25 (-125) quarter_station in
  exists c,
    Aqi.fill_cell quarter_station 25 (-125) = [c]
    /\ weighted_mean (map Aqi.aqi ns) (Aqi.weights 25 (-125) ns) = 1 / 4
    /\ IZR (Aqi.s_aqi c) = 0
    /\ ~ (minimum (map Aqi.aqi ns) <= IZR (Aqi.s_aqi c)
          <= maximum (map Aqi.aqi ns)).
Proof.
  intros ns.
  assert (Hns : ns = quarter_station) by reflexivity.
  assert (Hw : weighted_mean (map Aqi.aqi ns) (Aqi.weights 25 (-125) ns) = 1 / 4).
  { rewrite Hns. unfold quarter_station. simpl map.
    apply weighted_mean_one.
    pose proof (aqi_weight_pos 25 (-125) (station_at 40 (-100) (1 / 4) "Good")).
    lra. }
  exists (Aqi.cell_at 25 (-125) ns).
  split; [reflexivity |].
  split; [exact Hw |].
  assert (Hc : IZR (Aqi.s_aqi (Aqi.cell_at 25 (-125) ns)) = 0).
  { simpl Aqi.s_aqi. rewrite aqi_weighted_avg_mean, Hw, round_quarter.
    reflexivity. }
  split; [exact Hc |].
  rewrite Hc, Hns. simpl. lra.
Qed.

(** Going north from a point, a more northern point of the same meridian
    is farther away. *)
Lemma meridian_farther (lat0 lon0 a b : R) :
  lat0 <= a -> a < b -> b - lat0 < 180 ->
  haversine lat0 lon0 a lon0 < haversine lat0 lon0 b lon0.
Proof.
  intros H0 Hab Hb. pose proof PI_RGT_0 as Hpi.
  rewrite !haversine_meridian by (apply Rabs_def1; lra).
  unfold Py.radians.
  rewrite !Rabs_right by (apply Rle_ge; apply Rmult_le_pos; lra).
  nra.
Qed.

(** The neighbours of the coordinate (25, -101) among the three stations
    given farthest first are the three stations nearest first. *)
Lemma nearest_far_first : Aqi.nearest 25 (-101) far_first = near_first.
Proof.
  assert (H1 : Aqi.dist_to 25 (-101) (station_at 41 (IZR (-101)) 60 "Moderate")
               < Aqi.dist_to 25 (-101) (station_at 42 (IZR (-101)) 70 "Moderate")).
  { unfold Aqi.dist_to. simpl. apply meridian_farther; lra. }
  assert (H2 : Aqi.dist_to 25 (-101) (station_at 40 (IZR (-101)) 50 "Good")
               < Aqi.dist_to 25 (-101) (station_at 41 (IZR (-101)) 60 "Moderate")).
  { unfold Aqi.dist_to. simpl. apply meridian_farther; lra. }
  unfold Aqi.nearest, far_first, near_first, Py.sorted.
  cbn [fold_left Py.insert_by].
  rewrite (ltb_true _ _ H1). cbn [Py.insert_by].
  rewrite (ltb_true _ _ H2). reflexivity.
Qed.

Section Selection.

Context {A : Type} (key : A -> R).

(** What the slice [sorted(points, key=...)[:5]] is: the first
    [min(5, len(points))] elements of the arrangement of the points that
    is ascending in the key and keeps points of equal key in input
    order. *)
Lemma first_five_selection (xs : list A) :
  length (firstn 5 (Py.sorted key xs)) = Nat.min 5 (length xs)
  /\ exists rest,
       Permutation xs (firstn 5 (Py.sorted key xs) ++ rest)
       /\ StronglySorted (fun n m => key n <= key m)
                         (firstn 5 (Py.sorted key xs) ++ rest)
       /\ (forall v,
             filter (fun n => Py.eqb (key n) v)
                    (firstn 5 (Py.sorted key xs) ++ rest)
             = filter (fun n => Py.eqb (key n) v) xs)
       /\ forall n m, In n (firstn 5 (Py.sorted key xs)) -> In m rest ->
                      key n <= key m.
Proof.
  split; [apply first_five_length |].
  exists (skipn 5 (Py.sorted key xs)). rewrite firstn_skipn.
  split; [apply sorted_perm |].
  split; [apply sorted_ascending |].
  split; [intros v; apply sorted_stable |].
  apply ascending_cut, sorted_ascending.
Qed.

End Selection.

(** C7, amended: at every lattice coordinate of a non-empty input the
    emitted value is the weighted mean [sum(value_i * w_i) / sum(w_i)]
    over the selected neighbours, with weights [1 / (distance_i + 1)],
    rounded by the explicit [round] call: to the nearest integer in the
    AQI pass, to three decimals in the AOD pass.  The selected neighbours
    are the first [min(5, len(points))] points of the input arranged in
    ascending order of distance, points at equal distance in input order.
    The weighted mean itself lies between the least and the greatest
    neighbour value, so the emitted value is within 1/2 (AQI) or 1/2000
    (AOD) of that range. *)
Theorem cell_value_rounded_mean (points : list Aqi.station)
    (dpoints : list Aod.point) (acc : list Aod.point) (g : Aod.generators)
    (la lo : Z) :
  points <> [] -> dpoints <> [] ->
  (let ns := Aqi.nearest la lo points in
   let wm := weighted_mean (map Aqi.aqi ns)
               (map (fun n => 1 / (Aqi.dist_to la lo n + 1)) ns) in
   Aqi.fill_cell points la lo = [Aqi.cell_at la lo ns]
   /\ length ns = Nat.min 5 (length points)
   /\ (exists rest,
         Permutation points (ns ++ rest)
         /\ StronglySorted
              (fun n m => Aqi.dist_to la lo n <= Aqi.dist_to la lo m)
              (ns ++ rest)
         /\ (forall v,
               filter (fun n => Py.eqb (Aqi.dist_to la lo n) v) (ns ++ rest)
               = filter (fun n => Py.eqb (Aqi.dist_to la lo n) v) points)
         /\ forall n m, In n ns -> In m rest ->
                        Aqi.dist_to la lo n <= Aqi.dist_to la lo m)
   /\ Aqi.s_aqi (Aqi.cell_at la lo ns) = Py.round wm
   /\ minimum (map Aqi.aqi ns) <= wm <= maximum (map Aqi.aqi ns)
   /\ Rabs (IZR (Aqi.s_aqi (Aqi.cell_at la lo ns)) - wm) <= 1 / 2)
  /\
  (let ns := Aod.nearby la lo dpoints in
   let wm := weighted_mean (map Aod.aod ns)
               (map (fun n => 1 / (Aod.dist_to la lo n + 1)) ns) in
   let u1 := Aod.random g (Aod.random_pos g) in
   let u2 := Aod.random g (S (Aod.random_pos g)) in
   Aod.cell_step dpoints la lo (acc, g)
   = (acc ++ [Aod.cell_at la lo ns u1 u2], advance g 2)
   /\ length ns = Nat.min 5 (length dpoints)
   /\ (exists rest,
         Permutation dpoints (ns ++ rest)
         /\ StronglySorted
              (fun n m => Aod.dist_to la lo n <= Aod.dist_to la lo m)
              (ns ++ rest)
         /\ (forall v,
               filter (fun n => Py.eqb (Aod.dist_to la lo n) v) (ns ++ rest)
               = filter (fun n => Py.eqb (Aod.dist_to la lo n) v) dpoints)
         /\ forall n m, In n ns -> In m rest ->
                        Aod.dist_to la lo n <= Aod.dist_to la lo m)
   /\ Aod.aod (Aod.cell_at la lo ns u1 u2) = Py.round3 wm
   /\ minimum (map Aod.aod ns) <= wm <= maximum (map Aod.aod ns)
   /\ Rabs (Aod.aod (Aod.cell_at la lo ns u1 u2) - wm) <= 1 / 2000).
Proof.
  intros Hq Hd. split.
  - intros ns wm.
    assert (Hv : Aqi.s_aqi (Aqi.cell_at la lo ns) = Py.round wm).
    { simpl. rewrite aqi_weighted_avg_mean. reflexivity. }
    destruct (first_five_selection (Aqi.dist_to la lo) points) as [Hlen Hsel].
    split; [apply aqi_fill_cell, Hq |].
    split; [exact Hlen |].
    split; [exact Hsel |].
    split; [exact Hv |].
    split.
    + apply (weighted_mean_bounds Aqi.aqi).
      * apply first_five_nonempty, Hq.
      * intros n _. apply aqi_weight_pos.
      * intros n Hn. split.
        -- apply minimum_le, in_map, Hn.
        -- apply maximum_ge, in_map, Hn.
    + rewrite Hv. apply round_nearest.
  - intros ns wm u1 u2.
    assert (Hv : Aod.aod (Aod.cell_at la lo ns u1 u2) = Py.round3 wm).
    { simpl. rewrite aod_weighted_avg_mean. reflexivity. }
    destruct (first_five_selection (Aod.dist_to la lo) dpoints) as [Hlen Hsel].
    split; [apply aod_cell_step, Hd |].
    split; [exact Hlen |].
    split; [exact Hsel |].
    split; [exact Hv |].
    split.
    + apply (weighted_mean_bounds Aod.aod).
      * apply first_five_nonempty, Hd.
      * intros n _. apply aod_weight_pos.
      * intros n Hn. split.
        -- apply minimum_le, in_map, Hn.
        -- apply maximum_ge, in_map, Hn.
    + rewrite Hv. apply round3_nearest.
Qed.

Lemma cell_value_rounded_mean_witness :
  far_first <> [] /\ two_samples <> []
  /\ Aqi.nearest 25 (-101) far_first = near_first
  /\ Aqi.fill_cell far_first 25 (-101)
     = [Aqi.cell_at 25 (-101) (Aqi.nearest 25 (-101) far_first)]
  /\ length (Aqi.nearest 25 (-101) far_first) = Nat.min 5 (length far_first)
  /\ Aqi.s_aqi (Aqi.cell_at 25 (-101) (Aqi.nearest 25 (-101) far_first))
     = Py.round
         (weighted_mean
            (map Aqi.aqi (Aqi.nearest 25 (-101) far_first))
            (map (fun n => 1 / (Aqi.dist_to 25 (-101) n + 1))
                 (Aqi.nearest 25 (-101) far_first)))
  /\ length (Aod.nearby 25 (-101) two_samples)
     = Nat.min 5 (length two_samples).
Proof.
  assert (Hq : far_first <> []) by (unfold far_first; discriminate).
  assert (Hd : two_samples <> []) by (unfold two_samples; discriminate).
  split; [exact Hq |]. split; [exact Hd |].
  split; [exact nearest_far_first |].
  destruct (cell_value_rounded_mean far_first two_samples [] (steady (1 / 2))
              25 (-101) Hq Hd)
    as [[Hcell [Hlen [_ [Hval _]]]] [_ [Hdlen _]]].
  split; [exact Hcell |]. split; [exact Hlen |].
  split; [exact Hval | exact Hdlen].
Defined.

(* ================================================================== *)
(** * Cluster representatives (C6) *)
(* ================================================================== *)

(** The inner loop only ever appends to [cluster]. *)
Lemma inner_loop_extends (r : R) (i : nat) (p : Aqi.station)
    (jqs cluster : list Aqi.member) (used : list nat) :
  exists extra,
    fst (Aqi.inner_loop r i p jqs cluster used) = cluster ++ extra.
Proof.
  revert cluster used. induction jqs as [| [j q] jqs IH]; intros cluster used.
  - exists []. simpl. rewrite app_nil_r. reflexivity.
  - simpl. destruct (negb (j =? i)%nat && Aqi.near r p q).
    + destruct (IH (cluster ++ [(j, q)]) (j :: used)) as [extra He].
      exists ((j, q) :: extra). rewrite He, <- app_assoc. reflexivity.
    + apply IH.
Qed.

(** Whatever holds of every cluster the inner loop can return holds of
    every cluster collected. *)
Lemma outer_loop_Forall (P : list Aqi.member -> Prop) (r : R)
    (points : list Aqi.station) :
  (forall i p used,
     P (fst (Aqi.inner_loop r i p (Py.enumerate points) [(i, p)] used))) ->
  forall ips used acc,
    Forall P acc -> Forall P (Aqi.outer_loop r points ips used acc).
Proof.
  intros Hin. induction ips as [| [i p] ips IH]; intros used acc Hacc.
  - exact Hacc.
  - simpl. destruct (Aqi.in_used i used).
    + apply IH, Hacc.
    + pose proof (Hin i p used) as Hc.
      destruct (Aqi.inner_loop r i p (Py.enumerate points) [(i, p)] used)
        as [cluster used'].
      apply IH. apply Forall_app. split; [exact Hacc |].
      constructor; [exact Hc | constructor].
Qed.

Lemma clusters_nonempty (points : list Aqi.station) (r : R)
    (c : list Aqi.member) :
  In c (Aqi.clusters points r) -> c <> [].
Proof.
  intros Hc.
  assert (H : Forall (fun c => c <> []) (Aqi.clusters points r)).
  { apply outer_loop_Forall; [| constructor].
    intros i p used.
    destruct (inner_loop_extends r i p (Py.enumerate points) [(i, p)] used)
      as [extra He].
    rewrite He. discriminate. }
  rewrite Forall_forall in H. apply H, Hc.
Qed.

(** Two observations within the radius of each other form one cluster. *)
Lemma clusters_pair (p q : Aqi.station) (r : R) :
  Aqi.near r p q = true ->
  Aqi.clusters [p; q] r = [ [ (0%nat, p); (1%nat, q) ] ].
Proof.
  intros Hn. unfold Aqi.clusters.
  cbn [Py.enumerate Py.enumerate_from Aqi.outer_loop Aqi.inner_loop
       Aqi.in_used existsb Nat.eqb orb negb andb app].
  rewrite Hn.
  cbn [Aqi.outer_loop Aqi.inner_loop Aqi.in_used existsb Nat.eqb orb negb
       andb app].
  reflexivity.
Qed.

Lemma round_half_51 : Py.round (103 / 2) = 52%Z.
Proof.
  unfold Py.round.
  assert (Hf : Zfloor (103 / 2) = 51%Z) by (apply Zfloor_eq; simpl; lra).
  rewrite Hf. simpl (IZR 51).
  rewrite ltb_false by lra. rewrite ltb_false by lra. reflexivity.
Qed.

(** C6 as stated fails on the code: two reports from one place with the
    values 50 and 53 are collapsed to a representative of value 52, not
    to their mean 51.5. *)
Lemma representative_value_not_mean :
  exists c,
    Aqi.clusters twin_stations 150 = [c]
    /\ mean (map Aqi.aqi (map snd c)) = 103 / 2
    /\ IZR (Aqi.s_aqi (Aqi.representative c)) = 52
    /\ IZR (Aqi.s_aqi (Aqi.representative c))
       <> mean (map Aqi.aqi (map snd c)).
Proof.
  eexists. split.
  { unfold twin_stations. apply clusters_pair.
    unfold Aqi.near. simpl. rewrite haversine_same. apply ltb_true. lra. }
  assert (Hm : mean (map Aqi.aqi (map snd
             [ (0%nat, station_at 40 (-100) 50 "Good");
               (1%nat, station_at 40 (-100) 53 "Moderate") ])) = 103 / 2).
  { unfold mean. simpl. lra. }
  assert (Hv : IZR (Aqi.s_aqi (Aqi.representative
             [ (0%nat, station_at 40 (-100) 50 "Good");
               (1%nat, station_at 40 (-100) 53 "Moderate") ])) = 52).
  { simpl Aqi.s_aqi. rewrite sum_fold_right. simpl.
    replace ((50 + (53 + 0)) / (1 + 1)) with (103 / 2) by lra.
    rewrite round_half_51. reflexivity. }
  split; [exact Hm |]. split; [exact Hv |].
  rewrite Hv, Hm. lra.
Qed.

Lemma representative_spec (c : list Aqi.member) :
  let cs := map snd c in
  Aqi.s_lat (Aqi.representative c) = mean (map Aqi.lat cs)
  /\ Aqi.s_lon (Aqi.representative c) = mean (map Aqi.lon cs)
  /\ Aqi.s_aqi (Aqi.representative c) = Py.round (mean (map Aqi.aqi cs))
  /\ Rabs (IZR (Aqi.s_aqi (Aqi.representative c)) - mean (map Aqi.aqi cs))
     <= 1 / 2
  /\ ((1 < length c)%nat ->
      Aqi.s_category (Aqi.representative c) = "Interpolated"%string)
  /\ (forall m, c = [m] ->
      Aqi.s_category (Aqi.representative c) = Aqi.category (snd m)).
Proof.
  intros cs. unfold mean.
  rewrite (length_map Aqi.lat), (length_map Aqi.lon), (length_map Aqi.aqi).
  unfold Aqi.representative. fold cs.
  cbn [Aqi.s_lat Aqi.s_lon Aqi.s_aqi Aqi.s_category].
  rewrite !sum_fold_right.
  split; [reflexivity |]. split; [reflexivity |]. split; [reflexivity |].
  split; [apply round_nearest |].
  split.
  - intros Hlen. unfold cs. rewrite length_map.
    apply Nat.ltb_lt in Hlen. unfold Aqi.member in Hlen.
    rewrite Hlen. reflexivity.
  - intros m Hm. unfold cs. rewrite Hm. reflexivity.
Qed.

(** C6, amended: every cluster the code forms is non-empty and is
    collapsed to one representative whose location is the centroid of the
    members, whose value is the mean of the member values rounded to the
    nearest integer (ties to the even one), and whose category is
    "Interpolated" for two or more members and the sole member's category
    for one.  In particular two observations of values 50 and 54 that lie
    within the radius of each other collapse to one representative with
    value 52 and category "Interpolated". *)
Theorem cluster_representative (points : list Aqi.station) (radius_km : R)
    (p q : Aqi.station) :
  Aqi.aqi p = 50 -> Aqi.aqi q = 54 ->
  haversine (Aqi.lat p) (Aqi.lon p) (Aqi.lat q) (Aqi.lon q) < radius_km ->
  (exists cells,
     Aqi.smooth_aqi_points points radius_km
     = map Aqi.representative (Aqi.clusters points radius_km) ++ cells)
  /\ (forall c, In c (Aqi.clusters points radius_km) ->
        c <> []
        /\ Aqi.s_lat (Aqi.representative c) = mean (map Aqi.lat (map snd c))
        /\ Aqi.s_lon (Aqi.representative c) = mean (map Aqi.lon (map snd c))
        /\ Aqi.s_aqi (Aqi.representative c)
           = Py.round (mean (map Aqi.aqi (map snd c)))
        /\ Rabs (IZR (Aqi.s_aqi (Aqi.representative c))
                 - mean (map Aqi.aqi (map snd c))) <= 1 / 2
        /\ ((1 < length c)%nat ->
            Aqi.s_category (Aqi.representative c) = "Interpolated"%string)
        /\ (forall m, c = [m] ->
            Aqi.s_category (Aqi.representative c) = Aqi.category (snd m)))
  /\ map Aqi.representative (Aqi.clusters [p; q] radius_km)
     = [ {| Aqi.s_lat := (Aqi.lat p + Aqi.lat q) / 2;
            Aqi.s_lon := (Aqi.lon p + Aqi.lon q) / 2;
            Aqi.s_aqi := 52;
            Aqi.s_category := "Interpolated" |} ].
Proof.
  intros Hp Hq Hd.
  split.
  { destruct points as [| s ss].
    - exists []. reflexivity.
    - eexists. reflexivity. }
  split.
  { intros c Hc. split; [eapply clusters_nonempty, Hc |].
    apply representative_spec. }
  rewrite clusters_pair by (apply near_iff, Hd).
  unfold Aqi.representative. cbn [map snd length Nat.ltb Nat.leb].
  rewrite !sum_fold_right. cbn [fold_right map INR].
  rewrite Hp, Hq.
  replace ((50 + (54 + 0)) / (1 + 1)) with 52 by lra.
  rewrite (round_IZR 52).
  f_equal. f_equal; lra.
Qed.

Lemma cluster_representative_witness :
  Aqi.aqi scenario_west = 50 /\ Aqi.aqi scenario_east = 54
  /\ haversine (Aqi.lat scenario_west) (Aqi.lon scenario_west)
               (Aqi.lat scenario_east) (Aqi.lon scenario_east) < 1
  /\ map Aqi.representative
         (Aqi.clusters [scenario_west; scenario_east] 1)
     = [ {| Aqi.s_lat := (Aqi.lat scenario_west + Aqi.lat scenario_east) / 2;
            Aqi.s_lon := (Aqi.lon scenario_west + Aqi.lon scenario_east) / 2;
            Aqi.s_aqi := 52;
            Aqi.s_category := "Interpolated" |} ].
Proof.
  assert (Hp : Aqi.aqi scenario_west = 50) by reflexivity.
  assert (Hq : Aqi.aqi scenario_east = 54) by reflexivity.
  assert (Hd : haversine (Aqi.lat scenario_west) (Aqi.lon scenario_west)
                 (Aqi.lat scenario_east) (Aqi.lon scenario_east) < 1)
    by exact scenario_distance.
  split; [exact Hp |]. split; [exact Hq |]. split; [exact Hd |].
  exact (proj2 (proj2 (cluster_representative
                         [scenario_west; scenario_east] 1
                         scenario_west scenario_east Hp Hq Hd))).
Defined.

(* ================================================================== *)
(** * Where the grid cells sit (C4) *)
(* ================================================================== *)

Lemma aqi_grid_locations (points : list Aqi.station) :
  points <> [] ->
  map aqi_loc (Aqi.fill_grid points)
  = map (fun c => (IZR (fst c) + 0.5, IZR (snd c) + 0.5))
        (lattice Aqi.lat_range Aqi.lon_range).
Proof.
  intros Hne. rewrite aqi_fill_grid by exact Hne.
  rewrite map_map. reflexivity.
Qed.

Lemma aod_cells_locations (points : list Aod.point) (rnd : nat -> R)
    (pos : nat) (cs : list (Z * Z)) :
  map aod_loc (aod_cells points rnd pos cs) = aod_locations rnd pos cs.
Proof.
  revert pos. induction cs as [| c cs IH]; intros pos; simpl;
    [reflexivity | rewrite IH; reflexivity].
Qed.

Lemma uniform_jitter (u : R) :
  0 <= u < 1 -> - 0.3 <= Py.uniform (-0.3) 0.3 u <= 0.3.
Proof. intros [H0 H1]. unfold Py.uniform. lra. Qed.

Lemma aod_locations_near (rnd : nat -> R) (pos : nat) (cs : list (Z * Z)) :
  (forall n, 0 <= rnd n < 1) ->
  Forall2 (fun loc c => Rabs (fst loc - IZR (fst c)) <= 0.3
                        /\ Rabs (snd loc - IZR (snd c)) <= 0.3)
          (aod_locations rnd pos cs) cs.
Proof.
  intros Hr. revert pos. induction cs as [| c cs IH]; intros pos; simpl.
  - constructor.
  - constructor; [| apply IH].
    pose proof (uniform_jitter _ (Hr pos)).
    pose proof (uniform_jitter _ (Hr (S pos))).
    simpl. split; apply Rabs_le; lra.
Qed.

Lemma aod_lattice_head :
  exists rest, aod_lattice 2 = (25, -125)%Z :: rest.
Proof. eexists. reflexivity. Qed.

(** C4 as stated fails on the code: two runs of the AOD interpolator over
    the same point with the same spacing put their cells at different
    coordinates when the random source returns different values. *)
Lemma aod_grid_depends_on_random :
  exists cells1 cells2 g1 g2,
    Aod.smooth_aod_points (steady 0) one_sample 2 = (Ok cells1, g1)
    /\ Aod.smooth_aod_points (steady (1 / 2)) one_sample 2 = (Ok cells2, g2)
    /\ map aod_loc cells1 <> map aod_loc cells2.
Proof.
  assert (Hne : one_sample <> []) by (unfold one_sample; discriminate).
  assert (Hs : 2%Z <> 0%Z) by discriminate.
  do 4 eexists.
  split; [apply smooth_aod_cells; assumption |].
  split; [apply smooth_aod_cells; assumption |].
  rewrite !aod_cells_locations.
  destruct aod_lattice_head as [rest ->].
  cbn [aod_locations steady Aod.random Aod.random_pos fst snd].
  intros Heq. injection Heq as H1 _ _.
  unfold Py.uniform in H1. lra.
Qed.

(** C4, amended: the cells of the AQI pass sit at the lattice coordinates
    shifted by half a degree, the same for every non-empty input.  The AOD
    pass adds to each lattice coordinate a jitter [uniform(-0.3, 0.3)] read
    from the random source, latitude first: its cell locations are a
    function of the spacing and of the random draws, not of the points,
    they lie within 0.3 degrees of the lattice coordinates, and two runs
    agree on them when they read the same draws. *)
Theorem grid_locations (q1 q2 : list Aqi.station) (d1 d2 : list Aod.point)
    (g : Aod.generators) (spacing : Z) :
  q1 <> [] -> q2 <> [] -> d1 <> [] -> d2 <> [] -> spacing <> 0%Z ->
  (forall n, 0 <= Aod.random g n < 1) ->
  (map aqi_loc (Aqi.fill_grid q1)
   = map (fun c => (IZR (fst c) + 0.5, IZR (snd c) + 0.5))
         (lattice Aqi.lat_range Aqi.lon_range)
   /\ map aqi_loc (Aqi.fill_grid q2) = map aqi_loc (Aqi.fill_grid q1))
  /\ exists cells1 cells2 g',
       Aod.smooth_aod_points g d1 spacing = (Ok cells1, g')
       /\ Aod.smooth_aod_points g d2 spacing = (Ok cells2, g')
       /\ map aod_loc cells1
          = aod_locations (Aod.random g) (Aod.random_pos g)
                          (aod_lattice spacing)
       /\ map aod_loc cells2 = map aod_loc cells1
       /\ Forall2 (fun loc c => Rabs (fst loc - IZR (fst c)) <= 0.3
                                /\ Rabs (snd loc - IZR (snd c)) <= 0.3)
                  (map aod_loc cells1) (aod_lattice spacing).
Proof.
  intros Hq1 Hq2 Hd1 Hd2 Hs Hr.
  split.
  { split; [apply aqi_grid_locations, Hq1 |].
    rewrite !aqi_grid_locations by assumption. reflexivity. }
  do 3 eexists.
  split; [apply smooth_aod_cells; assumption |].
  split; [apply smooth_aod_cells; assumption |].
  rewrite !aod_cells_locations.
  split; [reflexivity |]. split; [reflexivity |].
  apply aod_locations_near, Hr.
Qed.

Lemma grid_locations_witness :
  meridian_stations <> [] /\ quarter_station <> []
  /\ one_sample <> [] /\ 2%Z <> 0%Z
  /\ (forall n, 0 <= Aod.random (steady (1 / 2)) n < 1)
  /\ map aqi_loc (Aqi.fill_grid quarter_station)
     = map aqi_loc (Aqi.fill_grid meridian_stations).
Proof.
  assert (H1 : meridian_stations <> [])
    by (unfold meridian_stations; discriminate).
  assert (H2 : quarter_station <> [])
    by (unfold quarter_station; discriminate).
  assert (H3 : one_sample <> []) by (unfold one_sample; discriminate).
  assert (H4 : 2%Z <> 0%Z) by discriminate.
  assert (H5 : forall n, 0 <= Aod.random (steady (1 / 2)) n < 1)
    by (intros n; simpl; lra).
  split; [exact H1 |]. split; [exact H2 |]. split; [exact H3 |].
  split; [exact H4 |]. split; [exact H5 |].
  exact (proj2 (proj1 (grid_locations meridian_stations quarter_station
                         one_sample one_sample (steady (1 / 2)) 2
                         H1 H2 H3 H3 H4 H5))).
Defined.

(* ================================================================== *)
(** * The cached fetch *)
(* ================================================================== *)

Section CachedFetch.

Context {P E : Type}.
Variable compute : Cache.world P E -> outcome P * Cache.world P E.

Lemma fresh_of_fresh (w : Cache.world P E) (f : Cache.file P) :
  is_fresh w f -> Cache.fresh w = Some f.
Proof.
  intros [Hf Hage]. unfold Cache.fresh. rewrite Hf.
  unfold age_hours in Hage. rewrite ltb_true by exact Hage. reflexivity.
Qed.

Lemma fresh_of_stale (w : Cache.world P E) :
  stale_or_absent w -> Cache.fresh w = None.
Proof.
  intros [Hnone | [f [Hf Hage]]]; unfold Cache.fresh.
  - rewrite Hnone. reflexivity.
  - rewrite Hf. unfold age_hours in Hage.
    rewrite ltb_false by exact Hage. reflexivity.
Qed.

Lemma fresh_without_file (w : Cache.world P E) :
  Cache.fresh (without_file w) = None.
Proof. reflexivity. Qed.

Lemma cached_fetch_hit (w : Cache.world P E) (f : Cache.file P) (p : P) :
  is_fresh w f -> Cache.content f = Some p ->
  Cache.cached_fetch compute w = (Ok p, w, 0%nat).
Proof.
  intros Hf Hp. unfold Cache.cached_fetch.
  rewrite (fresh_of_fresh w f Hf). unfold Cache.json_load.
  rewrite Hp. reflexivity.
Qed.

Lemma cached_fetch_undecodable (w : Cache.world P E) (f : Cache.file P) :
  is_fresh w f -> Cache.content f = None ->
  Cache.cached_fetch compute w = (Raise JSONDecodeError, w, 0%nat).
Proof.
  intros Hf Hp. unfold Cache.cached_fetch.
  rewrite (fresh_of_fresh w f Hf). unfold Cache.json_load.
  rewrite Hp. reflexivity.
Qed.

Lemma cached_fetch_miss (w w1 : Cache.world P E) (data : P) :
  stale_or_absent w -> compute w = (Ok data, w1) ->
  Cache.cached_fetch compute w = (Ok data, Cache.json_dump data w1, 1%nat).
Proof.
  intros Hs Hc. unfold Cache.cached_fetch.
  rewrite (fresh_of_stale w Hs), Hc. reflexivity.
Qed.

Lemma cached_fetch_raise (w w1 : Cache.world P E) (e : exn) :
  stale_or_absent w -> compute w = (Raise e, w1) ->
  Cache.cached_fetch compute w = (Raise e, w1, 1%nat).
Proof.
  intros Hs Hc. unfold Cache.cached_fetch.
  rewrite (fresh_of_stale w Hs), Hc. reflexivity.
Qed.

End CachedFetch.

(** ** The two compute steps always return *)

Lemma aqi_compute_ok (w : Aqi.world) :
  Aqi.compute w
  = (Ok (Aqi.smooth_aqi_points
           (Aqi.fetch_all_aqi (Aqi.respond (Cache.outside w))) 150),
     {| Cache.now := Cache.now w + Aqi.elapsed (Cache.outside w);
        Cache.cache_file := Cache.cache_file w;
        Cache.outside := Cache.outside w |}).
Proof. reflexivity. Qed.

Lemma smooth_aod_default (g : Aod.generators) (raw : list Aod.point) :
  exists cells g', Aod.smooth_aod_points g raw 2 = (Ok cells, g').
Proof.
  destruct raw as [| p ps].
  - exists [], g. reflexivity.
  - do 2 eexists. apply smooth_aod_cells; discriminate.
Qed.

Lemma aod_compute_ok (w : Aod.world) :
  exists cells g',
    Aod.compute w
    = (Ok cells,
       {| Cache.now := Cache.now w + Aod.elapsed (fst (Cache.outside w));
          Cache.cache_file := Cache.cache_file w;
          Cache.outside := (fst (Cache.outside w), g') |}).
Proof.
  unfold Aod.compute. destruct (Cache.outside w) as [svc g].
  destruct (Aod.fetch_aod_granules svc g) as [raw g1].
  destruct (smooth_aod_default g1 raw) as [cells [g2 Hs]].
  exists cells, g2. rewrite Hs. reflexivity.
Qed.

(* ================================================================== *)
(** * Freshness-gated caching (C5) *)
(* ================================================================== *)

(** C5: with a time-to-live of two hours measured from the file's
    modification time, both cached fetchers return the persisted payload
    of a fresh entry without running the compute step and without touching
    anything; when there is no entry, or its age is two hours or more, they
    run the compute step exactly once, replace the file as a whole by the
    result, stamped with the clock at the moment of writing, and return
    that result. *)
Theorem freshness_gated_fetch (wq : Aqi.world) (wd : Aod.world) :
  (forall f p, is_fresh wq f -> Cache.content f = Some p ->
     Aqi.fetch_aqi_data wq = (Ok p, wq, 0%nat))
  /\ (stale_or_absent wq ->
      exists data w1,
        Aqi.compute wq = (Ok data, w1)
        /\ Aqi.fetch_aqi_data wq = (Ok data, Cache.json_dump data w1, 1%nat)
        /\ Cache.cache_file (Cache.json_dump data w1)
           = Some {| Cache.st_mtime := Cache.now w1;
                     Cache.content := Some data |}
        /\ Cache.now (Cache.json_dump data w1) = Cache.now w1)
  /\ (forall f p, is_fresh wd f -> Cache.content f = Some p ->
        Aod.fetch_aod_data wd = (Ok p, wd, 0%nat))
  /\ (stale_or_absent wd ->
      exists data w1,
        Aod.compute wd = (Ok data, w1)
        /\ Aod.fetch_aod_data wd = (Ok data, Cache.json_dump data w1, 1%nat)
        /\ Cache.cache_file (Cache.json_dump data w1)
           = Some {| Cache.st_mtime := Cache.now w1;
                     Cache.content := Some data |}
        /\ Cache.now (Cache.json_dump data w1) = Cache.now w1).
Proof.
  split; [intros f p Hf Hp; apply (cached_fetch_hit _ wq f p Hf Hp) |].
  split.
  { intros Hs. do 2 eexists.
    split; [apply aqi_compute_ok |].
    split; [apply cached_fetch_miss; [exact Hs | apply aqi_compute_ok] |].
    split; reflexivity. }
  split; [intros f p Hf Hp; apply (cached_fetch_hit _ wd f p Hf Hp) |].
  intros Hs. destruct (aod_compute_ok wd) as [cells [g' Hc]].
  do 2 eexists.
  split; [exact Hc |].
  split; [apply cached_fetch_miss; [exact Hs | exact Hc] |].
  split; reflexivity.
Qed.

Lemma freshness_gated_fetch_witness :
  let hit := world_at 3600 airnow_down in
  let miss := world_at 7200 airnow_down in
  let f := {| Cache.st_mtime := 0; Cache.content := Some old_payload |} in
  is_fresh hit f /\ Cache.content f = Some old_payload
  /\ Aqi.fetch_aqi_data hit = (Ok old_payload, hit, 0%nat)
  /\ stale_or_absent miss
  /\ exists data w1,
       Aqi.compute miss = (Ok data, w1)
       /\ Aqi.fetch_aqi_data miss = (Ok data, Cache.json_dump data w1, 1%nat).
Proof.
  intros hit miss f.
  assert (Hf : is_fresh hit f).
  { split; [reflexivity |]. unfold age_hours. simpl. lra. }
  assert (Hp : Cache.content f = Some old_payload) by reflexivity.
  assert (Hs : stale_or_absent miss).
  { right. exists f. split; [reflexivity |]. unfold age_hours. simpl. lra. }
  split; [exact Hf |]. split; [exact Hp |].
  pose (wd := aod_world_at 0 None earthdata_denied).
  split; [exact (proj1 (freshness_gated_fetch hit wd) f old_payload Hf Hp) |].
  split; [exact Hs |].
  destruct (proj1 (proj2 (freshness_gated_fetch miss wd)) Hs)
    as [data [w1 [Hc [Hfetch _]]]].
  exists data, w1. split; [exact Hc | exact Hfetch].
Defined.

(* ================================================================== *)
(** * An entry that cannot be decoded (C3) *)
(* ================================================================== *)

Lemma fetch_all_aqi_nothing (respond : R -> R -> Aqi.response) :
  (forall la lo, Aqi.fetch_station (respond la lo) = []) ->
  Aqi.fetch_all_aqi respond = [].
Proof.
  intros H. unfold Aqi.fetch_all_aqi.
  assert (Hc : forall cs : list (R * R),
             concat (map (fun c => Aqi.fetch_station (respond (fst c) (snd c)))
                         cs) = []).
  { induction cs as [| c cs IH]; simpl; [reflexivity |].
    rewrite H, IH. reflexivity. }
  rewrite Hc. reflexivity.
Qed.

Lemma aqi_fetch_ignores_stale_file (w : Aqi.world) :
  stale_or_absent w ->
  Aqi.fetch_aqi_data w = Aqi.fetch_aqi_data (without_file w).
Proof.
  intros Hs. unfold Aqi.fetch_aqi_data, Cache.cached_fetch.
  rewrite (fresh_of_stale w Hs), fresh_without_file. reflexivity.
Qed.

Lemma aod_fetch_ignores_stale_file (w : Aod.world) :
  stale_or_absent w ->
  Aod.fetch_aod_data w = Aod.fetch_aod_data (without_file w).
Proof.
  intros Hs. unfold Aod.fetch_aod_data, Cache.cached_fetch.
  rewrite (fresh_of_stale w Hs), fresh_without_file.
  unfold Aod.compute. cbn [without_file Cache.outside Cache.now Cache.cache_file].
  destruct (Cache.outside w) as [svc g].
  destruct (Aod.fetch_aod_granules svc g) as [raw g1].
  destruct (smooth_aod_default g1 raw) as [cells [g2 Hc]].
  rewrite Hc. reflexivity.
Qed.

(** C3 as stated fails on the code: with a cache file one hour old whose
    bytes are not JSON, the fetcher raises the decoding error to its
    caller and does not recompute, unlike what it does when there is no
    file. *)
Lemma fresh_corrupt_entry_raises :
  let w := corrupt_world_at 3600 airnow_down in
  let f := {| Cache.st_mtime := 0; Cache.content := None |} in
  is_fresh w f /\ Cache.content f = None
  /\ Aqi.fetch_aqi_data w = (Raise JSONDecodeError, w, 0%nat)
  /\ Aqi.fetch_aqi_data w <> Aqi.fetch_aqi_data (without_file w).
Proof.
  intros w f.
  assert (Hf : is_fresh w f).
  { split; [reflexivity |]. unfold age_hours. simpl. lra. }
  assert (Hr : Aqi.fetch_aqi_data w = (Raise JSONDecodeError, w, 0%nat)).
  { apply (cached_fetch_undecodable _ w f Hf). reflexivity. }
  split; [exact Hf |]. split; [reflexivity |]. split; [exact Hr |].
  rewrite Hr. unfold Aqi.fetch_aqi_data, Cache.cached_fetch.
  rewrite fresh_without_file, aqi_compute_ok. discriminate.
Qed.

(** C3, amended: an entry that cannot be decoded is passed over exactly
    when it is stale: the fetcher then behaves as if there were no file,
    recomputes and returns normally.  While such an entry is fresh,
    [json.load] raises and the fetcher lets the error through, without
    recomputing and without changing the file. *)
Theorem undecodable_entry (wq : Aqi.world) (wd : Aod.world)
    (fq : Cache.file (list Aqi.smoothed)) (fd : Cache.file (list Aod.point)) :
  Cache.content fq = None -> Cache.content fd = None ->
  (is_stale wq fq ->
     Aqi.fetch_aqi_data wq = Aqi.fetch_aqi_data (without_file wq)
     /\ exists data w', Aqi.fetch_aqi_data wq = (Ok data, w', 1%nat))
  /\ (is_fresh wq fq ->
        Aqi.fetch_aqi_data wq = (Raise JSONDecodeError, wq, 0%nat))
  /\ (is_stale wd fd ->
        Aod.fetch_aod_data wd = Aod.fetch_aod_data (without_file wd)
        /\ exists data w', Aod.fetch_aod_data wd = (Ok data, w', 1%nat))
  /\ (is_fresh wd fd ->
        Aod.fetch_aod_data wd = (Raise JSONDecodeError, wd, 0%nat)).
Proof.
  intros Hq Hd.
  split.
  { intros Hs.
    assert (Hsa : stale_or_absent wq) by (right; exists fq; exact Hs).
    split; [apply aqi_fetch_ignores_stale_file, Hsa |].
    do 2 eexists. apply cached_fetch_miss; [exact Hsa | apply aqi_compute_ok]. }
  split; [intros Hf; apply (cached_fetch_undecodable _ wq fq Hf Hq) |].
  split.
  { intros Hs.
    assert (Hsa : stale_or_absent wd) by (right; exists fd; exact Hs).
    split; [apply aod_fetch_ignores_stale_file, Hsa |].
    destruct (aod_compute_ok wd) as [cells [g' Hc]].
    do 2 eexists. apply cached_fetch_miss; [exact Hsa | exact Hc]. }
  intros Hf. apply (cached_fetch_undecodable _ wd fd Hf Hd).
Qed.

Lemma undecodable_entry_witness :
  let fq := {| Cache.st_mtime := 0; Cache.content := None |} in
  let fd := {| Cache.st_mtime := 0; Cache.content := None |} in
  let stale := corrupt_world_at 7200 airnow_down in
  let recent := corrupt_world_at 3600 airnow_down in
  let wd := aod_world_at 3600 None earthdata_denied in
  Cache.content fq = None /\ Cache.content fd = None
  /\ is_stale stale fq /\ is_fresh recent fq /\ is_fresh wd fd
  /\ Aqi.fetch_aqi_data stale = Aqi.fetch_aqi_data (without_file stale)
  /\ Aqi.fetch_aqi_data recent = (Raise JSONDecodeError, recent, 0%nat)
  /\ Aod.fetch_aod_data wd = (Raise JSONDecodeError, wd, 0%nat).
Proof.
  intros fq fd stale recent wd.
  assert (Hq : Cache.content fq = None) by reflexivity.
  assert (Hd : Cache.content fd = None) by reflexivity.
  assert (Hs : is_stale stale fq).
  { split; [reflexivity |]. unfold age_hours. simpl. lra. }
  assert (Hf : is_fresh recent fq).
  { split; [reflexivity |]. unfold age_hours. simpl. lra. }
  assert (Hfd : is_fresh wd fd).
  { split; [reflexivity |]. unfold age_hours. simpl. lra. }
  split; [exact Hq |]. split; [exact Hd |]. split; [exact Hs |].
  split; [exact Hf |]. split; [exact Hfd |].
  split; [exact (proj1 (proj1 (undecodable_entry stale wd fq fd Hq Hd) Hs)) |].
  split; [exact (proj1 (proj2 (undecodable_entry recent wd fq fd Hq Hd)) Hf) |].
  exact (proj2 (proj2 (proj2 (undecodable_entry recent wd fq fd Hq Hd))) Hfd).
Defined.

(* ================================================================== *)
(** * A failed recomputation (C2) *)
(* ================================================================== *)

Lemma aqi_fetch_nothing (w : Aqi.world) :
  stale_or_absent w ->
  (forall la lo,
     Aqi.fetch_station (Aqi.respond (Cache.outside w) la lo) = []) ->
  Aqi.fetch_aqi_data w
  = (Ok [],
     {| Cache.now := Cache.now w + Aqi.elapsed (Cache.outside w);
        Cache.cache_file :=
          Some {| Cache.st_mtime := Cache.now w + Aqi.elapsed (Cache.outside w);
                  Cache.content := Some [] |};
        Cache.outside := Cache.outside w |},
     1%nat).
Proof.
  intros Hs Hdown. unfold Aqi.fetch_aqi_data.
  erewrite cached_fetch_miss; [| exact Hs | apply aqi_compute_ok].
  rewrite fetch_all_aqi_nothing by exact Hdown. reflexivity.
Qed.

Lemma fetch_aod_granules_nothing (svc : Aod.earthdata) (g : Aod.generators) :
  Aod.login svc = false \/ Aod.search svc = false ->
  Aod.fetch_aod_granules svc g = ([], g).
Proof.
  unfold Aod.fetch_aod_granules.
  intros [Hl | Hsearch].
  - rewrite Hl. reflexivity.
  - rewrite Hsearch. destruct (negb (Aod.login svc)); reflexivity.
Qed.

Lemma aod_fetch_nothing (w : Aod.world) :
  stale_or_absent w ->
  Aod.login (fst (Cache.outside w)) = false
  \/ Aod.search (fst (Cache.outside w)) = false ->
  Aod.fetch_aod_data w
  = (Ok [],
     {| Cache.now := Cache.now w + Aod.elapsed (fst (Cache.outside w));
        Cache.cache_file :=
          Some {| Cache.st_mtime :=
                    Cache.now w + Aod.elapsed (fst (Cache.outside w));
                  Cache.content := Some [] |};
        Cache.outside := Cache.outside w |},
     1%nat).
Proof.
  intros Hs Hdown. unfold Aod.fetch_aod_data.
  assert (Hc : Aod.compute w
               = (Ok [],
                  {| Cache.now := Cache.now w + Aod.elapsed (fst (Cache.outside w));
                     Cache.cache_file := Cache.cache_file w;
                     Cache.outside := Cache.outside w |})).
  { unfold Aod.compute. destruct (Cache.outside w) as [svc g].
    simpl in Hdown. rewrite (fetch_aod_granules_nothing svc g Hdown).
    reflexivity. }
  erewrite cached_fetch_miss; [| exact Hs | exact Hc]. reflexivity.
Qed.

(** C2 as stated fails on the code: with a stale entry holding a payload
    and AirNow out of reach, every request fails, the failures are caught
    inside the compute step, and the fetcher overwrites the entry with an
    empty payload. *)
Lemma failed_fetch_replaces_entry :
  let w := world_at 7200 airnow_down in
  let f := {| Cache.st_mtime := 0; Cache.content := Some old_payload |} in
  is_stale w f
  /\ (forall la lo, Aqi.respond (Cache.outside w) la lo = Aqi.Failed)
  /\ exists w',
       Aqi.fetch_aqi_data w = (Ok [], w', 1%nat)
       /\ Cache.cache_file w'
          = Some {| Cache.st_mtime := 7200 + 15; Cache.content := Some [] |}
       /\ Cache.cache_file w' <> Cache.cache_file w.
Proof.
  intros w f.
  assert (Hs : is_stale w f).
  { split; [reflexivity |]. unfold age_hours. simpl. lra. }
  split; [exact Hs |]. split; [reflexivity |].
  eexists. split.
  { apply aqi_fetch_nothing; [right; exists f; exact Hs | reflexivity]. }
  split; [reflexivity |].
  simpl. discriminate.
Qed.

(** C2, amended: an exception that escapes the compute step leaves the
    persisted entry as it was, because the file is opened for writing only
    after the compute step has returned.  Network errors and authentication
    failures do not escape: the adapters catch them and return no
    observations, the compute step returns the empty sequence, and the
    fetcher replaces the existing entry by an empty payload stamped with
    the current time. *)
Theorem compute_failure_and_entry
    (compute : Aqi.world -> outcome (list Aqi.smoothed) * Aqi.world)
    (w w1 : Aqi.world) (e : exn) (wq : Aqi.world) (wd : Aod.world) :
  stale_or_absent w -> compute w = (Raise e, w1) ->
  Cache.cache_file w1 = Cache.cache_file w ->
  stale_or_absent wq ->
  (forall la lo,
     Aqi.fetch_station (Aqi.respond (Cache.outside wq) la lo) = []) ->
  stale_or_absent wd ->
  Aod.login (fst (Cache.outside wd)) = false
  \/ Aod.search (fst (Cache.outside wd)) = false ->
  (exists w',
     Cache.cached_fetch compute w = (Raise e, w', 1%nat)
     /\ Cache.cache_file w' = Cache.cache_file w)
  /\ (exists w',
        Aqi.fetch_aqi_data wq = (Ok [], w', 1%nat)
        /\ Cache.cache_file w'
           = Some {| Cache.st_mtime :=
                       Cache.now wq + Aqi.elapsed (Cache.outside wq);
                     Cache.content := Some [] |})
  /\ (exists w',
        Aod.fetch_aod_data wd = (Ok [], w', 1%nat)
        /\ Cache.cache_file w'
           = Some {| Cache.st_mtime :=
                       Cache.now wd + Aod.elapsed (fst (Cache.outside wd));
                     Cache.content := Some [] |}).
Proof.
  intros Hs Hc Hfile Hsq Hq Hsd Hd.
  split.
  { exists w1. split; [apply cached_fetch_raise; assumption | exact Hfile]. }
  split.
  { eexists. split; [apply aqi_fetch_nothing; assumption | reflexivity]. }
  eexists. split; [apply aod_fetch_nothing; assumption | reflexivity].
Qed.

Lemma compute_failure_and_entry_witness :
  let w := world_at 7200 airnow_down in
  let wd := aod_world_at 7200 (Some one_sample) earthdata_denied in
  stale_or_absent w
  /\ failing_compute w = (Raise (OtherError "connection reset"), w)
  /\ (forall la lo,
        Aqi.fetch_station (Aqi.respond (Cache.outside w) la lo) = [])
  /\ stale_or_absent wd
  /\ Aod.login (fst (Cache.outside wd)) = false
  /\ (exists w',
        Cache.cached_fetch failing_compute w
        = (Raise (OtherError "connection reset"), w', 1%nat)
        /\ Cache.cache_file w' = Cache.cache_file w)
  /\ (exists w',
        Aod.fetch_aod_data wd = (Ok [], w', 1%nat)
        /\ Cache.cache_file w'
           = Some {| Cache.st_mtime :=
                       Cache.now wd + Aod.elapsed (fst (Cache.outside wd));
                     Cache.content := Some [] |}).
Proof.
  intros w wd.
  assert (Hs : stale_or_absent w).
  { right. eexists. split; [reflexivity |]. unfold age_hours. simpl. lra. }
  assert (Hc : failing_compute w = (Raise (OtherError "connection reset"), w))
    by reflexivity.
  assert (Hq : forall la lo,
             Aqi.fetch_station (Aqi.respond (Cache.outside w) la lo) = [])
    by reflexivity.
  assert (Hsd : stale_or_absent wd).
  { right. eexists. split; [reflexivity |]. unfold age_hours. simpl. lra. }
  assert (Hl : Aod.login (fst (Cache.outside wd)) = false) by reflexivity.
  split; [exact Hs |]. split; [exact Hc |]. split; [exact Hq |].
  split; [exact Hsd |]. split; [exact Hl |].
  destruct (compute_failure_and_entry failing_compute w w
              (OtherError "connection reset") w wd
              Hs Hc eq_refl Hs Hq Hsd (or_introl Hl))
    as [Hraise [_ Haod]].
  split; [exact Hraise | exact Haod].
Defined.

(* ================================================================== *)
(** * Further properties of the distance *)
(* ================================================================== *)

Lemma hav_a_sym (lat1 lon1 lat2 lon2 : R) :
  hav_a lat1 lon1 lat2 lon2 = hav_a lat2 lon2 lat1 lon1.
Proof.
  unfold hav_a.
  replace (Py.radians (lat1 - lat2) / 2)
    with (- (Py.radians (lat2 - lat1) / 2)) by (unfold Py.radians; lra).
  replace (Py.radians (lon1 - lon2) / 2)
    with (- (Py.radians (lon2 - lon1) / 2)) by (unfold Py.radians; lra).
  rewrite !sin_neg. ring.
Qed.

(** X1: the distance does not depend on the order of its two points. *)
Theorem haversine_symmetric (lat1 lon1 lat2 lon2 : R) :
  haversine lat1 lon1 lat2 lon2 = haversine lat2 lon2 lat1 lon1.
Proof. unfold haversine. rewrite hav_a_sym. reflexivity. Qed.

Lemma atan2_quadrant (y x : R) :
  0 <= y -> 0 <= x -> Py.atan2 y x <= PI / 2.
Proof.
  intros Hy Hx. unfold Py.atan2. pose proof PI_RGT_0 as Hpi.
  destruct (Rlt_dec 0 x) as [Hpos | Hnpos].
  - rewrite ltb_true by exact Hpos.
    pose proof (atan_bound (y / x)). lra.
  - rewrite ltb_false by lra. rewrite (ltb_false x 0) by lra.
    destruct (Rlt_dec 0 y) as [Hy' | Hy'].
    + rewrite ltb_true by exact Hy'. lra.
    + rewrite ltb_false by lra. rewrite ltb_false by lra. lra.
Qed.

(** X2: for all arguments the distance lies between zero and half the
    circumference of the sphere, [6371 * pi] km (about 20015 km), and it is
    zero from a point to itself. *)
Theorem haversine_range (lat1 lon1 lat2 lon2 : R) :
  0 <= haversine lat1 lon1 lat2 lon2 <= 6371 * PI
  /\ haversine lat1 lon1 lat1 lon1 = 0.
Proof.
  split; [| apply haversine_same].
  split; [apply haversine_nonneg |].
  unfold haversine.
  pose proof (atan2_quadrant (sqrt (hav_a lat1 lon1 lat2 lon2))
                (sqrt (1 - hav_a lat1 lon1 lat2 lon2))
                (sqrt_pos _) (sqrt_pos _)).
  lra.
Qed.

(** X3: between two points on one meridian less than 180 degrees of
    latitude apart, the distance is the arc length exactly: 6371 km times
    the latitude difference in radians. *)
Theorem meridian_arc_length (lat1 lat2 lon0 : R) :
  Rabs (lat2 - lat1) < 180 ->
  haversine lat1 lon0 lat2 lon0 = 6371 * (Rabs (lat2 - lat1) * (PI / 180)).
Proof.
  intros Hd. rewrite haversine_meridian by exact Hd.
  unfold Py.radians. rewrite Rabs_mult.
  rewrite (Rabs_right (PI / 180)); [reflexivity |].
  pose proof PI_RGT_0. lra.
Qed.

Lemma meridian_arc_length_witness :
  Rabs (41 - 40) < 180
  /\ haversine 40 (-100) 41 (-100) = 6371 * (Rabs (41 - 40) * (PI / 180)).
Proof.
  assert (H : Rabs (41 - 40) < 180).
  { replace (41 - 40) with 1 by lra. rewrite Rabs_R1. lra. }
  split; [exact H | exact (meridian_arc_length 40 41 (-100) H)].
Defined.

(* ================================================================== *)
(** * The AirNow adapter *)
(* ================================================================== *)

Lemma station_of_In (d : Aqi.observation) (s : Aqi.station) :
  In s (Aqi.station_of d) ->
  Aqi.aqi s <> 0 /\ Aqi.AQI d = Some (Aqi.aqi s)
  /\ Aqi.lat s = Aqi.Latitude d /\ Aqi.lon s = Aqi.Longitude d.
Proof.
  unfold Aqi.station_of. destruct (Aqi.AQI d) as [a |]; [| contradiction].
  simpl. unfold Py.eqb. destruct (Req_dec_T a 0) as [E | E]; [contradiction |].
  intros [<- | []]. simpl. repeat split; auto.
Qed.

Lemma station_of_length (d : Aqi.observation) :
  (length (Aqi.station_of d) <= 1)%nat.
Proof.
  unfold Aqi.station_of. destruct (Aqi.AQI d) as [a |]; [| simpl; lia].
  destruct (Aqi.falsy (Some a)); simpl; lia.
Qed.

(** X4: [fetch_station] returns nothing when the request failed or the
    status is not 200.  Every station it returns comes from a record of
    the body, with that record's coordinates and its AQI, which is present
    and not zero; so it returns at most one station per record. *)
Theorem fetch_station_filters (status : Z) (body : list Aqi.observation)
    (s : Aqi.station) :
  Aqi.fetch_station Aqi.Failed = []
  /\ (status <> 200%Z -> Aqi.fetch_station (Aqi.Http status body) = [])
  /\ (In s (Aqi.fetch_station (Aqi.Http status body)) ->
      status = 200%Z /\ Aqi.aqi s <> 0
      /\ exists d, In d body /\ Aqi.AQI d = Some (Aqi.aqi s)
                   /\ Aqi.lat s = Aqi.Latitude d
                   /\ Aqi.lon s = Aqi.Longitude d)
  /\ (length (Aqi.fetch_station (Aqi.Http status body)) <= length body)%nat.
Proof.
  split; [reflexivity |].
  split.
  { intros Hs. simpl. destruct (Z.eqb_spec status 200); [contradiction | reflexivity]. }
  split.
  { simpl. destruct (Z.eqb_spec status 200) as [-> | Hne]; [| contradiction].
    intros Hin. apply in_flat_map in Hin. destruct Hin as [d [Hd Hs]].
    destruct (station_of_In d s Hs) as [H0 [Ha [Hla Hlo]]].
    split; [reflexivity |]. split; [exact H0 |].
    exists d. auto. }
  simpl. destruct (status =? 200)%Z; [| simpl; lia].
  induction body as [| d body IH]; simpl; [lia |].
  rewrite length_app. pose proof (station_of_length d). lia.
Qed.

Lemma fetch_station_filters_witness :
  let body := [reading 39.74 (-104.99) 42; reading 39.7 (-105) 0] in
  401%Z <> 200%Z
  /\ Aqi.fetch_station (Aqi.Http 401 body) = [].
Proof.
  intros body.
  assert (H : 401%Z <> 200%Z) by discriminate.
  split; [exact H |].
  exact (proj1 (proj2 (fetch_station_filters 401 body
                         (station_at 0 0 0 "Good"))) H).
Defined.

(** ** Deduplication *)

Lemma key_eqb_eq (k1 k2 : R * R) : Aqi.key_eqb k1 k2 = true <-> k1 = k2.
Proof.
  destruct k1 as [a b], k2 as [c d]. unfold Aqi.key_eqb. simpl.
  rewrite andb_true_iff, !eqb_true_iff. split.
  - intros [-> ->]. reflexivity.
  - intros E. injection E. auto.
Qed.

Lemma seen_In (k : R * R) (seen : list (R * R)) :
  existsb (Aqi.key_eqb k) seen = true <-> In k seen.
Proof.
  rewrite existsb_exists. split.
  - intros [k' [Hin Hk]]. apply key_eqb_eq in Hk. subst. exact Hin.
  - intros Hin. exists k. split; [exact Hin | apply key_eqb_eq; reflexivity].
Qed.

Section Dedupe.

(** What the loop keeps true between [seen] and [unique]. *)
Variables (seen : list (R * R)) (unique : list Aqi.station).
Hypothesis seen_unique : forall k, In k seen <-> In k (map Aqi.key_of unique).

Lemma seen_unique_step (s : Aqi.station) :
  forall k, In k (Aqi.key_of s :: seen)
            <-> In k (map Aqi.key_of (unique ++ [s])).
Proof.
  intros k. rewrite map_app, in_app_iff. simpl. rewrite seen_unique. tauto.
Qed.

End Dedupe.

Lemma dedupe_extends (all_data : list Aqi.station) :
  forall seen unique,
    (forall k, In k seen <-> In k (map Aqi.key_of unique)) ->
    NoDup (map Aqi.key_of unique) ->
    exists new,
      Aqi.dedupe all_data seen unique = unique ++ new
      /\ subseq new all_data
      /\ NoDup (map Aqi.key_of (unique ++ new)).
Proof.
  induction all_data as [| s rest IH]; intros seen unique Hinv Hnd.
  - exists []. simpl. rewrite app_nil_r. repeat split; [constructor | exact Hnd].
  - simpl. destruct (existsb (Aqi.key_eqb (Aqi.key_of s)) seen) eqn:E.
    + destruct (IH seen unique Hinv Hnd) as [new [Heq [Hsub Hn]]].
      exists new. repeat split; [exact Heq | constructor; exact Hsub | exact Hn].
    + assert (Hfresh : ~ In (Aqi.key_of s) (map Aqi.key_of unique)).
      { rewrite <- Hinv, <- seen_In, E. discriminate. }
      destruct (IH (Aqi.key_of s :: seen) (unique ++ [s])) as [new [Heq [Hsub Hn]]].
      * apply seen_unique_step, Hinv.
      * rewrite map_app. simpl.
        apply NoDup_app; [exact Hnd | constructor; [intros [] | constructor] |].
        intros k Hk [<- | []]. exact (Hfresh Hk).
      * exists (s :: new). rewrite <- app_assoc in Heq, Hn.
        repeat split; [exact Heq | constructor; exact Hsub | exact Hn].
Qed.

Lemma find_app_first {A : Type} (f : A -> bool) (l1 l2 : list A) :
  find f (l1 ++ l2)
  = match find f l1 with Some x => Some x | None => find f l2 end.
Proof.
  induction l1 as [| x l1 IH]; simpl; [reflexivity |].
  destruct (f x); [reflexivity | exact IH].
Qed.

Lemma find_has_key_In (k : R * R) (l : list Aqi.station) :
  In k (map Aqi.key_of l) -> exists s, find (has_key k) l = Some s.
Proof.
  induction l as [| x l IH]; simpl; [contradiction |].
  intros [E | Hin].
  - exists x. unfold has_key. rewrite E.
    rewrite (proj2 (key_eqb_eq k k) eq_refl). reflexivity.
  - destruct (has_key k x); [eexists; reflexivity | apply IH, Hin].
Qed.

Lemma dedupe_find (k : R * R) (all_data : list Aqi.station) :
  forall seen unique,
    (forall k', In k' seen <-> In k' (map Aqi.key_of unique)) ->
    find (has_key k) (Aqi.dedupe all_data seen unique)
    = find (has_key k) (unique ++ all_data).
Proof.
  induction all_data as [| s rest IH]; intros seen unique Hinv.
  - simpl. rewrite app_nil_r. reflexivity.
  - simpl. destruct (existsb (Aqi.key_eqb (Aqi.key_of s)) seen) eqn:E.
    + rewrite IH by exact Hinv. rewrite !find_app_first.
      destruct (find (has_key k) unique) eqn:Ef; [reflexivity |].
      simpl. destruct (has_key k s) eqn:Ek; [| reflexivity].
      apply key_eqb_eq in Ek. apply seen_In, Hinv in E. rewrite Ek in E.
      destruct (find_has_key_In k unique E) as [u Hu]. congruence.
    + rewrite IH by (apply seen_unique_step, Hinv).
      rewrite <- app_assoc. reflexivity.
Qed.

Lemma dedupe_distinct (all_data : list Aqi.station) :
  forall seen unique,
    (forall k, In k seen <-> In k (map Aqi.key_of unique)) ->
    NoDup (map Aqi.key_of (unique ++ all_data)) ->
    Aqi.dedupe all_data seen unique = unique ++ all_data.
Proof.
  induction all_data as [| s rest IH]; intros seen unique Hinv Hnd.
  - simpl. rewrite app_nil_r. reflexivity.
  - simpl. destruct (existsb (Aqi.key_eqb (Aqi.key_of s)) seen) eqn:E.
    + exfalso. apply seen_In, Hinv in E.
      rewrite map_app in Hnd. simpl in Hnd.
      apply NoDup_remove_2 in Hnd. apply Hnd, in_or_app. left. exact E.
    + rewrite IH.
      * rewrite <- app_assoc. reflexivity.
      * apply seen_unique_step, Hinv.
      * rewrite <- app_assoc. exact Hnd.
Qed.

Lemma dedupe_start : forall k : R * R, In k [] <-> In k (map Aqi.key_of []).
Proof. intros k. simpl. tauto. Qed.

(** X5: [fetch_all_aqi] returns no two stations with the same coordinates
    rounded to three decimals, and what it returns is what the requests
    gathered, in the same order, with some stations left out. *)
Theorem fetch_all_aqi_distinct (respond : R -> R -> Aqi.response) :
  NoDup (map Aqi.key_of (Aqi.fetch_all_aqi respond))
  /\ subseq (Aqi.fetch_all_aqi respond) (gathered respond).
Proof.
  unfold Aqi.fetch_all_aqi. fold (gathered respond).
  destruct (dedupe_extends (gathered respond) [] [] dedupe_start)
    as [new [Heq [Hsub Hnd]]]; [constructor |].
  rewrite Heq. split; [exact Hnd | exact Hsub].
Qed.

(** X6: of the gathered stations that share rounded coordinates,
    [fetch_all_aqi] keeps the first: looking up a coordinate pair in its
    result finds the same station as looking it up in what was gathered
    (and finds nothing only if nothing was gathered there). *)
Theorem fetch_all_aqi_keeps_first (respond : R -> R -> Aqi.response)
    (k : R * R) :
  find (has_key k) (Aqi.fetch_all_aqi respond)
  = find (has_key k) (gathered respond).
Proof.
  unfold Aqi.fetch_all_aqi. fold (gathered respond).
  rewrite dedupe_find by exact dedupe_start. reflexivity.
Qed.

(** X7: the deduplication leaves a sequence of stations with pairwise
    distinct rounded coordinates unchanged, so applying it to its own
    result changes nothing. *)
Theorem dedupe_stable (all_data : list Aqi.station) :
  (NoDup (map Aqi.key_of all_data) ->
   Aqi.dedupe all_data [] [] = all_data)
  /\ Aqi.dedupe (Aqi.dedupe all_data [] []) [] []
     = Aqi.dedupe all_data [] [].
Proof.
  split.
  - intros Hnd. apply (dedupe_distinct all_data [] [] dedupe_start Hnd).
  - destruct (dedupe_extends all_data [] [] dedupe_start)
      as [new [Heq [_ Hnd]]]; [constructor |].
    apply (dedupe_distinct _ [] [] dedupe_start).
    rewrite Heq. exact Hnd.
Qed.

Lemma round3_IZR (z : Z) : Py.round3 (IZR z) = IZR z.
Proof.
  unfold Py.round3. rewrite <- mult_IZR, round_IZR, mult_IZR. simpl. lra.
Qed.

Lemma dedupe_stable_witness :
  NoDup (map Aqi.key_of [scenario_west; station_at 41 (-100) 60 "Good"])
  /\ Aqi.dedupe [scenario_west; station_at 41 (-100) 60 "Good"] [] []
     = [scenario_west; station_at 41 (-100) 60 "Good"].
Proof.
  assert (H : NoDup (map Aqi.key_of
                       [scenario_west; station_at 41 (-100) 60 "Good"])).
  { unfold scenario_west, Aqi.key_of. simpl.
    rewrite (round3_IZR 40), (round3_IZR 41), (round3_IZR (-100)).
    constructor; [| constructor; [intros [] | constructor]].
    intros [E | []]. injection E. lra. }
  split; [exact H | exact (proj1 (dedupe_stable _) H)].
Defined.

(* ================================================================== *)
(** * Further properties of the clustering *)
(* ================================================================== *)

(** ** [enumerate] *)

Lemma enumerate_from_In {A : Type} (l : list A) :
  forall n i x,
    In (i, x) (Py.enumerate_from n l)
    <-> (n <= i)%nat /\ nth_error l (i - n) = Some x.
Proof.
  induction l as [| y l IH]; intros n i x; simpl.
  - split; [contradiction |]. intros [_ H]. destruct (i - n)%nat; discriminate.
  - rewrite IH. split.
    + intros [E | [Hle Hn]].
      * injection E as <- <-. rewrite Nat.sub_diag. split; [lia | reflexivity].
      * split; [lia |]. replace (i - n)%nat with (S (i - S n)) by lia.
        exact Hn.
    + intros [Hle Hn]. destruct (Nat.eq_dec i n) as [-> | Hne].
      * rewrite Nat.sub_diag in Hn. simpl in Hn. injection Hn as ->.
        left. reflexivity.
      * right. split; [lia |].
        replace (i - n)%nat with (S (i - S n)) in Hn by lia. exact Hn.
Qed.

Lemma enumerate_In {A : Type} (l : list A) (i : nat) (x : A) :
  In (i, x) (Py.enumerate l) <-> nth_error l i = Some x.
Proof.
  unfold Py.enumerate. rewrite enumerate_from_In, Nat.sub_0_r.
  split; [tauto | split; [lia | assumption]].
Qed.

Lemma enumerate_from_fst {A : Type} (l : list A) (n : nat) :
  map fst (Py.enumerate_from n l) = seq n (length l).
Proof.
  revert n. induction l as [| y l IH]; intros n; simpl;
    [reflexivity | rewrite IH; reflexivity].
Qed.

Lemma enumerate_from_snd {A : Type} (l : list A) (n : nat) :
  map snd (Py.enumerate_from n l) = l.
Proof.
  revert n. induction l as [| y l IH]; intros n; simpl;
    [reflexivity | rewrite IH; reflexivity].
Qed.

Lemma enumerate_NoDup_fst {A : Type} (l : list A) :
  NoDup (map fst (Py.enumerate l)).
Proof. unfold Py.enumerate. rewrite enumerate_from_fst. apply seq_NoDup. Qed.

Lemma enumerate_functional {A : Type} (l : list A) (i : nat) (x y : A) :
  In (i, x) (Py.enumerate l) -> In (i, y) (Py.enumerate l) -> x = y.
Proof. rewrite !enumerate_In. congruence. Qed.

Lemma enumerate_snd_In {A : Type} (l : list A) (m : nat * A) :
  In m (Py.enumerate l) -> In (snd m) l.
Proof.
  destruct m as [i x]. rewrite enumerate_In. apply nth_error_In.
Qed.

(** ** The two loops *)

Lemma in_used_In (i : nat) (used : list nat) :
  Aqi.in_used i used = true <-> In i used.
Proof.
  unfold Aqi.in_used. rewrite existsb_exists. split.
  - intros [j [Hj E]]. apply Nat.eqb_eq in E. subst. exact Hj.
  - intros H. exists i. split; [exact H | apply Nat.eqb_refl].
Qed.

(** The inner loop appends the members within reach, in order, and records
    their indices. *)
Lemma inner_loop_filter (r : R) (i : nat) (p : Aqi.station)
    (jqs cluster : list Aqi.member) (used : list nat) :
  Aqi.inner_loop r i p jqs cluster used
  = (cluster ++ filter (in_reach r i p) jqs,
     rev (map fst (filter (in_reach r i p) jqs)) ++ used).
Proof.
  revert cluster used. induction jqs as [| [j q] jqs IH]; intros cluster used.
  - simpl. rewrite app_nil_r. reflexivity.
  - cbn [Aqi.inner_loop filter].
    assert (E : in_reach r i p (j, q)
                = negb (j =? i)%nat && Aqi.near r p q) by reflexivity.
    rewrite E. destruct (negb (j =? i)%nat && Aqi.near r p q).
    + rewrite IH. cbn [map fst rev]. rewrite <- !app_assoc. reflexivity.
    + apply IH.
Qed.

Lemma in_reach_iff (r : R) (i : nat) (p : Aqi.station) (m : Aqi.member) :
  in_reach r i p m = true
  <-> fst m <> i
      /\ haversine (Aqi.lat p) (Aqi.lon p) (Aqi.lat (snd m)) (Aqi.lon (snd m))
         < r.
Proof.
  unfold in_reach. rewrite andb_true_iff, negb_true_iff, Nat.eqb_neq, near_iff.
  tauto.
Qed.

Lemma outer_loop_Forall_seeds (P : list Aqi.member -> Prop) (r : R)
    (points : list Aqi.station) :
  forall ips used acc,
    (forall i p used',
       In (i, p) ips ->
       P (fst (Aqi.inner_loop r i p (Py.enumerate points) [(i, p)] used'))) ->
    Forall P acc -> Forall P (Aqi.outer_loop r points ips used acc).
Proof.
  induction ips as [| [i p] ips IH]; intros used acc Hin Hacc.
  - exact Hacc.
  - simpl. destruct (Aqi.in_used i used).
    + apply IH; [| exact Hacc]. intros j q u Hj. apply Hin. right. exact Hj.
    + pose proof (Hin i p used (or_introl eq_refl)) as Hc.
      destruct (Aqi.inner_loop r i p (Py.enumerate points) [(i, p)] used)
        as [cluster used'].
      apply IH.
      * intros j q u Hj. apply Hin. right. exact Hj.
      * apply Forall_app. split; [exact Hacc |].
        constructor; [exact Hc | constructor].
Qed.

(** X8: every cluster is its seed followed by other observations of the
    input, each of them less than the radius away from the seed; a cluster
    never holds an observation that is farther from its seed. *)
Theorem cluster_within_radius (points : list Aqi.station) (radius_km : R)
    (c : list Aqi.member) :
  In c (Aqi.clusters points radius_km) ->
  exists i p others,
    c = (i, p) :: others
    /\ nth_error points i = Some p
    /\ forall m, In m others ->
         fst m <> i
         /\ nth_error points (fst m) = Some (snd m)
         /\ haversine (Aqi.lat p) (Aqi.lon p)
                      (Aqi.lat (snd m)) (Aqi.lon (snd m)) < radius_km.
Proof.
  intros Hc.
  pose (P := fun c : list Aqi.member =>
    exists i p others,
      c = (i, p) :: others
      /\ nth_error points i = Some p
      /\ forall m, In m others ->
           fst m <> i
           /\ nth_error points (fst m) = Some (snd m)
           /\ haversine (Aqi.lat p) (Aqi.lon p)
                        (Aqi.lat (snd m)) (Aqi.lon (snd m)) < radius_km).
  assert (H : Forall P (Aqi.clusters points radius_km)).
  { apply outer_loop_Forall_seeds; [| constructor].
    intros i p used Hip. rewrite inner_loop_filter. simpl.
    exists i, p, (filter (in_reach radius_km i p) (Py.enumerate points)).
    split; [reflexivity |]. split; [apply enumerate_In, Hip |].
    intros m Hm. apply filter_In in Hm. destruct Hm as [Hin Hr].
    apply in_reach_iff in Hr. destruct Hr as [Hne Hd].
    split; [exact Hne |]. split; [| exact Hd].
    destruct m as [j q]. apply enumerate_In, Hin. }
  rewrite Forall_forall in H. apply H, Hc.
Qed.

Lemma cluster_within_radius_witness :
  In [ (0%nat, station_at 40 (-100) 50 "Good");
       (1%nat, station_at 40 (-100) 53 "Moderate") ]
     (Aqi.clusters twin_stations 150)
  /\ exists i p others,
       [ (0%nat, station_at 40 (-100) 50 "Good");
         (1%nat, station_at 40 (-100) 53 "Moderate") ] = (i, p) :: others
       /\ nth_error twin_stations i = Some p.
Proof.
  assert (H : In [ (0%nat, station_at 40 (-100) 50 "Good");
                   (1%nat, station_at 40 (-100) 53 "Moderate") ]
                 (Aqi.clusters twin_stations 150)).
  { unfold twin_stations. rewrite clusters_pair; [left; reflexivity |].
    unfold Aqi.near. simpl. rewrite haversine_same. apply ltb_true. lra. }
  split; [exact H |].
  destruct (cluster_within_radius twin_stations 150 _ H)
    as [i [p [others [E [Hn _]]]]].
  exists i, p, others. split; [exact E | exact Hn].
Defined.

(** ** Every observation is clustered *)

Lemma outer_loop_cover (r : R) (points : list Aqi.station) :
  forall ips used acc,
    (forall m, In m ips -> In m (Py.enumerate points)) ->
    (forall m, In (fst m) used -> In m (Py.enumerate points) ->
               exists c, In c acc /\ In m c) ->
    forall m,
      In m ips \/ (exists c, In c acc /\ In m c) ->
      exists c, In c (Aqi.outer_loop r points ips used acc) /\ In m c.
Proof.
  induction ips as [| [i p] ips IH]; intros used acc Hips Hused m Hm.
  - destruct Hm as [[] | Hm]. exact Hm.
  - simpl. destruct (Aqi.in_used i used) eqn:Eu.
    + apply IH; [intros x Hx; apply Hips; right; exact Hx | exact Hused |].
      destruct Hm as [[<- | Hm] | Hm]; [| left; exact Hm | right; exact Hm].
      right. apply Hused; [apply in_used_In, Eu | apply Hips; left; reflexivity].
    + rewrite inner_loop_filter.
      set (F := filter (in_reach r i p) (Py.enumerate points)).
      apply IH.
      * intros x Hx. apply Hips. right. exact Hx.
      * intros [j q] Hj Hin. simpl in Hj.
        apply in_app_or in Hj. destruct Hj as [Hj | Hj].
        -- exists ([(i, p)] ++ F). split; [apply in_or_app; right; left; reflexivity |].
           apply in_or_app. right.
           apply in_rev, in_map_iff in Hj. destruct Hj as [[j' q'] [Ej Hq]].
           simpl in Ej. subst j'.
           assert (Hq' : In (j, q') (Py.enumerate points))
             by (apply filter_In in Hq; apply Hq).
           rewrite (enumerate_functional points j q q' Hin Hq'). exact Hq.
        -- destruct (Hused (j, q) Hj Hin) as [c [Hc Hmc]].
           exists c. split; [apply in_or_app; left; exact Hc | exact Hmc].
      * destruct Hm as [[<- | Hm] | [c [Hc Hmc]]].
        -- right. exists ([(i, p)] ++ F).
           split; [apply in_or_app; right; left; reflexivity | left; reflexivity].
        -- left. exact Hm.
        -- right. exists c. split; [apply in_or_app; left; exact Hc | exact Hmc].
Qed.

(** X9: every observation of the input is a member of at least one
    cluster, whatever the radius. *)
Theorem every_observation_clustered (points : list Aqi.station)
    (radius_km : R) (i : nat) (p : Aqi.station) :
  nth_error points i = Some p ->
  exists c, In c (Aqi.clusters points radius_km) /\ In (i, p) c.
Proof.
  intros Hn. unfold Aqi.clusters. apply outer_loop_cover.
  - auto.
  - intros m [] _.
  - left. apply enumerate_In, Hn.
Qed.

Lemma every_observation_clustered_witness :
  nth_error meridian_stations 1 = Some (station_at (40 + 1) (-100) 60 "Moderate")
  /\ exists c, In c (Aqi.clusters meridian_stations 150)
               /\ In (1%nat, station_at (40 + 1) (-100) 60 "Moderate") c.
Proof.
  assert (H : nth_error meridian_stations 1
              = Some (station_at (40 + 1) (-100) 60 "Moderate"))
    by reflexivity.
  split; [exact H |].
  exact (every_observation_clustered meridian_stations 150 1 _ H).
Defined.

(** ** A radius that merges nothing *)

Lemma near_nonpositive (r : R) (p q : Aqi.station) :
  r <= 0 -> Aqi.near r p q = false.
Proof.
  intros Hr. unfold Aqi.near. apply ltb_false.
  pose proof (haversine_nonneg (Aqi.lat p) (Aqi.lon p) (Aqi.lat q) (Aqi.lon q)).
  lra.
Qed.

Lemma filter_nothing {A : Type} (f : A -> bool) (l : list A) :
  (forall x, f x = false) -> filter f l = [].
Proof.
  intros Hf. induction l as [| x l IH]; simpl; [reflexivity |].
  rewrite Hf. exact IH.
Qed.

Lemma outer_loop_singletons (r : R) (points : list Aqi.station) :
  r <= 0 ->
  forall ips acc,
    Aqi.outer_loop r points ips [] acc = acc ++ map (fun m => [m]) ips.
Proof.
  intros Hr. induction ips as [| [i p] ips IH]; intros acc.
  - simpl. rewrite app_nil_r. reflexivity.
  - cbn [Aqi.outer_loop Aqi.in_used existsb]. rewrite inner_loop_filter.
    rewrite filter_nothing.
    + cbn [map rev app]. rewrite IH, <- app_assoc. reflexivity.
    + intros m. unfold in_reach. rewrite near_nonpositive by exact Hr.
      apply andb_false_r.
Qed.

Lemma representative_alone (m : Aqi.member) :
  Aqi.representative [m] = alone (snd m).
Proof.
  unfold Aqi.representative, alone. cbn [map snd length Nat.ltb Nat.leb INR].
  rewrite !sum_fold_right. cbn [fold_right].
  f_equal; try (field); try reflexivity.
  f_equal. field.
Qed.

(** X10: with a radius of zero or less nothing is merged: each observation
    forms a cluster of its own, and the representatives are the
    observations in input order, each with its own location and category
    and its value rounded to the nearest integer. *)
Theorem nonpositive_radius_merges_nothing (points : list Aqi.station)
    (radius_km : R) :
  radius_km <= 0 ->
  Aqi.clusters points radius_km = map (fun m => [m]) (Py.enumerate points)
  /\ map Aqi.representative (Aqi.clusters points radius_km)
     = map alone points.
Proof.
  intros Hr.
  assert (Hc : Aqi.clusters points radius_km
               = map (fun m => [m]) (Py.enumerate points)).
  { unfold Aqi.clusters. rewrite outer_loop_singletons by exact Hr.
    reflexivity. }
  split; [exact Hc |].
  rewrite Hc, map_map.
  rewrite <- (enumerate_from_snd points 0) at 2. fold (Py.enumerate points).
  rewrite map_map. apply map_ext. intros m. apply representative_alone.
Qed.

Lemma nonpositive_radius_merges_nothing_witness :
  0 <= 0
  /\ map Aqi.representative (Aqi.clusters twin_stations 0)
     = map alone twin_stations.
Proof.
  assert (H : 0 <= 0) by lra.
  split; [exact H |].
  exact (proj2 (nonpositive_radius_merges_nothing twin_stations 0 H)).
Defined.

(** ** When being within the radius is transitive *)

Lemma near_sym (r : R) (p q : Aqi.station) : Aqi.near r p q = Aqi.near r q p.
Proof. unfold Aqi.near. rewrite haversine_symmetric. reflexivity. Qed.

Lemma enumerate_NoDup {A : Type} (l : list A) : NoDup (Py.enumerate l).
Proof. apply (NoDup_map_inv fst), enumerate_NoDup_fst. Qed.

Section Transitive.

Variables (points : list Aqi.station) (r : R).

Hypothesis near_trans :
  forall p q s, In p points -> In q points -> In s points ->
    Aqi.near r p q = true -> Aqi.near r q s = true -> Aqi.near r p s = true.

(** The members put into the cluster seeded at [(i, p)] are the members
    of the input within reach of [p]. *)
Lemma seed_cluster_closed (i : nat) (p : Aqi.station) (m m' : Aqi.member) :
  In (i, p) (Py.enumerate points) ->
  In m ((i, p) :: filter (in_reach r i p) (Py.enumerate points)) ->
  In m' (Py.enumerate points) ->
  Aqi.near r (snd m) (snd m') = true ->
  In m' ((i, p) :: filter (in_reach r i p) (Py.enumerate points)).
Proof.
  intros Hip Hm Hm' Hn.
  assert (Hpm' : Aqi.near r p (snd m') = true).
  { destruct Hm as [<- | Hm]; [exact Hn |].
    apply filter_In in Hm. destruct Hm as [HmE Hr].
    unfold in_reach in Hr. apply andb_true_iff in Hr. destruct Hr as [_ Hpm].
    apply (near_trans p (snd m) (snd m')); try assumption.
    - apply (enumerate_snd_In points (i, p) Hip).
    - apply enumerate_snd_In, HmE.
    - apply enumerate_snd_In, Hm'. }
  destruct m' as [j q]. simpl in Hpm'.
  destruct (Nat.eq_dec j i) as [-> | Hne].
  - left. f_equal. apply (enumerate_functional points i p q Hip Hm').
  - right. apply filter_In. split; [exact Hm' |].
    unfold in_reach. simpl. apply andb_true_iff. split; [| exact Hpm'].
    apply negb_true_iff, Nat.eqb_neq, Hne.
Qed.

Lemma outer_loop_partition :
  forall ips used acc,
    NoDup (map fst ips) ->
    (forall m, In m ips -> In m (Py.enumerate points)) ->
    (forall m, In m ips -> (In (fst m) used <-> In m (concat acc))) ->
    (forall m m', In m (concat acc) -> In m' (Py.enumerate points) ->
                  Aqi.near r (snd m) (snd m') = true -> In m' (concat acc)) ->
    NoDup (concat acc) ->
    (forall m, In m (concat acc) -> In m (Py.enumerate points)) ->
    (forall m, In m (Py.enumerate points) -> In m ips \/ In m (concat acc)) ->
    Permutation (concat (Aqi.outer_loop r points ips used acc))
                (Py.enumerate points).
Proof.
  induction ips as [| [i p] ips IH];
    intros used acc Hnd Hips Hused Hclosed HndM HM Hall.
  - simpl. apply NoDup_Permutation; [exact HndM | apply enumerate_NoDup |].
    intros m. split; [apply HM |].
    intros Hm. destruct (Hall m Hm) as [[] | H]. exact H.
  - assert (Hip : In (i, p) (Py.enumerate points))
      by (apply Hips; left; reflexivity).
    simpl in Hnd. apply NoDup_cons_iff in Hnd. destruct Hnd as [Hi Hnd].
    simpl. destruct (Aqi.in_used i used) eqn:Eu.
    + apply in_used_In in Eu.
      assert (HipM : In (i, p) (concat acc))
        by (apply (Hused (i, p)); [left; reflexivity | exact Eu]).
      apply IH; try assumption.
      * intros m Hm. apply Hips. right. exact Hm.
      * intros m Hm. apply Hused. right. exact Hm.
      * intros m Hm. destruct (Hall m Hm) as [[<- | H] | H]; auto.
    + assert (HipM : ~ In (i, p) (concat acc)).
      { intros H. apply (Hused (i, p)) in H; [| left; reflexivity].
        apply in_used_In in H. simpl in H. congruence. }
      rewrite inner_loop_filter.
      set (F := filter (in_reach r i p) (Py.enumerate points)).
      change ([(i, p)] ++ F) with ((i, p) :: F).
      unfold Aqi.member in *.
      assert (Hcat : concat (acc ++ [(i, p) :: F])
                     = concat acc ++ (i, p) :: F).
      { rewrite concat_app. simpl. rewrite app_nil_r. reflexivity. }
      apply IH.
      * exact Hnd.
      * intros m Hm. apply Hips. right. exact Hm.
      * intros [k q] Hm. rewrite Hcat. cbn [fst].
        assert (HmE : In (k, q) (Py.enumerate points))
          by (apply Hips; right; exact Hm).
        rewrite !in_app_iff. cbn [In]. split.
        -- intros [Hk | Hk].
           ++ right. right.
              apply in_rev, in_map_iff in Hk. destruct Hk as [[k' q'] [E Hq]].
              simpl in E. subst k'.
              assert (Hq' : In (k, q') (Py.enumerate points))
                by (apply filter_In in Hq; apply Hq).
              rewrite (enumerate_functional points k q q' HmE Hq'). exact Hq.
           ++ left. apply (Hused (k, q)); [right; exact Hm | exact Hk].
        -- intros [Hk | [Hk | Hk]].
           ++ right. apply (Hused (k, q)); [right; exact Hm | exact Hk].
           ++ exfalso. injection Hk as -> ->. apply Hi.
              apply (in_map fst) in Hm. exact Hm.
           ++ left. rewrite <- in_rev. apply (in_map fst) in Hk. exact Hk.
      * intros m m' Hm Hm' Hn. rewrite Hcat in *. apply in_app_iff.
        apply in_app_iff in Hm. destruct Hm as [Hm | Hm].
        -- left. apply (Hclosed m m' Hm Hm' Hn).
        -- right. apply (seed_cluster_closed i p m m' Hip Hm Hm' Hn).
      * rewrite Hcat. apply NoDup_app; [exact HndM | |].
        -- constructor.
           ++ intros H. apply filter_In in H. destruct H as [_ H].
              unfold in_reach in H. simpl in H. rewrite Nat.eqb_refl in H.
              discriminate.
           ++ apply NoDup_filter, enumerate_NoDup.
        -- intros m Hm [<- | Hf]; [exact (HipM Hm) |].
           apply HipM. apply (Hclosed m (i, p) Hm Hip).
           apply filter_In in Hf. destruct Hf as [_ Hf].
           unfold in_reach in Hf. apply andb_true_iff in Hf.
           destruct Hf as [_ Hf]. rewrite near_sym. exact Hf.
      * intros m Hm. rewrite Hcat in Hm.
        apply in_app_iff in Hm. destruct Hm as [Hm | [<- | Hm]].
        -- apply HM, Hm.
        -- exact Hip.
        -- apply filter_In in Hm. apply Hm.
      * intros m Hm. rewrite Hcat, in_app_iff. cbn [In].
        destruct (Hall m Hm) as [[<- | H] | H].
        -- right. right. left. reflexivity.
        -- left. exact H.
        -- right. left. exact H.
Qed.

Lemma clusters_permutation :
  Permutation (concat (Aqi.clusters points r)) (Py.enumerate points).
Proof.
  unfold Aqi.clusters. apply outer_loop_partition.
  - apply enumerate_NoDup_fst.
  - auto.
  - intros m _. simpl. tauto.
  - intros m m' [].
  - constructor.
  - intros m [].
  - intros m Hm. left. exact Hm.
Qed.

End Transitive.

Lemma member_count_concat (cs : list (list Aqi.member)) :
  member_count cs = length (concat cs).
Proof.
  unfold member_count. induction cs as [| c cs IH]; simpl; [reflexivity |].
  rewrite length_app, IH. reflexivity.
Qed.

Lemma enumerate_length {A : Type} (l : list A) :
  length (Py.enumerate l) = length l.
Proof.
  rewrite <- (length_map fst). unfold Py.enumerate.
  rewrite enumerate_from_fst. apply length_seq.
Qed.

Lemma holds_index (i : nat) (c : list Aqi.member) :
  existsb (fun m => (fst m =? i)%nat) c = true <-> In i (map fst c).
Proof.
  rewrite existsb_exists, in_map_iff. split.
  - intros [m [Hm E]]. apply Nat.eqb_eq in E. exists m. auto.
  - intros [m [E Hm]]. exists m. split; [exact Hm | apply Nat.eqb_eq, E].
Qed.

Lemma holders_none (i : nat) (cs : list (list Aqi.member)) :
  ~ In i (map fst (concat cs)) -> holders i cs = [].
Proof.
  induction cs as [| c cs IH]; intros Hn; [reflexivity |].
  simpl in *. rewrite map_app, in_app_iff in Hn.
  destruct (existsb (fun m => (fst m =? i)%nat) c) eqn:E.
  - apply holds_index in E. tauto.
  - apply IH. tauto.
Qed.

Lemma NoDup_app_disjoint {A : Type} (l1 l2 : list A) (x : A) :
  NoDup (l1 ++ l2) -> In x l1 -> In x l2 -> False.
Proof.
  induction l1 as [| y l1 IH]; intros Hnd H1 H2; [contradiction |].
  simpl in Hnd. apply NoDup_cons_iff in Hnd. destruct Hnd as [Hy Hnd].
  destruct H1 as [-> | H1].
  - apply Hy, in_or_app. right. exact H2.
  - apply (IH Hnd H1 H2).
Qed.

Lemma holders_one (i : nat) (cs : list (list Aqi.member)) :
  NoDup (map fst (concat cs)) -> In i (map fst (concat cs)) ->
  length (holders i cs) = 1%nat.
Proof.
  induction cs as [| c cs IH]; intros Hnd Hin; [contradiction |].
  simpl in *. rewrite map_app in Hnd, Hin.
  destruct (existsb (fun m => (fst m =? i)%nat) c) eqn:E.
  - apply holds_index in E. simpl. rewrite holders_none; [reflexivity |].
    intros H. exact (NoDup_app_disjoint _ _ i Hnd E H).
  - apply IH.
    + apply NoDup_app_remove_l in Hnd. exact Hnd.
    + apply in_app_or in Hin. destruct Hin as [Hin | Hin]; [| exact Hin].
      apply holds_index in Hin. congruence.
Qed.

(** X11: when being within the radius is transitive among the input
    observations (as it is when they fall into groups that are far from
    one another), the clusters are a partition of the input: together they
    hold every observation exactly once, so the member counts add up to the
    number of observations and each observation is in exactly one
    cluster. *)
Theorem clusters_partition_when_transitive (points : list Aqi.station)
    (radius_km : R) :
  (forall p q s, In p points -> In q points -> In s points ->
     Aqi.near radius_km p q = true -> Aqi.near radius_km q s = true ->
     Aqi.near radius_km p s = true) ->
  Permutation (concat (Aqi.clusters points radius_km)) (Py.enumerate points)
  /\ member_count (Aqi.clusters points radius_km) = length points
  /\ forall i, (i < length points)%nat ->
       length (holders i (Aqi.clusters points radius_km)) = 1%nat.
Proof.
  intros Htrans.
  pose proof (clusters_permutation points radius_km Htrans) as Hperm.
  split; [exact Hperm |].
  split.
  - rewrite member_count_concat, (Permutation_length Hperm).
    apply enumerate_length.
  - intros i Hi.
    assert (Hfst : Permutation
                     (map fst (concat (Aqi.clusters points radius_km)))
                     (seq 0 (length points))).
    { unfold Aqi.member in *.
      rewrite <- (enumerate_from_fst points 0). apply Permutation_map, Hperm. }
    apply holders_one.
    + apply (Permutation_NoDup (Permutation_sym Hfst)), seq_NoDup.
    + apply (Permutation_in _ (Permutation_sym Hfst)), in_seq. lia.
Qed.

Lemma clusters_partition_when_transitive_witness :
  (forall p q s, In p twin_stations -> In q twin_stations ->
     In s twin_stations ->
     Aqi.near 150 p q = true -> Aqi.near 150 q s = true ->
     Aqi.near 150 p s = true)
  /\ member_count (Aqi.clusters twin_stations 150) = length twin_stations.
Proof.
  assert (H : forall p q s, In p twin_stations -> In q twin_stations ->
                In s twin_stations ->
                Aqi.near 150 p q = true -> Aqi.near 150 q s = true ->
                Aqi.near 150 p s = true).
  { intros p q s Hp _ Hs _ _.
    assert (Hat : forall x, In x twin_stations ->
                    Aqi.lat x = 40 /\ Aqi.lon x = -100).
    { intros x [<- | [<- | []]]; split; reflexivity. }
    destruct (Hat p Hp) as [E1 E2]. destruct (Hat s Hs) as [E3 E4].
    unfold Aqi.near. rewrite E1, E2, E3, E4, haversine_same.
    apply ltb_true. lra. }
  split; [exact H |].
  exact (proj1 (proj2 (clusters_partition_when_transitive twin_stations 150 H))).
Defined.

(* ================================================================== *)
(** * Size and range of the smoothed output *)
(* ================================================================== *)

Lemma round_ge (z : Z) (x : R) : IZR z <= x -> (z <= Py.round x)%Z.
Proof.
  intros H. pose proof (Zfloor_lub z x H) as Hf. unfold Py.round.
  destruct (Py.ltb (x - IZR (Zfloor x)) (1 / 2)); [exact Hf |].
  destruct (Py.ltb (1 / 2) (x - IZR (Zfloor x))); [lia |].
  destruct (Z.even (Zfloor x)); lia.
Qed.

Lemma round_le (z : Z) (x : R) : x <= IZR z -> (Py.round x <= z)%Z.
Proof.
  intros H. pose proof (Zfloor_bound x) as [Hlo Hhi].
  assert (Hf : (Zfloor x <= z)%Z) by (apply le_IZR; lra).
  destruct (Z.eq_dec (Zfloor x) z) as [E | E].
  - unfold Py.round. rewrite E in *. rewrite ltb_true by lra. lia.
  - unfold Py.round.
    destruct (Py.ltb (x - IZR (Zfloor x)) (1 / 2)); [exact Hf |].
    destruct (Py.ltb (1 / 2) (x - IZR (Zfloor x))); [lia |].
    destruct (Z.even (Zfloor x)); lia.
Qed.

Lemma sum_bounds (xs : list R) (lo hi : R) :
  (forall x, In x xs -> lo <= x <= hi) ->
  lo * INR (length xs) <= Py.sum xs <= hi * INR (length xs).
Proof.
  intros H. rewrite sum_fold_right.
  induction xs as [| x xs IH]; [simpl; lra |].
  cbn [fold_right length]. rewrite S_INR.
  destruct IH as [Hl Hh]; [intros y Hy; apply H; right; exact Hy |].
  destruct (H x (or_introl eq_refl)). lra.
Qed.

Lemma quotient_bounds (xs : list R) (lo hi : R) :
  xs <> [] -> (forall x, In x xs -> lo <= x <= hi) ->
  lo <= Py.sum xs / INR (length xs) <= hi.
Proof.
  intros Hne H. destruct (sum_bounds xs lo hi H) as [Hl Hh].
  assert (Hn : 0 < INR (length xs)).
  { apply lt_0_INR. destruct xs; [congruence | simpl; lia]. }
  split.
  - apply Rmult_le_reg_r with (INR (length xs)); [exact Hn |].
    unfold Rdiv. rewrite Rmult_assoc, Rinv_l by lra. lra.
  - apply Rmult_le_reg_r with (INR (length xs)); [exact Hn |].
    unfold Rdiv. rewrite Rmult_assoc, Rinv_l by lra. lra.
Qed.

Lemma outer_loop_length (r : R) (points : list Aqi.station) :
  forall ips used acc,
    (length acc <= length (Aqi.outer_loop r points ips used acc)
     <= length acc + length ips)%nat.
Proof.
  induction ips as [| [i p] ips IH]; intros used acc; simpl; [lia |].
  destruct (Aqi.in_used i used).
  - specialize (IH used acc). lia.
  - destruct (Aqi.inner_loop r i p (Py.enumerate points) [(i, p)] used)
      as [cluster used'].
    specialize (IH used' (acc ++ [cluster])).
    rewrite length_app in IH. simpl in IH. lia.
Qed.

Lemma clusters_count (points : list Aqi.station) (r : R) :
  points <> [] ->
  (1 <= length (Aqi.clusters points r) <= length points)%nat.
Proof.
  intros Hne. split.
  - destruct points as [| p ps]; [congruence |].
    unfold Aqi.clusters. cbn [Py.enumerate Py.enumerate_from Aqi.outer_loop
                              Aqi.in_used existsb].
    destruct (Aqi.inner_loop r 0 p ((0%nat, p) :: Py.enumerate_from 1 ps)
                [(0%nat, p)] []) as [cluster used'].
    pose proof (outer_loop_length r (p :: ps) (Py.enumerate_from 1 ps)
                  used' ([] ++ [cluster])) as H.
    unfold Aqi.member in *. simpl in H. simpl. lia.
  - unfold Aqi.clusters.
    pose proof (outer_loop_length r points (Py.enumerate points) [] []) as H.
    unfold Aqi.member in *. rewrite enumerate_length in H. simpl in H. lia.
Qed.

(** X12: for a non-empty input of [n] observations the AQI pass forms at
    least one and at most [n] clusters, and returns one record per cluster
    plus the 390 grid cells: between 391 and [n + 390] records. *)
Theorem smooth_aqi_size (points : list Aqi.station) (radius_km : R) :
  points <> [] ->
  (1 <= length (Aqi.clusters points radius_km) <= length points)%nat
  /\ length (Aqi.smooth_aqi_points points radius_km)
     = (length (Aqi.clusters points radius_km) + 390)%nat
  /\ (391 <= length (Aqi.smooth_aqi_points points radius_km)
      <= length points + 390)%nat.
Proof.
  intros Hne. pose proof (clusters_count points radius_km Hne) as Hc.
  assert (Hlen : length (Aqi.smooth_aqi_points points radius_km)
                 = (length (Aqi.clusters points radius_km) + 390)%nat).
  { unfold Aqi.smooth_aqi_points. destruct points as [| p ps]; [congruence |].
    rewrite length_app, length_map, aqi_fill_grid by exact Hne.
    rewrite length_map, aqi_lattice_length. reflexivity. }
  split; [exact Hc |]. split; [exact Hlen |]. lia.
Qed.

Lemma smooth_aqi_size_witness :
  meridian_stations <> []
  /\ (391 <= length (Aqi.smooth_aqi_points meridian_stations 150)
      <= length meridian_stations + 390)%nat.
Proof.
  assert (H : meridian_stations <> [])
    by (unfold meridian_stations; discriminate).
  split; [exact H |].
  exact (proj2 (proj2 (smooth_aqi_size meridian_stations 150 H))).
Defined.

Lemma cluster_members_In (points : list Aqi.station) (r : R)
    (c : list Aqi.member) (m : Aqi.member) :
  In c (Aqi.clusters points r) -> In m c -> In (snd m) points.
Proof.
  intros Hc Hm.
  assert (H : Forall (fun c => forall m, In m c -> In (snd m) points)
                     (Aqi.clusters points r)).
  { apply outer_loop_Forall_seeds; [| constructor].
    intros i p used Hip x. rewrite inner_loop_filter. simpl.
    intros [<- | Hx].
    - apply (enumerate_snd_In points (i, p) Hip).
    - apply filter_In in Hx. apply enumerate_snd_In, Hx. }
  rewrite Forall_forall in H. apply (H c Hc m Hm).
Qed.

(** X13: the AQI pass never leaves the range of its input: when every
    input value lies between two integers, so does the value of every
    record returned, cluster representative or grid cell. *)
Theorem smooth_aqi_range (points : list Aqi.station) (radius_km : R)
    (lo hi : Z) (c : Aqi.smoothed) :
  (forall p, In p points -> IZR lo <= Aqi.aqi p <= IZR hi) ->
  In c (Aqi.smooth_aqi_points points radius_km) ->
  (lo <= Aqi.s_aqi c <= hi)%Z.
Proof.
  intros Hv Hc. destruct points as [| p0 ps]; [contradiction |].
  set (points := p0 :: ps) in *.
  assert (Hne : points <> []) by discriminate.
  unfold Aqi.smooth_aqi_points in Hc. fold points in Hc.
  change (In c (map Aqi.representative (Aqi.clusters points radius_km)
                ++ Aqi.fill_grid points)) in Hc.
  apply in_app_or in Hc. destruct Hc as [Hc | Hc].
  - apply in_map_iff in Hc. destruct Hc as [cl [<- Hcl]].
    assert (Hq : IZR lo
                 <= Py.sum (map Aqi.aqi (map snd cl))
                    / INR (length (map Aqi.aqi (map snd cl)))
                 <= IZR hi).
    { apply quotient_bounds.
      - pose proof (clusters_nonempty points radius_km cl Hcl).
        destruct cl; [congruence | discriminate].
      - intros x Hx. apply in_map_iff in Hx. destruct Hx as [q [<- Hq]].
        apply in_map_iff in Hq. destruct Hq as [m [<- Hm]].
        apply Hv. apply (cluster_members_In points radius_km cl m Hcl Hm). }
    rewrite length_map in Hq. simpl.
    split; [apply round_ge | apply round_le]; apply Hq.
  - rewrite aqi_fill_grid in Hc by exact Hne.
    apply in_map_iff in Hc. destruct Hc as [[la lo'] [<- _]]. simpl.
    rewrite aqi_weighted_avg_mean.
    assert (Hw : IZR lo
                 <= weighted_mean (map Aqi.aqi (Aqi.nearest la lo' points))
                      (Aqi.weights la lo' (Aqi.nearest la lo' points))
                 <= IZR hi).
    { apply (weighted_mean_bounds Aqi.aqi).
      - apply first_five_nonempty, Hne.
      - intros n _. apply aqi_weight_pos.
      - intros n Hn. apply Hv. apply (first_five_In _ _ _ Hn). }
    split; [apply round_ge | apply round_le]; apply Hw.
Qed.

Lemma smooth_aqi_range_witness :
  (forall p, In p twin_stations -> IZR 50 <= Aqi.aqi p <= IZR 53)
  /\ In (Aqi.representative
           [ (0%nat, station_at 40 (-100) 50 "Good");
             (1%nat, station_at 40 (-100) 53 "Moderate") ])
        (Aqi.smooth_aqi_points twin_stations 150)
  /\ (50 <= Aqi.s_aqi (Aqi.representative
                         [ (0%nat, station_at 40 (-100) 50 "Good");
                           (1%nat, station_at 40 (-100) 53 "Moderate") ])
      <= 53)%Z.
Proof.
  assert (Hv : forall p, In p twin_stations -> IZR 50 <= Aqi.aqi p <= IZR 53).
  { intros p [<- | [<- | []]]; simpl; lra. }
  assert (Hc : In (Aqi.representative
                     [ (0%nat, station_at 40 (-100) 50 "Good");
                       (1%nat, station_at 40 (-100) 53 "Moderate") ])
                  (Aqi.smooth_aqi_points twin_stations 150)).
  { unfold Aqi.smooth_aqi_points, twin_stations.
    rewrite clusters_pair; [left; reflexivity |].
    unfold Aqi.near. simpl. rewrite haversine_same. apply ltb_true. lra. }
  split; [exact Hv |]. split; [exact Hc |].
  exact (smooth_aqi_range twin_stations 150 50 53 _ Hv Hc).
Defined.

Lemma round3_bounds (lo hi : Z) (x : R) :
  IZR lo / 1000 <= x <= IZR hi / 1000 ->
  IZR lo / 1000 <= Py.round3 x <= IZR hi / 1000.
Proof.
  intros [Hl Hh]. unfold Py.round3.
  assert (H1 : (lo <= Py.round (x * 1000))%Z) by (apply round_ge; lra).
  assert (H2 : (Py.round (x * 1000) <= hi)%Z) by (apply round_le; lra).
  apply IZR_le in H1, H2. lra.
Qed.

Lemma aod_cells_In (points : list Aod.point) (rnd : nat -> R) (pos : nat)
    (cs : list (Z * Z)) (c : Aod.point) :
  In c (aod_cells points rnd pos cs) ->
  exists la lo u1 u2,
    In (la, lo) cs
    /\ c = Aod.cell_at la lo (Aod.nearby la lo points) u1 u2.
Proof.
  revert pos. induction cs as [| [la lo] cs IH]; intros pos Hc;
    [contradiction |].
  simpl in Hc. destruct Hc as [<- | Hc].
  - exists la, lo, (rnd pos), (rnd (S pos)). split; [left |]; reflexivity.
  - destruct (IH _ Hc) as [la' [lo' [u1 [u2 [Hin E]]]]].
    exists la', lo', u1, u2. split; [right; exact Hin | exact E].
Qed.

(** X14: the AOD pass never leaves the range of its input either: for a
    non-zero spacing it returns normally, and when every input value lies
    between two multiples of 0.001, so does the value of every cell. *)
Theorem smooth_aod_range (g : Aod.generators) (points : list Aod.point)
    (spacing lo hi : Z) :
  spacing <> 0%Z ->
  (forall p, In p points -> IZR lo / 1000 <= Aod.aod p <= IZR hi / 1000) ->
  exists cells g',
    Aod.smooth_aod_points g points spacing = (Ok cells, g')
    /\ forall c, In c cells ->
         IZR lo / 1000 <= Aod.aod c <= IZR hi / 1000.
Proof.
  intros Hs Hv. destruct points as [| p0 ps].
  - exists [], g. split; [reflexivity | intros c []].
  - set (points := p0 :: ps) in *.
    assert (Hne : points <> []) by discriminate.
    do 2 eexists. split; [apply smooth_aod_cells; assumption |].
    intros c Hc. apply aod_cells_In in Hc.
    destruct Hc as [la [lo' [u1 [u2 [_ ->]]]]]. simpl.
    rewrite aod_weighted_avg_mean. apply round3_bounds.
    apply (weighted_mean_bounds Aod.aod).
    + apply first_five_nonempty, Hne.
    + intros n _. apply aod_weight_pos.
    + intros n Hn. apply Hv. apply (first_five_In _ _ _ Hn).
Qed.

Lemma smooth_aod_range_witness :
  2%Z <> 0%Z
  /\ (forall p, In p one_sample ->
        IZR 10 / 1000 <= Aod.aod p <= IZR 1500 / 1000)
  /\ exists cells g',
       Aod.smooth_aod_points (steady (1 / 2)) one_sample 2 = (Ok cells, g')
       /\ forall c, In c cells ->
            IZR 10 / 1000 <= Aod.aod c <= IZR 1500 / 1000.
Proof.
  assert (Hs : 2%Z <> 0%Z) by discriminate.
  assert (Hv : forall p, In p one_sample ->
                 IZR 10 / 1000 <= Aod.aod p <= IZR 1500 / 1000).
  { intros p [<- | []]. simpl. lra. }
  split; [exact Hs |]. split; [exact Hv |].
  exact (smooth_aod_range (steady (1 / 2)) one_sample 2 10 1500 Hs Hv).
Defined.

(* ================================================================== *)
(** * The Earthdata adapter *)
(* ================================================================== *)

Lemma simulate_spec (n : nat) :
  forall g data,
    exists new,
      Aod.simulate n g data
      = (data ++ new,
         {| Aod.random := Aod.random g;
            Aod.random_pos := (2 * n + Aod.random_pos g)%nat;
            Aod.normal := Aod.normal g;
            Aod.normal_pos := (n + Aod.normal_pos g)%nat |})
      /\ length new = n
      /\ forall p, In p new ->
           0.01 <= Aod.aod p <= 1.5
           /\ exists k1 k2,
                Aod.lat p = Py.uniform 25 49 (Aod.random g k1)
                /\ Aod.lon p = Py.uniform (-125) (-66) (Aod.random g k2).
Proof.
  induction n as [| n IH]; intros g data.
  - exists []. simpl. rewrite app_nil_r. destruct g.
    split; [reflexivity |]. split; [reflexivity | intros p []].
  - cbn [Aod.simulate Aod.next_random Aod.next_normal].
    cbn [Aod.random Aod.random_pos Aod.normal Aod.normal_pos].
    edestruct IH as [new [Heq [Hlen Hb]]]. rewrite Heq. clear Heq.
    cbn [Aod.random Aod.random_pos Aod.normal Aod.normal_pos] in *.
    eexists (_ :: new). rewrite <- app_assoc.
    split; [simpl; f_equal; f_equal; lia |].
    split; [simpl; rewrite Hlen; reflexivity |].
    intros p [<- | Hp]; [| apply Hb, Hp].
    simpl. split.
    + unfold Rmin, Rmax.
      destruct (Rle_dec (Py.round3 (Rabs (Aod.normal g (Aod.normal_pos g)))) 0.01);
        destruct (Rle_dec _ 1.5); lra.
    + eexists. eexists. split; reflexivity.
Qed.

(** X15: [fetch_aod_granules] returns nothing, and draws nothing, when the
    login or the search fails.  Otherwise it returns exactly 250 samples
    after 500 calls of [random()] and 250 normal draws; with [random()] in
    [[0, 1)], every sample lies in the box 25..49 N by 125..66 W, and its
    value is clamped to [[0.01, 1.5]] whatever the normal draw. *)
Theorem fetch_aod_granules_samples (svc : Aod.earthdata)
    (g : Aod.generators) :
  (forall n, 0 <= Aod.random g n < 1) ->
  (Aod.login svc = false \/ Aod.search svc = false ->
   Aod.fetch_aod_granules svc g = ([], g))
  /\ (Aod.login svc = true -> Aod.search svc = true ->
      length (fst (Aod.fetch_aod_granules svc g)) = 250%nat
      /\ Aod.random_pos (snd (Aod.fetch_aod_granules svc g))
         = (500 + Aod.random_pos g)%nat
      /\ Aod.normal_pos (snd (Aod.fetch_aod_granules svc g))
         = (250 + Aod.normal_pos g)%nat)
  /\ forall p, In p (fst (Aod.fetch_aod_granules svc g)) ->
       25 <= Aod.lat p <= 49 /\ -125 <= Aod.lon p <= -66
       /\ 0.01 <= Aod.aod p <= 1.5.
Proof.
  intros Hr.
  destruct (simulate_spec 250 g []) as [new [Heq [Hlen Hb]]].
  split; [apply fetch_aod_granules_nothing |].
  split.
  - intros Hl Hs. unfold Aod.fetch_aod_granules. rewrite Hl, Hs. simpl negb.
    cbv iota. rewrite Heq. simpl. split; [exact Hlen |]. split; reflexivity.
  - intros p Hp. unfold Aod.fetch_aod_granules in Hp.
    destruct (negb (Aod.login svc)); [contradiction |].
    destruct (Aod.search svc); [| contradiction].
    rewrite Heq in Hp. simpl in Hp.
    destruct (Hb p Hp) as [Ha [k1 [k2 [E1 E2]]]].
    pose proof (Hr k1). pose proof (Hr k2).
    rewrite E1, E2. unfold Py.uniform. repeat split; lra.
Qed.

Lemma fetch_aod_granules_samples_witness :
  (forall n, 0 <= Aod.random (steady (1 / 2)) n < 1)
  /\ Aod.login earthdata_denied = false
  /\ Aod.fetch_aod_granules earthdata_denied (steady (1 / 2))
     = ([], steady (1 / 2)).
Proof.
  assert (Hr : forall n, 0 <= Aod.random (steady (1 / 2)) n < 1)
    by (intros n; simpl; lra).
  assert (Hl : Aod.login earthdata_denied = false) by reflexivity.
  split; [exact Hr |]. split; [exact Hl |].
  exact (proj1 (fetch_aod_granules_samples earthdata_denied
                  (steady (1 / 2)) Hr) (or_introl Hl)).
Defined.

(* ================================================================== *)
(** * Spacing and size of the AOD grid *)
(* ================================================================== *)

Lemma range_negative_step (start stop step : Z) :
  (start <= stop)%Z -> (step < 0)%Z -> Py.range start stop step = [].
Proof.
  intros Hle Hs. unfold Py.range, Py.arange.
  destruct (Z.eqb_spec step 0); [lia |].
  assert (Hq : (0 <= - (stop - start) / step)%Z).
  { rewrite <- (Z.opp_involutive step), Z.div_opp_opp by lia.
    apply Z.div_pos; lia. }
  replace (Z.to_nat (- (- (stop - start) / step))) with 0%nat by lia.
  reflexivity.
Qed.

Lemma aod_lattice_default_length : length (aod_lattice 2) = 360%nat.
Proof. unfold aod_lattice. rewrite lattice_length. reflexivity. Qed.

(** X16: on a non-empty input the AOD pass raises for a zero spacing,
    before drawing any random number, and returns no cell (again without
    drawing) for a negative spacing.  For any non-zero spacing it emits one
    cell per pair of the two ranges and calls [random()] exactly twice per
    cell, never touching the normal generator; the default spacing of 2
    gives 12 x 30 = 360 cells. *)
Theorem smooth_aod_size (g : Aod.generators) (points : list Aod.point)
    (spacing : Z) :
  points <> [] ->
  (spacing = 0%Z ->
   Aod.smooth_aod_points g points spacing = (Raise ZeroStep, g))
  /\ ((spacing < 0)%Z ->
      Aod.smooth_aod_points g points spacing = (Ok [], g))
  /\ (spacing <> 0%Z ->
      exists cells,
        Aod.smooth_aod_points g points spacing
        = (Ok cells, advance g (2 * length cells))
        /\ length cells
           = (length (Py.range 25 49 spacing)
              * length (Py.range (-125) (-66) spacing))%nat
        /\ (spacing = 2%Z -> length cells = 360%nat)).
Proof.
  intros Hne.
  split; [intros ->; apply smooth_aod_zero_step, Hne |].
  split.
  - intros Hs. rewrite smooth_aod_cells by (try assumption; lia).
    unfold aod_lattice.
    rewrite (range_negative_step 25 49 spacing) by lia.
    simpl. rewrite advance_0. reflexivity.
  - intros Hs. eexists.
    split; [rewrite smooth_aod_cells by assumption;
            rewrite aod_cells_length; reflexivity |].
    rewrite aod_cells_length.
    split; [apply lattice_length |].
    intros ->. exact aod_lattice_default_length.
Qed.

Lemma smooth_aod_size_witness :
  one_sample <> []
  /\ Aod.smooth_aod_points (steady 0) one_sample 0
     = (Raise ZeroStep, steady 0)
  /\ Aod.smooth_aod_points (steady 0) one_sample (-2) = (Ok [], steady 0).
Proof.
  assert (H : one_sample <> []) by (unfold one_sample; discriminate).
  split; [exact H |].
  destruct (smooth_aod_size (steady 0) one_sample 0 H) as [H0 _].
  destruct (smooth_aod_size (steady 0) one_sample (-2) H) as [_ [Hn _]].
  split; [exact (H0 eq_refl) | apply Hn; reflexivity].
Defined.

Lemma aod_lattice_default_box (c : Z * Z) :
  In c (aod_lattice 2) ->
  (25 <= fst c <= 47)%Z /\ (-125 <= snd c <= -67)%Z.
Proof.
  intros Hc.
  assert (H : forallb (fun c => (25 <=? fst c)%Z && (fst c <=? 47)%Z
                                && (-125 <=? snd c)%Z && (snd c <=? -67)%Z)
                      (aod_lattice 2) = true) by (vm_compute; reflexivity).
  rewrite forallb_forall in H. specialize (H c Hc).
  rewrite !andb_true_iff, !Z.leb_le in H. lia.
Qed.

Lemma aod_cells_box (points : list Aod.point) (rnd : nat -> R) (pos : nat)
    (cs : list (Z * Z)) (c : Aod.point) :
  (forall n, 0 <= rnd n < 1) ->
  In c (aod_cells points rnd pos cs) ->
  exists la lo, In (la, lo) cs
    /\ Rabs (Aod.lat c - IZR la) <= 0.3 /\ Rabs (Aod.lon c - IZR lo) <= 0.3.
Proof.
  intros Hr. revert pos. induction cs as [| [la lo] cs IH]; intros pos Hc;
    [contradiction |].
  simpl in Hc. destruct Hc as [<- | Hc].
  - exists la, lo. split; [left; reflexivity |]. simpl.
    pose proof (uniform_jitter _ (Hr pos)).
    pose proof (uniform_jitter _ (Hr (S pos))).
    split; apply Rabs_le; lra.
  - destruct (IH _ Hc) as [la' [lo' [Hin Hb]]].
    exists la', lo'. split; [right; exact Hin | exact Hb].
Qed.

Lemma fetch_aod_granules_random (svc : Aod.earthdata) (g : Aod.generators) :
  Aod.random (snd (Aod.fetch_aod_granules svc g)) = Aod.random g.
Proof.
  unfold Aod.fetch_aod_granules.
  destruct (negb (Aod.login svc)); [reflexivity |].
  destruct (Aod.search svc); [| reflexivity].
  destruct (simulate_spec 250 g []) as [new [Heq _]].
  rewrite Heq. reflexivity.
Qed.

(** X17: when there is no fresh cache entry, the login and the search
    succeed and [random()] returns values in [[0, 1)], [fetch_aod_data]
    returns 360 cells and stores them in the cache file.  Every cell has a
    value in [[0.01, 1.5]] and lies within 0.3 degrees of the grid, that
    is between 24.7 and 47.3 N and between 125.3 and 66.7 W.  The call has
    then drawn 1220 values from [random()] and 250 normal values. *)
Theorem fetch_aod_data_fresh_grid (w : Aod.world) :
  stale_or_absent w ->
  Aod.login (fst (Cache.outside w)) = true ->
  Aod.search (fst (Cache.outside w)) = true ->
  (forall n, 0 <= Aod.random (snd (Cache.outside w)) n < 1) ->
  exists cells w',
    Aod.fetch_aod_data w = (Ok cells, w', 1%nat)
    /\ length cells = 360%nat
    /\ Cache.cache_file w'
       = Some {| Cache.st_mtime :=
                   Cache.now w + Aod.elapsed (fst (Cache.outside w));
                 Cache.content := Some cells |}
    /\ Aod.random_pos (snd (Cache.outside w'))
       = (1220 + Aod.random_pos (snd (Cache.outside w)))%nat
    /\ Aod.normal_pos (snd (Cache.outside w'))
       = (250 + Aod.normal_pos (snd (Cache.outside w)))%nat
    /\ forall c, In c cells ->
         0.01 <= Aod.aod c <= 1.5
         /\ 24.7 <= Aod.lat c <= 47.3 /\ -125.3 <= Aod.lon c <= -66.7.
Proof.
  intros Hs Hl Hsearch Hr.
  destruct (Cache.outside w) as [svc g] eqn:Eo. simpl in Hl, Hsearch, Hr.
  destruct (fetch_aod_granules_samples svc g Hr) as [_ [Hcount Hbox]].
  destruct (Hcount Hl Hsearch) as [Hlen [Hrp Hnp]].
  destruct (Aod.fetch_aod_granules svc g) as [raw g1] eqn:Eg.
  simpl in Hlen, Hrp, Hnp, Hbox.
  assert (Hne : raw <> []) by (destruct raw; [discriminate | discriminate]).
  assert (Hr1 : forall n, 0 <= Aod.random g1 n < 1).
  { pose proof (fetch_aod_granules_random svc g) as E.
    rewrite Eg in E. simpl in E. rewrite E. exact Hr. }
  assert (Hc : Aod.compute w
               = (Ok (aod_cells raw (Aod.random g1) (Aod.random_pos g1)
                        (aod_lattice 2)),
                  {| Cache.now := Cache.now w + Aod.elapsed svc;
                     Cache.cache_file := Cache.cache_file w;
                     Cache.outside :=
                       (svc, advance g1 (2 * length (aod_lattice 2))) |})).
  { unfold Aod.compute. rewrite Eo, Eg.
    rewrite smooth_aod_cells by (try assumption; discriminate).
    reflexivity. }
  do 2 eexists.
  split; [unfold Aod.fetch_aod_data; apply cached_fetch_miss;
          [exact Hs | exact Hc] |].
  split; [rewrite aod_cells_length; exact aod_lattice_default_length |].
  split; [reflexivity |].
  split.
  { cbn [Cache.json_dump Cache.outside snd advance Aod.random_pos].
    rewrite aod_lattice_default_length, Hrp. lia. }
  split.
  { cbn [Cache.json_dump Cache.outside snd advance Aod.normal_pos].
    exact Hnp. }
  intros c Hin. split.
  - pose proof (aod_cells_In _ _ _ _ _ Hin)
      as [la [lo [u1 [u2 [_ ->]]]]]. simpl.
    rewrite aod_weighted_avg_mean.
    assert (Hb : IZR 10 / 1000
                 <= Py.round3 (weighted_mean
                      (map Aod.aod (Aod.nearby la lo raw))
                      (Aod.weights la lo (Aod.nearby la lo raw)))
                 <= IZR 1500 / 1000).
    { apply round3_bounds. apply (weighted_mean_bounds Aod.aod).
      - apply first_five_nonempty, Hne.
      - intros n _. apply aod_weight_pos.
      - intros n Hn. apply first_five_In in Hn.
        destruct (Hbox n Hn) as [_ [_ Ha]]. lra. }
    lra.
  - destruct (aod_cells_box _ _ _ _ _ Hr1 Hin) as [la [lo [Hlat [H1 H2]]]].
    apply aod_lattice_default_box in Hlat. simpl in Hlat.
    destruct Hlat as [[Ha Hb] [Hc' Hd]].
    apply IZR_le in Ha, Hb, Hc', Hd.
    apply Rabs_le_between in H1, H2. lra.
Qed.

Lemma fetch_aod_data_fresh_grid_witness :
  let svc := {| Aod.netrc := Aod.LoginNothing;
                Aod.environment := Aod.LoginAuth;
                Aod.search := true; Aod.elapsed := 3 |} in
  let w := aod_world_at 7200 (Some one_sample) svc in
  stale_or_absent w
  /\ Aod.login (fst (Cache.outside w)) = true
  /\ Aod.search (fst (Cache.outside w)) = true
  /\ (forall n, 0 <= Aod.random (snd (Cache.outside w)) n < 1)
  /\ exists cells w',
       Aod.fetch_aod_data w = (Ok cells, w', 1%nat)
       /\ length cells = 360%nat.
Proof.
  intros svc w.
  assert (Hs : stale_or_absent w).
  { right. eexists. split; [reflexivity |]. unfold age_hours. simpl. lra. }
  assert (Hl : Aod.login (fst (Cache.outside w)) = true) by reflexivity.
  assert (Hq : Aod.search (fst (Cache.outside w)) = true) by reflexivity.
  assert (Hr : forall n, 0 <= Aod.random (snd (Cache.outside w)) n < 1)
    by (intros n; simpl; lra).
  split; [exact Hs |]. split; [exact Hl |]. split; [exact Hq |].
  split; [exact Hr |].
  destruct (fetch_aod_data_fresh_grid w Hs Hl Hq Hr)
    as [cells [w' [Hf [Hlen _]]]].
  exists cells, w'. split; [exact Hf | exact Hlen].
Defined.

(* ================================================================== *)
(** * Further properties of the cached fetch *)
(* ================================================================== *)

Section CachedFetchMore.

Context {P E : Type}.
Variable compute : Cache.world P E -> outcome P * Cache.world P E.

(** The three ways a call can end. *)
Lemma cached_fetch_cases (w w' : Cache.world P E) (r : outcome P) (n : nat) :
  Cache.cached_fetch compute w = (r, w', n) ->
  (exists f, is_fresh w f /\ r = Cache.json_load f /\ w' = w /\ n = 0%nat)
  \/ (stale_or_absent w /\ n = 1%nat
      /\ exists w1,
           (exists data, compute w = (Ok data, w1) /\ r = Ok data
                         /\ w' = Cache.json_dump data w1)
           \/ (exists e, compute w = (Raise e, w1) /\ r = Raise e /\ w' = w1)).
Proof.
  unfold Cache.cached_fetch, Cache.fresh.
  destruct (Cache.cache_file w) as [f |] eqn:Ef.
  - destruct (Rlt_dec ((Cache.now w - Cache.st_mtime f) / 3600) 2) as [Hlt | Hge].
    + rewrite ltb_true by exact Hlt. intros H. injection H as <- <- <-.
      left. exists f. repeat split; auto.
    + rewrite ltb_false by lra.
      destruct (compute w) as [[data | e] w1] eqn:Ec;
        intros H; injection H as <- <- <-; right;
        (split; [right; exists f; split; [exact Ef | unfold age_hours; lra] |]);
        (split; [reflexivity |]); exists w1;
        [left; exists data | right; exists e]; auto.
  - destruct (compute w) as [[data | e] w1] eqn:Ec;
      intros H; injection H as <- <- <-; right;
      (split; [left; exact Ef |]);
      (split; [reflexivity |]); exists w1;
      [left; exists data | right; exists e]; auto.
Qed.

Lemma cached_fetch_then_read
    (compute' : Cache.world P E -> outcome P * Cache.world P E)
    (w w' : Cache.world P E) (data : P) (dt : R) (svc : E) :
  Cache.cached_fetch compute w = (Ok data, w', 1%nat) ->
  dt < 7200 ->
  Cache.cached_fetch compute' (later w' dt svc)
  = (Ok data, later w' dt svc, 0%nat).
Proof.
  intros H Hdt. apply cached_fetch_cases in H.
  destruct H as [[f [_ [_ [_ H]]]] | [_ [_ [w1 H]]]]; [discriminate |].
  destruct H as [[d [_ [Ed ->]]] | [e [_ [Ed _]]]]; [| discriminate].
  injection Ed as <-.
  apply (cached_fetch_hit compute' _
           {| Cache.st_mtime := Cache.now w1; Cache.content := Some data |}).
  - split; [reflexivity |]. unfold age_hours. simpl. lra.
  - reflexivity.
Qed.

Lemma cached_fetch_holds (w w' : Cache.world P E) (data : P) (n : nat) :
  Cache.cached_fetch compute w = (Ok data, w', n) ->
  exists f, Cache.cache_file w' = Some f /\ Cache.content f = Some data.
Proof.
  intros H. apply cached_fetch_cases in H.
  destruct H as [[f [[Hf _] [Ed [-> _]]]] | [_ [_ [w1 H]]]].
  - exists f. split; [exact Hf |]. unfold Cache.json_load in Ed.
    destruct (Cache.content f); [congruence | discriminate].
  - destruct H as [[d [_ [Ed ->]]] | [e [_ [Ed _]]]]; [| discriminate].
    injection Ed as <-. eexists. split; reflexivity.
Qed.

End CachedFetchMore.

(** X18: what a call has recomputed and returned is what the next call
    returns, as long as that call comes less than two hours after the
    write: it reads the file, runs no compute step and changes nothing,
    whatever has happened to the services in between.  *)
Theorem fetch_then_read (wq wq' : Aqi.world) (dq : list Aqi.smoothed)
    (sq : Aqi.airnow) (wd wd' : Aod.world) (dd : list Aod.point)
    (sd : Aod.earthdata * Aod.generators) (dt : R) :
  dt < 7200 ->
  (Aqi.fetch_aqi_data wq = (Ok dq, wq', 1%nat) ->
   Aqi.fetch_aqi_data (later wq' dt sq) = (Ok dq, later wq' dt sq, 0%nat))
  /\ (Aod.fetch_aod_data wd = (Ok dd, wd', 1%nat) ->
      Aod.fetch_aod_data (later wd' dt sd) = (Ok dd, later wd' dt sd, 0%nat)).
Proof.
  intros Hdt. split; intros H.
  - apply (cached_fetch_then_read Aqi.compute Aqi.compute wq wq' dq dt sq H Hdt).
  - apply (cached_fetch_then_read Aod.compute Aod.compute wd wd' dd dt sd H Hdt).
Qed.

Lemma fetch_then_read_witness :
  let w := world_at 7200 airnow_down in
  let w' := {| Cache.now := 7200 + 15;
               Cache.cache_file :=
                 Some {| Cache.st_mtime := 7200 + 15;
                         Cache.content := Some [] |};
               Cache.outside := airnow_down |} in
  3600 < 7200
  /\ Aqi.fetch_aqi_data w = (Ok [], w', 1%nat)
  /\ Aqi.fetch_aqi_data (later w' 3600 airnow_down)
     = (Ok [], later w' 3600 airnow_down, 0%nat).
Proof.
  intros w w'.
  assert (Hdt : 3600 < 7200) by lra.
  assert (H : Aqi.fetch_aqi_data w = (Ok [], w', 1%nat)).
  { apply aqi_fetch_nothing; [| reflexivity].
    right. eexists. split; [reflexivity |]. unfold age_hours. simpl. lra. }
  split; [exact Hdt |]. split; [exact H |].
  exact (proj1 (fetch_then_read w w' [] airnow_down
                  (aod_world_at 0 None earthdata_denied)
                  (aod_world_at 0 None earthdata_denied) []
                  (earthdata_denied, steady 0) 3600 Hdt) H).
Defined.

(** X19: whenever a fetcher returns a payload, from the file or freshly
    computed, the cache file exists afterwards and holds exactly that
    payload. *)
Theorem returned_payload_is_cached (wq wq' : Aqi.world)
    (dq : list Aqi.smoothed) (nq : nat) (wd wd' : Aod.world)
    (dd : list Aod.point) (nd : nat) :
  (Aqi.fetch_aqi_data wq = (Ok dq, wq', nq) ->
   exists f, Cache.cache_file wq' = Some f /\ Cache.content f = Some dq)
  /\ (Aod.fetch_aod_data wd = (Ok dd, wd', nd) ->
      exists f, Cache.cache_file wd' = Some f /\ Cache.content f = Some dd).
Proof.
  split; intros H.
  - apply (cached_fetch_holds Aqi.compute wq wq' dq nq H).
  - apply (cached_fetch_holds Aod.compute wd wd' dd nd H).
Qed.

Lemma returned_payload_is_cached_witness :
  let w := world_at 3600 airnow_down in
  Aqi.fetch_aqi_data w = (Ok old_payload, w, 0%nat)
  /\ exists f, Cache.cache_file w = Some f
               /\ Cache.content f = Some old_payload.
Proof.
  intros w.
  assert (H : Aqi.fetch_aqi_data w = (Ok old_payload, w, 0%nat)).
  { apply (cached_fetch_hit Aqi.compute w
             {| Cache.st_mtime := 0; Cache.content := Some old_payload |});
      [| reflexivity].
    split; [reflexivity |]. unfold age_hours. simpl. lra. }
  split; [exact H |].
  exact (proj1 (returned_payload_is_cached w w old_payload 0
                  (aod_world_at 0 None earthdata_denied)
                  (aod_world_at 0 None earthdata_denied) [] 0) H).
Defined.

(* ================================================================== *)
(** * Capped predictions and the mock AOD route *)
(* ================================================================== *)

Lemma capped_range (x : R) : 0 <= Rmin (Rmax x 0) 200 <= 200.
Proof.
  unfold Rmin, Rmax. destruct (Rle_dec x 0); destruct (Rle_dec _ 200); lra.
Qed.

Lemma capped_mono (x y : R) :
  x <= y -> Rmin (Rmax x 0) 200 <= Rmin (Rmax y 0) 200.
Proof.
  intros H. unfold Rmin, Rmax.
  destruct (Rle_dec x 0); destruct (Rle_dec y 0);
    repeat match goal with |- context [Rle_dec ?a ?b] => destruct (Rle_dec a b) end;
    lra.
Qed.

Lemma cap_floor (x : R) : Predict.cap x = Zfloor (Rmin (Rmax x 0) 200).
Proof.
  unfold Predict.cap, Py.int. pose proof (capped_range x).
  rewrite ltb_false by lra. reflexivity.
Qed.

Lemma cap_floor_range (x : R) : (0 <= Predict.cap x <= 200)%Z.
Proof.
  rewrite cap_floor. pose proof (capped_range x) as [H0 H200].
  pose proof (Zfloor_bound (Rmin (Rmax x 0) 200)) as [Hf1 Hf2].
  split; [apply Zfloor_lub; simpl; lra |]. apply le_IZR. lra.
Qed.

(** X21: the capping [int(min(max(pred, 0), 200))] maps every model
    output into 0..200 and never reverses an order.  Outputs below 1
    (negative ones included) give 0, outputs of 200 or more give 200, and
    in between the fraction is cut off, not rounded. *)
Theorem cap_saturates (x y : R) :
  (0 <= Predict.cap x <= 200)%Z
  /\ (x <= y -> (Predict.cap x <= Predict.cap y)%Z)
  /\ (x < 1 -> Predict.cap x = 0%Z)
  /\ (200 <= x -> Predict.cap x = 200%Z)
  /\ (0 <= x <= 200 -> IZR (Predict.cap x) <= x < IZR (Predict.cap x) + 1).
Proof.
  rewrite !cap_floor. pose proof (capped_range x) as [H0 H200].
  pose proof (Zfloor_bound (Rmin (Rmax x 0) 200)) as [Hf1 Hf2].
  split.
  { split; [apply Zfloor_lub; simpl; lra |]. apply le_IZR. lra. }
  split; [intros H; apply Zfloor_le, capped_mono, H |].
  split.
  { intros H. apply Zfloor_eq. simpl. revert H0.
    unfold Rmin, Rmax. destruct (Rle_dec x 0); destruct (Rle_dec _ 200); lra. }
  split.
  { intros H. apply Zfloor_eq. revert H0.
    unfold Rmin, Rmax. destruct (Rle_dec x 0); destruct (Rle_dec _ 200); lra. }
  intros [Hx0 Hx200].
  assert (E : Rmin (Rmax x 0) 200 = x).
  { unfold Rmin, Rmax. destruct (Rle_dec x 0); destruct (Rle_dec _ 200); lra. }
  rewrite E in Hf1, Hf2. rewrite E. lra.
Qed.

Lemma cap_saturates_witness :
  150.9 <= 151 /\ 150.9 < 200 /\ 0 <= 150.9 <= 200
  /\ (Predict.cap 150.9 <= Predict.cap 151)%Z
  /\ IZR (Predict.cap 150.9) <= 150.9 < IZR (Predict.cap 150.9) + 1.
Proof.
  assert (H1 : 150.9 <= 151) by lra.
  assert (H2 : 150.9 < 200) by lra.
  assert (H3 : 0 <= 150.9 <= 200) by lra.
  split; [exact H1 |]. split; [exact H2 |]. split; [exact H3 |].
  destruct (cap_saturates 150.9 151) as [_ [Hm [_ [_ Ht]]]].
  split; [exact (Hm H1) | exact (Ht H3)].
Defined.

Lemma predict_loop_spec (model : R -> R -> R) (rnd : nat -> R) (n : nat) :
  forall pos predictions,
    exists new,
      Predict.predict_loop model rnd n pos predictions
      = (predictions ++ new, (2 * n + pos)%nat)
      /\ length new = n
      /\ forall p, In p new ->
           Predict.predicted_aqi p
           = Predict.cap (model (Predict.lat p) (Predict.lon p))
           /\ Predict.category p = Predict.label (Predict.predicted_aqi p)
           /\ exists k1 k2,
                Predict.lat p = Py.uniform 25 49 (rnd k1)
                /\ Predict.lon p = Py.uniform (-125) (-66) (rnd k2).
Proof.
  induction n as [| n IH]; intros pos predictions.
  - exists []. simpl. rewrite app_nil_r.
    split; [reflexivity |]. split; [reflexivity | intros p []].
  - cbn [Predict.predict_loop].
    edestruct IH as [new [Heq [Hlen Hb]]]. rewrite Heq. clear Heq.
    eexists (_ :: new). rewrite <- app_assoc.
    split; [simpl; f_equal; lia |].
    split; [simpl; rewrite Hlen; reflexivity |].
    intros p [<- | Hp]; [| apply Hb, Hp].
    simpl. split; [reflexivity |]. split; [reflexivity |].
    eexists. eexists. split; reflexivity.
Qed.

(** X22: whatever the model returns, [predict_aqi] emits exactly 30
    predictions after 60 calls of [random()]; with [random()] in [[0, 1)]
    each lies in the box 25..49 N by 125..66 W, carries an index between
    0 and 200, and is labelled by the band of that index: "Good" up to 50,
    "Moderate" up to 100, "Unhealthy for Sensitive Groups" up to 150 and
    "Unhealthy" above. *)
Theorem predict_aqi_predictions (model : R -> R -> R) (rnd : nat -> R)
    (pos : nat) :
  (forall n, 0 <= rnd n < 1) ->
  length (fst (Predict.predict_aqi model rnd pos)) = 30%nat
  /\ snd (Predict.predict_aqi model rnd pos) = (60 + pos)%nat
  /\ forall p, In p (fst (Predict.predict_aqi model rnd pos)) ->
       25 <= Predict.lat p <= 49 /\ -125 <= Predict.lon p <= -66
       /\ (0 <= Predict.predicted_aqi p <= 200)%Z
       /\ ((Predict.predicted_aqi p <= 50)%Z ->
           Predict.category p = "Good"%string)
       /\ ((50 < Predict.predicted_aqi p <= 100)%Z ->
           Predict.category p = "Moderate"%string)
       /\ ((100 < Predict.predicted_aqi p <= 150)%Z ->
           Predict.category p = "Unhealthy for Sensitive Groups"%string)
       /\ ((150 < Predict.predicted_aqi p)%Z ->
           Predict.category p = "Unhealthy"%string).
Proof.
  intros Hr. unfold Predict.predict_aqi.
  destruct (predict_loop_spec model rnd 30 pos []) as [new [Heq [Hlen Hb]]].
  rewrite Heq. simpl fst. simpl snd.
  split; [exact Hlen |]. split; [reflexivity |].
  intros p Hp. destruct (Hb p Hp) as [Hv [Hc [k1 [k2 [E1 E2]]]]].
  pose proof (Hr k1). pose proof (Hr k2).
  split; [rewrite E1; unfold Py.uniform; lra |].
  split; [rewrite E2; unfold Py.uniform; lra |].
  split.
  { rewrite Hv.
    apply (cap_floor_range (model (Predict.lat p) (Predict.lon p))). }
  rewrite Hc. unfold Predict.label.
  repeat split; intros Hb';
    repeat match goal with
      | |- context [(?a <=? ?b)%Z] => destruct (Z.leb_spec a b)
      end; try reflexivity; lia.
Qed.

Lemma predict_aqi_predictions_witness :
  (forall n, 0 <= (fun _ : nat => 1 / 2) n < 1)
  /\ length (fst (Predict.predict_aqi (fun la lo => la + lo)
                    (fun _ => 1 / 2) 0)) = 30%nat.
Proof.
  assert (Hr : forall n, 0 <= (fun _ : nat => 1 / 2) n < 1)
    by (intros n; simpl; lra).
  split; [exact Hr |].
  exact (proj1 (predict_aqi_predictions (fun la lo => la + lo)
                  (fun _ => 1 / 2) 0 Hr)).
Defined.

Lemma mock_loop_spec (rnd : nat -> R) (n : nat) :
  forall pos aod_data,
    exists new,
      Main.mock_loop rnd n pos aod_data = (aod_data ++ new, (3 * n + pos)%nat)
      /\ length new = n
      /\ forall p, In p new ->
           exists k1 k2 k3,
             Aod.lat p = Py.uniform 25 49 (rnd k1)
             /\ Aod.lon p = Py.uniform (-125) (-66) (rnd k2)
             /\ Aod.aod p = Py.round3 (Py.uniform 0.05 0.35 (rnd k3)).
Proof.
  induction n as [| n IH]; intros pos aod_data.
  - exists []. simpl. rewrite app_nil_r.
    split; [reflexivity |]. split; [reflexivity | intros p []].
  - cbn [Main.mock_loop].
    edestruct IH as [new [Heq [Hlen Hb]]]. rewrite Heq. clear Heq.
    eexists (_ :: new). rewrite <- app_assoc.
    split; [simpl; f_equal; lia |].
    split; [simpl; rewrite Hlen; reflexivity |].
    intros p [<- | Hp]; [| apply Hb, Hp].
    simpl. do 3 eexists. repeat split; reflexivity.
Qed.

(** X23: the mock AOD route builds exactly 100 points from 300 calls of
    [random()]; with [random()] in [[0, 1)] every point lies in the box
    25..49 N by 125..66 W and its value, rounded to three decimals, stays
    between 0.05 and 0.35. *)
Theorem get_aod_mock_points (rnd : nat -> R) (pos : nat) :
  (forall n, 0 <= rnd n < 1) ->
  length (fst (Main.get_aod_mock rnd pos)) = 100%nat
  /\ snd (Main.get_aod_mock rnd pos) = (300 + pos)%nat
  /\ forall p, In p (fst (Main.get_aod_mock rnd pos)) ->
       25 <= Aod.lat p <= 49 /\ -125 <= Aod.lon p <= -66
       /\ 0.05 <= Aod.aod p <= 0.35.
Proof.
  intros Hr. unfold Main.get_aod_mock.
  destruct (mock_loop_spec rnd 100 pos []) as [new [Heq [Hlen Hb]]].
  rewrite Heq. simpl fst. simpl snd.
  split; [exact Hlen |]. split; [reflexivity |].
  intros p Hp. destruct (Hb p Hp) as [k1 [k2 [k3 [E1 [E2 E3]]]]].
  pose proof (Hr k1). pose proof (Hr k2). pose proof (Hr k3).
  split; [rewrite E1; unfold Py.uniform; lra |].
  split; [rewrite E2; unfold Py.uniform; lra |].
  rewrite E3.
  assert (Hb3 : IZR 50 / 1000 <= Py.round3 (Py.uniform 0.05 0.35 (rnd k3))
                <= IZR 350 / 1000).
  { apply round3_bounds. unfold Py.uniform. lra. }
  lra.
Qed.

Lemma get_aod_mock_points_witness :
  (forall n, 0 <= (fun _ : nat => 1 / 2) n < 1)
  /\ length (fst (Main.get_aod_mock (fun _ => 1 / 2) 0)) = 100%nat.
Proof.
  assert (Hr : forall n, 0 <= (fun _ : nat => 1 / 2) n < 1)
    by (intros n; simpl; lra).
  split; [exact Hr |].
  exact (proj1 (get_aod_mock_points (fun _ => 1 / 2) 0 Hr)).
Defined.
